(** * aceru-checkout: the CSV pipeline, embedded and verified

    The Python scripts of the repository are embedded stage by stage, one
    module per source file.  Text is Rocq's [string]: a character is a code
    point in U+0000..U+00FF and the case and whitespace functions follow
    Python's [str] on that range.  The amounts of the budget guard are
    Python floats, that is binary64 numbers: Rocq's primitive [float], whose
    operations round as the machine does.  A pandas frame is its list of
    column names together with its rows, each row a dict in column order. *)

From Stdlib Require Import List String Ascii Bool Arith ZArith Lia.
From Stdlib Require Import DecimalString Floats.
From Stdlib Require Uint63.
Import ListNotations.
Open Scope string_scope.

(** A decimal literal in [float_scope] denotes the nearest binary64 number,
    as the same literal does in Python. *)
Set Warnings "-inexact-float".

(* ================================================================== *)
(** * Python values and text *)
(* ================================================================== *)

Module Py.

(** ** Characters *)

Definition code (c : ascii) : nat := nat_of_ascii c.

Definition between (lo hi n : nat) : bool := (lo <=? n)%nat && (n <=? hi)%nat.

(** [str.isspace] on one character: TAB..CR, FS..US, space, NEL, NBSP. *)
Definition isspace (c : ascii) : bool :=
  between 9 13 (code c) || between 28 32 (code c)
  || (code c =? 133)%nat || (code c =? 160)%nat.

(** [str.lower] on one character: A-Z and the capital letters of the
    Latin-1 supplement (U+00C0..U+00DE except the multiplication sign). *)
Definition lower_char (c : ascii) : ascii :=
  if between 65 90 (code c)
     || (between 192 222 (code c) && negb (code c =? 215)%nat)
  then ascii_of_nat (code c + 32) else c.

(** [str.upper] on one character.  The sharp s becomes "SS"; the two
    letters whose capitals lie beyond U+00FF (micro sign, y with
    diaeresis) are left as they are. *)
Definition upper_char (c : ascii) : string :=
  if between 97 122 (code c)
     || (between 224 254 (code c) && negb (code c =? 247)%nat)
  then String (ascii_of_nat (code c - 32)) ""
  else if (code c =? 223)%nat then "SS"
  else String c "".

(** The class [[a-z0-9]] of the regular expressions. *)
Definition is_alnum_lc (c : ascii) : bool :=
  between 97 122 (code c) || between 48 57 (code c).

Definition is_hyphen (c : ascii) : bool := (code c =? 45)%nat.

(** ** Strings *)

Fixpoint lower (s : string) : string :=
  match s with
  | "" => ""
  | String c s' => String (lower_char c) (lower s')
  end.

Fixpoint upper (s : string) : string :=
  match s with
  | "" => ""
  | String c s' => upper_char c ++ upper s'
  end.

(** [s[:n]] *)
Fixpoint slice_to (n : nat) (s : string) : string :=
  match n, s with
  | S n', String c s' => String c (slice_to n' s')
  | _, _ => ""
  end.

Fixpoint all_chars (p : ascii -> bool) (s : string) : bool :=
  match s with
  | "" => true
  | String c s' => p c && all_chars p s'
  end.

(** Removal of the leading, and of the trailing, characters in a class. *)
Fixpoint lstrip_by (p : ascii -> bool) (s : string) : string :=
  match s with
  | "" => ""
  | String c s' => if p c then lstrip_by p s' else s
  end.

Fixpoint rstrip_by (p : ascii -> bool) (s : string) : string :=
  match s with
  | "" => ""
  | String c s' =>
      if p c && all_chars p s' then "" else String c (rstrip_by p s')
  end.

Definition strip_by (p : ascii -> bool) (s : string) : string :=
  rstrip_by p (lstrip_by p s).

(** [s.strip()] and [s.strip("-")] *)
Definition strip : string -> string := strip_by isspace.
Definition strip_hyphens : string -> string := strip_by is_hyphen.

(** Does a word end right before [s]?  (At whitespace or at the end.) *)
Definition at_space (s : string) : bool :=
  match s with
  | "" => true
  | String c _ => isspace c
  end.

(** [s.split()]: the maximal runs of non-whitespace characters. *)
Fixpoint split (s : string) : list string :=
  match s with
  | "" => []
  | String c s' =>
      if isspace c then split s'
      else if at_space s' then String c "" :: split s'
      else match split s' with
           | w :: ws => String c w :: ws
           | [] => [String c ""]
           end
  end.

(** [s.split(sep)] for a one-character separator: empty fields are kept,
    and the empty string gives one empty field. *)
Fixpoint split_on (sep : ascii) (s : string) : list string :=
  match s with
  | "" => [""]
  | String c s' =>
      if Ascii.eqb c sep then "" :: split_on sep s'
      else match split_on sep s' with
           | w :: ws => String c w :: ws
           | [] => [String c ""]
           end
  end.

(** [sep.join(l)] *)
Fixpoint join (sep : string) (l : list string) : string :=
  match l with
  | [] => ""
  | [w] => w
  | w :: ws => w ++ sep ++ join sep ws
  end.

Definition is_empty (s : string) : bool :=
  match s with "" => true | _ => false end.

(** [a or b] on strings: the empty string is falsy. *)
Definition str_or (a b : string) : string := if is_empty a then b else a.

(** Does [s] begin with a character of the class [p]? *)
Definition starts_with (p : ascii -> bool) (s : string) : bool :=
  match s with
  | "" => false
  | String c _ => p c
  end.

(** [re.sub(r"[^a-z0-9]+", "-", s)]: every maximal run of characters
    outside the class becomes one hyphen, written where the run ends. *)
Fixpoint sub_non_alnum (s : string) : string :=
  match s with
  | "" => ""
  | String c s' =>
      if is_alnum_lc c then String c (sub_non_alnum s')
      else if starts_with (fun d => negb (is_alnum_lc d)) s'
           then sub_non_alnum s'
           else String "-" (sub_non_alnum s')
  end.

(** [re.sub(r"-{2,}", "-", s)]: a run of two or more hyphens becomes one
    hyphen (a lone hyphen is a run that stays). *)
Fixpoint sub_hyphen_runs (s : string) : string :=
  match s with
  | "" => ""
  | String c s' =>
      if is_hyphen c && starts_with is_hyphen s' then sub_hyphen_runs s'
      else String c (sub_hyphen_runs s')
  end.

(** [str(n)] of an int. *)
Definition str_of_int (n : Z) : string := NilZero.string_of_int (Z.to_int n).

(** ** Classes of characters and strings used to state the properties *)

(** [c.lower() == c] *)
Definition lower_fixed (c : ascii) : bool := Ascii.eqb (lower_char c) c.

Definition non_space (c : ascii) : bool := negb (isspace c).

(** An ASCII letter or digit. *)
Definition is_ascii_alnum (c : ascii) : bool :=
  between 48 57 (code c) || between 65 90 (code c) || between 97 122 (code c).

(** A title of ASCII letters, digits and whitespace, not all whitespace. *)
Definition plain_title (s : string) : bool :=
  all_chars (fun c => is_ascii_alnum c || isspace c) s
  && negb (all_chars isspace s).

(** A character of a lowered plain title. *)
Definition word_or_space (c : ascii) : bool := is_alnum_lc c || isspace c.

(** A run of characters of the class [[a-z0-9]]. *)
Definition is_word (w : string) : Prop :=
  all_chars is_alnum_lc w = true /\ w <> "".

(** A string of characters [[a-z0-9-]] in which no two hyphens touch. *)
Fixpoint tidy (s : string) : bool :=
  match s with
  | "" => true
  | String c s' =>
      (is_alnum_lc c || (is_hyphen c && negb (starts_with is_hyphen s')))
      && tidy s'
  end.

End Py.

(* ================================================================== *)
(** * Dicts, cells, frames, exceptions *)
(* ================================================================== *)

Module Data.

(** A Python dict with string keys, in insertion order. *)
Definition dict (V : Type) : Type := list (string * V).

Fixpoint get {V} (k : string) (d : dict V) : option V :=
  match d with
  | [] => None
  | (k', v) :: d' => if String.eqb k' k then Some v else get k d'
  end.

(** [d.get(k, default)] *)
Definition get_or {V} (k : string) (default : V) (d : dict V) : V :=
  match get k d with Some v => v | None => default end.

(** [d[k] = v]: an existing key keeps its place, a new key goes last. *)
Fixpoint set {V} (k : string) (v : V) (d : dict V) : dict V :=
  match d with
  | [] => [(k, v)]
  | (k', v') :: d' =>
      if String.eqb k' k then (k', v) :: d' else (k', v') :: set k v d'
  end.

Definition keys {V} (d : dict V) : list string := map fst d.

(** [k in l] *)
Definition mem (k : string) (l : list string) : bool :=
  existsb (String.eqb k) l.

(** A scalar as pandas holds it in a cell: a string, an int, a float or a
    bool.  A float is kept as the text that [str] gives for it; the missing
    value is the float [nan]. *)
Inductive cell : Type :=
| CStr (s : string)
| CInt (n : Z)
| CNum (repr : string)
| CBool (b : bool).

Definition NaN : cell := CNum "nan".

(** [str(x)] *)
Definition py_str (x : cell) : string :=
  match x with
  | CStr s => s
  | CInt n => Py.str_of_int n
  | CNum repr => repr
  | CBool true => "True"
  | CBool false => "False"
  end.

Definition is_str (x : cell) : bool :=
  match x with CStr _ => true | _ => false end.

Definition is_number (x : cell) : bool :=
  match x with CInt _ | CNum _ => true | _ => false end.

Definition is_float (x : cell) : bool :=
  match x with CNum _ => true | _ => false end.

(** A value decoded from JSON, or any Python value put in a row. *)
#[warnings="-register-all"]
Inductive pyval : Type :=
| PNone
| PBool (b : bool)
| PNum (repr : string)
| PStr (s : string)
| PList (l : list pyval)
| PDict (kv : list (string * pyval)).

Definition of_cell (x : cell) : pyval :=
  match x with
  | CStr s => PStr s
  | CInt n => PNum (Py.str_of_int n)
  | CNum repr => PNum repr
  | CBool b => PBool b
  end.

(** A pandas frame: the column index and the rows, every row a dict
    whose keys are the columns, in order. *)
Record DataFrame : Type := {
  columns : list string;
  rows : list (dict cell)
}.

(** The cell of a row under a column; a key the row lacks reads as a
    missing value, as in a frame built from dicts. *)
Definition at_col (r : dict cell) (c : string) : cell := get_or c NaN r.

(** Column names are unique and every row carries exactly the columns. *)
Definition wf_frame (df : DataFrame) : Prop :=
  NoDup (columns df) /\ Forall (fun r => keys r = columns df) (rows df).

(** The cells of a frame, and of one of its columns. *)
Definition cells (rs : list (dict cell)) : list cell :=
  flat_map (fun r => map snd r) rs.

Definition column (c : string) (rs : list (dict cell)) : list cell :=
  map (fun r => at_col r c) rs.

(** The values that numpy holds as float64 when it is given them together:
    all of them numbers, and one of them a float. *)
Definition float64 (values : list cell) : bool :=
  forallb is_number values && existsb is_float values.

Section Dtypes.
(** [str(float(n))], the text of the float an int becomes. *)
Variable float_text : Z -> string.

(** An int held in a float64 array. *)
Definition upcast (x : cell) : cell :=
  match x with
  | CInt n => CNum (float_text n)
  | _ => x
  end.

(** [df.iterrows()]: every row comes as a Series of the one dtype that
    holds all the columns, so in a frame of numeric columns of which one is
    float64 the ints come out as floats; in any other frame the values come
    out as they are. *)
Definition iterrows (df : DataFrame) : list (dict cell) :=
  if float64 (cells (rows df))
  then map (map (fun kv => (fst kv, upcast (snd kv)))) (rows df)
  else rows df.

(** One row as [iterrows] gives it, [as_float] telling whether the frame
    is read as float64. *)
Definition seen_row (as_float : bool) (r : dict cell) : dict cell :=
  if as_float then map (fun kv => (fst kv, upcast (snd kv))) r else r.

(** One record as a row of the frame built from [records]: a key it lacks
    reads as missing, and an int under a column whose values make a
    float64 column becomes a float. *)
Definition typed_row (cols : list string) (records : list (dict cell))
  (r : dict cell) : dict cell :=
  map (fun c =>
         (c, if float64 (column c records)
             then upcast (at_col r c) else at_col r c))
    cols.

(** [pd.DataFrame(records, columns=cols)]: the dtype of every column is
    inferred anew from its values, so the ints of a column that also holds
    a float (a missing value is one) become floats. *)
Definition from_records (cols : list string) (records : list (dict cell))
  : DataFrame :=
  {| columns := cols; rows := map (typed_row cols records) records |}.

End Dtypes.

(** The text of a [RuntimeError]: a literal, or one of the f-strings of
    the two budget guards, kept as the figures it prints with [:.2f]:
    "Budget cap hit. Spent~$spent, need $need, cap $cap" in ecom_agents.py
    and "Budget cap hit (spent~$spent / cap $cap)" in seed_from_kit.py. *)
Inductive message : Type :=
| Text (s : string)
| CapHit (spent need cap : float)
| CapHitBook (spent cap : float).

Coercion Text : string >-> message.

(** The exceptions the stages raise; all are subclasses of [Exception]. *)
Inductive exn : Type :=
| RuntimeError (msg : message)
| OverflowError
| ProviderError
| AttributeError
| TypeError
| KeyError (k : string)
| ValueError (name : string) (missing : list string).

(** The error of [BudgetGuard.check_and_book]. *)
Definition BudgetCapHit (spent need cap : float) : exn :=
  RuntimeError (CapHit spent need cap).

(** [float(n)] for a Python int, as [est * calls] converts its second
    operand: the nearest binary64 number, ties to even; an int whose
    nearest number is beyond the largest one raises [OverflowError]. *)
Definition float_of_int (n : Z) : exn + float :=
  let f := SF2Prim (binary_normalize prec emax n 0 false) in
  if is_infinity f then inl OverflowError else inr f.

(** What the chat-completion provider does with one request, after
    [json.loads] of the answer: an exception, or the decoded value.  The
    prompt is not part of the model: the answer is an input. *)
Inductive reply : Type :=
| Fails
| Returns (data : pyval).

End Data.

(* ================================================================== *)
(** * The budget guard and the state-and-exception monad of a run *)
(* ================================================================== *)

Module Budget.
Import Data.

(** [class BudgetGuard]: the cap, the booked spend, the per-call estimate. *)
Record BudgetGuard : Type := {
  total : float;
  spent : float;
  est : float
}.

(** [BudgetGuard(total_usd, est_per_call)] *)
Definition init (total_usd est_per_call : float) : BudgetGuard :=
  {| total := total_usd; spent := 0%float; est := est_per_call |}.

Definition with_spent (g : BudgetGuard) (s : float) : BudgetGuard :=
  {| total := total g; spent := s; est := est g |}.

(** A computation that reads and writes the process-wide guard and may
    raise.  The state that comes back with an exception is the state at
    the point of the raise. *)
Definition M (A : Type) : Type := BudgetGuard -> (exn + A) * BudgetGuard.

Definition ret {A} (a : A) : M A := fun g => (inr a, g).

Definition raise {A} (e : exn) : M A := fun g => (inl e, g).

Definition bind {A B} (m : M A) (k : A -> M B) : M B :=
  fun g =>
    match m g with
    | (inr a, g') => k a g'
    | (inl e, g') => (inl e, g')
    end.

(** [try: m  except Exception as e: h(e)] *)
Definition try_except {A} (m : M A) (h : exn -> M A) : M A :=
  fun g =>
    match m g with
    | (inr a, g') => (inr a, g')
    | (inl e, g') => h e g'
    end.

(** A pure step that may raise. *)
Definition lift {A} (x : exn + A) : M A :=
  match x with
  | inl e => raise e
  | inr a => ret a
  end.

Definition failed {A} (x : exn + A) : bool :=
  match x with inl _ => true | inr _ => false end.

End Budget.

Declare Scope run_scope.
Delimit Scope run_scope with run.
Notation "x <- m ;; k" := (Budget.bind m (fun x => k))
  (at level 61, m at next level, right associativity) : run_scope.
Notation "m ;;; k" := (Budget.bind m (fun _ => k))
  (at level 61, right associativity) : run_scope.

(* ================================================================== *)
(** * ecom_agents.py *)
(* ================================================================== *)

Module ecom_agents.
Import Py Data Budget.
Local Open Scope run_scope.

Definition EST_COST_PER_CALL : float := 0.01%float.
Definition DEFAULT_VENDOR : string := "Aceru Studio".
Definition DEFAULT_PRICE : string := "19.99".

(** [BudgetGuard.check_and_book(calls)]: [projected > self.total] is the
    comparison of two floats, false when either is not a number. *)
Definition check_and_book (calls : Z) : M unit :=
  fun g =>
    match float_of_int calls with
    | inl e => (inl e, g)
    | inr n =>
        let projected := (spent g + est g * n)%float in
        if (total g <? projected)%float
        then (inl (BudgetCapHit (spent g) (est g * n)%float (total g)), g)
        else (inr tt, with_spent g projected)
    end.

(** [llm_json]: the reservation comes first; the provider is asked, and
    its answer decoded, only once the reservation went through. *)
Definition llm_json (answer : reply) : M pyval :=
  check_and_book 1 ;;;
  match answer with
  | Fails => raise ProviderError
  | Returns data => ret data
  end.

(** [generate_niche_kit] and [generate_ad_creatives]: one gateway call,
    nothing catches what it raises; the decoded value is what is written. *)
Definition generate_niche_kit (answer : reply) : M pyval := llm_json answer.
Definition generate_ad_creatives (answer : reply) : M pyval := llm_json answer.

(** The outcome of the script: the [try] around [main()] prints
    "[SUCCESS] ..." or "[FATAL ERROR] ..." with the exception. *)
Inductive outcome (A : Type) : Type :=
| Success (a : A)
| FatalError (e : exn).
Arguments Success {A} a.
Arguments FatalError {A} e.

Definition run_main {A} (m : M A) (g : BudgetGuard) : outcome A * BudgetGuard :=
  match m g with
  | (inr a, g') => (Success a, g')
  | (inl e, g') => (FatalError e, g')
  end.

(** [data.get(k, default)]: only a dict has the method. *)
Definition data_get (data : pyval) (k : string) (default : pyval) : exn + pyval :=
  match data with
  | PDict kv => inr (get_or k default kv)
  | _ => inl AttributeError
  end.

(** [v[:70]]: strings and lists can be sliced, nothing else. *)
Definition slice70 (v : pyval) : exn + pyval :=
  match v with
  | PStr s => inr (PStr (slice_to 70 s))
  | PList l => inr (PList (firstn 70 l))
  | _ => inl TypeError
  end.

(** The items of a list when all of them are strings. *)
Fixpoint all_strings (l : list pyval) : option (list string) :=
  match l with
  | [] => Some []
  | PStr s :: l' =>
      match all_strings l' with
      | Some ss => Some (s :: ss)
      | None => None
      end
  | _ :: _ => None
  end.

(** [", ".join(tags) if isinstance(tags, list) else (base_tags or "")] *)
Definition tag_string (tags : pyval) (base_tags : string) : exn + string :=
  match tags with
  | PList l =>
      match all_strings l with
      | Some ss => inr (join ", " ss)
      | None => inl TypeError
      end
  | _ => inr (str_or base_tags "")
  end.

(** The body of the [try] in [generate_product_copy]. *)
Definition try_body (answer : reply) (title base_tags : string)
  : M (pyval * pyval * string) :=
  data <- llm_json answer ;;
  t <- lift (data_get data "title_seo" (PStr title)) ;;
  out_title <- lift (slice70 t) ;;
  body_html <- lift (data_get data "body_html" (PStr "")) ;;
  tags <- lift (data_get data "tags" (PList [])) ;;
  tag_str <- lift (tag_string tags base_tags) ;;
  ret (out_title, body_html, tag_str).

(** The bullets of the fallback: one item per entry of
    [features.split(",")] that is not blank, stripped. *)
Definition bullets (features : string) : string :=
  join ""
    (map (fun x => "<li>" ++ strip x ++ "</li>")
       (filter (fun x => negb (is_empty (strip x))) (split_on "," features))).

Definition fallback_body (features materials : string) : string :=
  "<h3>Highlights</h3><ul>" ++ bullets features
  ++ "</ul><h3>Details</h3><p>" ++ materials
  ++ "</p><h3>Shipping & Returns</h3><p>30-day returns. Tracked shipping.</p>".

(** The [except Exception] branch. *)
Definition except_body (title features materials base_tags : string)
  : pyval * pyval * string :=
  (PStr (slice_to 70 title), PStr (fallback_body features materials), base_tags).

(** [str(r.get(k, default)).strip()] *)
Definition field (r : dict cell) (k : string) : string :=
  strip (py_str (get_or k (CStr "") r)).

Definition copy_row (vendor : string) (out_title body_html : pyval)
  (tag_str sku price : string) : dict pyval :=
  [ ("Title", out_title);
    ("Body (HTML)", body_html);
    ("Vendor", PStr vendor);
    ("Type", PStr "");
    ("Tags", PStr tag_str);
    ("Published", PBool true);
    ("Option1 Name", PStr "Title");
    ("Option1 Value", PStr "Default Title");
    ("Variant SKU", PStr (str_or sku ""));
    ("Variant Price", PStr price);
    ("Variant Inventory Qty", PNum "10");
    ("Variant Inventory Policy", PStr "deny");
    ("Variant Fulfillment Service", PStr "manual");
    ("Variant Requires Shipping", PBool true);
    ("Variant Taxable", PBool true);
    ("Image Src", PStr "");
    ("Variant Grams", PStr "");
    ("Cost per item", PStr "");
    ("Status", PStr "active") ].

(** One turn of the loop of [generate_product_copy]. *)
Definition enrich (vendor : string) (answer : reply) (r : dict cell)
  : M (dict pyval) :=
  let title := field r "title" in
  let features := field r "features" in
  let materials := field r "materials" in
  let price := py_str (get_or "price" (CStr DEFAULT_PRICE) r) in
  let sku := field r "sku" in
  let base_tags := field r "tags" in
  f <- try_except (try_body answer title base_tags)
         (fun _ => ret (except_body title features materials base_tags)) ;;
  let '(out_title, body_html, tag_str) := f in
  ret (copy_row vendor out_title body_html tag_str sku price).

(** The row the [except] branch leads to. *)
Definition fallback_row (vendor : string) (r : dict cell) : dict pyval :=
  let '(out_title, body_html, tag_str) :=
    except_body (field r "title") (field r "features") (field r "materials")
      (field r "tags") in
  copy_row vendor out_title body_html tag_str (field r "sku")
    (py_str (get_or "price" (CStr DEFAULT_PRICE) r)).

(** The loop over [df.iterrows()], from row number [i] on; [gateway i] is
    the provider's answer to the request made for row [i]. *)
Fixpoint copy_loop (vendor : string) (gateway : nat -> reply) (i : nat)
  (rs : list (dict cell)) : M (list (dict pyval)) :=
  match rs with
  | [] => ret []
  | r :: rs' =>
      o <- enrich vendor (gateway i) r ;;
      os <- copy_loop vendor gateway (S i) rs' ;;
      ret (o :: os)
  end.

(** [generate_product_copy]: the rows written to the intermediate CSV. *)
Definition generate_product_copy (vendor : string) (gateway : nat -> reply)
  (df : list (dict cell)) : M (list (dict pyval)) :=
  copy_loop vendor gateway 0 df.

(** [slug(s)] of [build_shopify_csv] *)
Definition slug (s : cell) : string :=
  join "-" (split (strip (lower (py_str s)))).

Definition required : list string :=
  [ "Handle"; "Title"; "Body (HTML)"; "Vendor"; "Type"; "Tags"; "Published";
    "Option1 Name"; "Option1 Value"; "Variant SKU"; "Variant Grams";
    "Variant Inventory Tracker"; "Variant Inventory Qty";
    "Variant Inventory Policy"; "Variant Fulfillment Service";
    "Variant Price"; "Variant Compare At Price"; "Variant Requires Shipping";
    "Variant Taxable"; "Image Src"; "Image Position"; "Gift Card";
    "SEO Title"; "SEO Description"; "Status" ].

(** [df.get(c, default)], read at one row: the column when the frame has
    it, the default otherwise. *)
Definition col_or (df : DataFrame) (c : string) (default : cell)
  (r : dict cell) : cell :=
  if mem c (columns df) then at_col r c else default.

(** [series.str[:n]] at one cell: a value that is no string gives NaN. *)
Definition str_slice (n : nat) (x : cell) : cell :=
  match x with
  | CStr s => CStr (slice_to n s)
  | _ => NaN
  end.

(** ["High-quality " + series] at one cell. *)
Definition str_prepend (p : string) (x : cell) : cell :=
  match x with
  | CStr s => CStr (p ++ s)
  | _ => NaN
  end.

(** The [.str] accessor is refused on a column that holds no string (a
    numeric, boolean or all-missing column of a CSV file); a column without
    rows is accepted. *)
Definition str_accessor_ok (col : list cell) : bool :=
  match col with
  | [] => true
  | _ => existsb is_str col
  end.

(** One row of [out] after all the column assignments. *)
Definition normalize_row (df : DataFrame) (r : dict cell) : dict cell :=
  let title := at_col r "Title" in
  [ ("Handle", CStr (slug title));
    ("Title", title);
    ("Body (HTML)", at_col r "Body (HTML)");
    ("Vendor", col_or df "Vendor" (CStr DEFAULT_VENDOR) r);
    ("Type", col_or df "Type" (CStr "") r);
    ("Tags", col_or df "Tags" (CStr "") r);
    ("Published", col_or df "Published" (CBool true) r);
    ("Option1 Name", col_or df "Option1 Name" (CStr "Title") r);
    ("Option1 Value", col_or df "Option1 Value" (CStr "Default Title") r);
    ("Variant SKU", col_or df "Variant SKU" (CStr "") r);
    ("Variant Grams", col_or df "Variant Grams" (CStr "") r);
    ("Variant Inventory Tracker", CStr "");
    ("Variant Inventory Qty", col_or df "Variant Inventory Qty" (CInt 10) r);
    ("Variant Inventory Policy",
       col_or df "Variant Inventory Policy" (CStr "deny") r);
    ("Variant Fulfillment Service",
       col_or df "Variant Fulfillment Service" (CStr "manual") r);
    ("Variant Price", col_or df "Variant Price" (CStr DEFAULT_PRICE) r);
    ("Variant Compare At Price", CStr "");
    ("Variant Requires Shipping",
       col_or df "Variant Requires Shipping" (CBool true) r);
    ("Variant Taxable", col_or df "Variant Taxable" (CBool true) r);
    ("Image Src", col_or df "Image Src" (CStr "") r);
    ("Image Position", CStr "");
    ("Gift Card", CStr "FALSE");
    ("SEO Title", str_slice 70 title);
    ("SEO Description", str_prepend "High-quality " (str_slice 140 title));
    ("Status", col_or df "Status" (CStr "active") r) ].

(** [build_shopify_csv]: from the frame read to the frame written. *)
Definition build_shopify_csv (df : DataFrame) : exn + DataFrame :=
  if negb (mem "Title" (columns df)) then inl (KeyError "Title")
  else if negb (mem "Body (HTML)" (columns df)) then inl (KeyError "Body (HTML)")
  else if negb (str_accessor_ok (map (fun r => at_col r "Title") (rows df)))
  then inl AttributeError
  else inr {| columns := required; rows := map (normalize_row df) (rows df) |}.

End ecom_agents.

(* ================================================================== *)
(** * seed_from_kit.py *)
(* ================================================================== *)

Module seed_from_kit.
Import Py Data Budget.
Local Open Scope run_scope.

Definition EST_COST_PER_CALL : float := 0.015%float.

(** [BudgetGuard.book(n)] *)
Definition book (n : Z) : M unit :=
  fun g =>
    match float_of_int n with
    | inl e => (inl e, g)
    | inr x =>
        let nxt := (spent g + est g * x)%float in
        if (total g <? nxt)%float
        then (inl (RuntimeError (CapHitBook (spent g) (total g))), g)
        else (inr tt, with_spent g nxt)
    end.

Definition llm_json (answer : reply) : M pyval :=
  book 1 ;;;
  match answer with
  | Fails => raise ProviderError
  | Returns data => ret data
  end.

(** [data.get("rows", [])] *)
Definition rows_of (data : pyval) : exn + pyval :=
  match data with
  | PDict kv => inr (get_or "rows" (PList []) kv)
  | _ => inl AttributeError
  end.

(** The header row of the seed file. *)
Definition HEADER : list string :=
  ["title"; "features"; "materials"; "use_cases"; "price"; "tags"; "sku"].

(** [for r in rows]: a list gives its items, a dict its keys, a string its
    characters; nothing else can be iterated. *)
Definition items_of (rows : pyval) : exn + list pyval :=
  match rows with
  | PList l => inr l
  | PDict kv => inr (map (fun k => PStr k) (keys kv))
  | PStr s => inr (map (fun c => PStr (String c "")) (list_ascii_of_string s))
  | _ => inl TypeError
  end.

Section Writing.
(** [str(v)] for a list or a dict decoded from JSON: the text of the
    container, which the model does not spell out. *)
Variable str_of_container : pyval -> string.
(** [uuid4().hex[:6].upper()] as drawn at the turn for row [i]. *)
Variable fresh : nat -> string.

(** [str(v)]; a number is kept as the text [str] gives for it. *)
Definition str_of (v : pyval) : string :=
  match v with
  | PNone => "None"
  | PBool true => "True"
  | PBool false => "False"
  | PNum repr => repr
  | PStr s => s
  | _ => str_of_container v
  end.

(** The row written for the item [r] at turn [i], [r] being a dict. *)
Definition csv_row (i : nat) (r : dict pyval) : list string :=
  [ slice_to 70 (strip (str_of (get_or "title" (PStr "") r)));
    strip (str_of (get_or "features" (PStr "") r));
    strip (str_of (get_or "materials" (PStr "") r));
    strip (str_of (get_or "use_cases" (PStr "") r));
    strip (str_of (get_or "price" (PStr "19.99") r));
    strip (str_of (get_or "tags" (PStr "") r));
    strip (str_of (get_or "sku" (PStr ("SKU-" ++ fresh i)) r)) ].

(** The loop that writes the rows, from turn [i] on: the rows written, and
    the exception that ended the loop if an item has no [get] (anything
    but a dict).  The rows written before the exception stay in the file. *)
Fixpoint write_rows (i : nat) (items : list pyval)
  : list (list string) * option exn :=
  match items with
  | [] => ([], None)
  | PDict r :: rest =>
      let '(out, e) := write_rows (S i) rest in
      (csv_row i r :: out, e)
  | _ :: _ => ([], Some AttributeError)
  end.

(** The [with open(...)] block: the header, then the loop over the rows;
    the content of the file when the block ends, or what it raises. *)
Definition written (rows : pyval) : exn + list (list string) :=
  match items_of rows with
  | inl e => inl e
  | inr items =>
      match write_rows 0 items with
      | (_, Some e) => inl e
      | (out, None) => inr (HEADER :: out)
      end
  end.

(** From the gateway call to the end of the function: the handler of the
    [try] prints "[FATAL ERROR] LLM expansion failed" and raises again;
    then the file is opened, the header written and the rows after it.
    The value is the content of the file when the function returns. *)
Definition expand_and_write (answer : reply) : M (list (list string)) :=
  rows <- try_except
            (data <- llm_json answer ;; lift (rows_of data))
            (fun e => raise e) ;;
  lift (written rows).

(** [seed_products_from_kit], from the ideas read from the kit. *)
Definition seed_products_from_kit (ideas : list string) (answer : reply)
  : M (list (list string)) :=
  match ideas with
  | [] => raise (RuntimeError "No product_ideas found in kit JSON.")
  | _ => expand_and_write answer
  end.

End Writing.

End seed_from_kit.

(* ================================================================== *)
(** * pod_variants_builder.py *)
(* ================================================================== *)

Module pod_variants_builder.
Import Py Data.

(** The matrices configured at the top of the script. *)
Record Config : Type := {
  SIZES : list string;
  COLORS : list string;
  PRICE_BY_SIZE : dict string;
  SKU_PREFIX : string
}.

Definition config : Config := {|
  SIZES := ["S"; "M"; "L"; "XL"; "2XL"];
  COLORS := ["black"; "white"; "navy"];
  PRICE_BY_SIZE :=
    [("S", "24.90"); ("M", "24.90"); ("L", "24.90");
     ("XL", "26.90"); ("2XL", "26.90")];
  SKU_PREFIX := "TEE"
|}.

Definition slug (s : cell) : string :=
  join "-" (split (strip (lower (py_str s)))).

(** [itertools.product(xs, ys)] *)
Definition product {A B} (xs : list A) (ys : list B) : list (A * B) :=
  flat_map (fun x => map (fun y => (x, y)) ys) xs.

(** [f"{SKU_PREFIX}-{color[:1].upper()}{size}"] *)
Definition sku_of (cfg : Config) (color size : string) : string :=
  SKU_PREFIX cfg ++ "-" ++ upper (slice_to 1 color) ++ size.

(** What the loop reads from the base row before the inner loop. *)
Record Base : Type := {
  title : string;
  handle : string;
  body : cell;
  vendor : cell;
  tags : cell;
  status : cell;
  base_price : cell
}.

(** [x if first else y] *)
Definition pick {A} (first : bool) (x y : A) : A := if first then x else y.

(** The dict appended for one (color, size). *)
Definition variant_row (cfg : Config) (b : Base) (first : bool)
  (color size : string) : dict cell :=
  let sku := sku_of cfg color size in
  let price :=
    match get size (PRICE_BY_SIZE cfg) with
    | Some p => CStr p
    | None => base_price b
    end in
  [ ("Handle", pick first (CStr (handle b)) (CStr ""));
    ("Title", pick first (CStr (title b)) (CStr ""));
    ("Body (HTML)", pick first (body b) (CStr ""));
    ("Vendor", pick first (vendor b) (CStr ""));
    ("Type", pick first (CStr "t-shirt") (CStr ""));
    ("Tags", pick first (tags b) (CStr ""));
    ("Published", pick first (CBool true) (CStr ""));
    ("Option1 Name", CStr "Color");
    ("Option1 Value", CStr color);
    ("Option2 Name", CStr "Size");
    ("Option2 Value", CStr size);
    ("Variant SKU", CStr sku);
    ("Variant Grams", CStr "");
    ("Variant Inventory Tracker", CStr "");
    ("Variant Inventory Qty", CInt 20);
    ("Variant Inventory Policy", CStr "deny");
    ("Variant Fulfillment Service", CStr "manual");
    ("Variant Price", price);
    ("Variant Compare At Price", CStr "");
    ("Variant Requires Shipping", CBool true);
    ("Variant Taxable", CBool true);
    ("Image Src", CStr "");
    ("Image Position", CStr "");
    ("Gift Card", CStr "FALSE");
    ("SEO Title", pick first (CStr (slice_to 70 (title b))) (CStr ""));
    ("SEO Description",
       pick first (CStr (slice_to 140 ("High-quality " ++ title b))) (CStr ""));
    ("Status", pick first (status b) (CStr "active")) ].

(** The inner loop: [first] is true for the first turn only. *)
Fixpoint variants (cfg : Config) (b : Base) (first : bool)
  (combos : list (string * string)) : list (dict cell) :=
  match combos with
  | [] => []
  | (color, size) :: rest =>
      variant_row cfg b first color size :: variants cfg b false rest
  end.

(** The reads at the top of the outer loop; [r["Title"]] and
    [r["Body (HTML)"]] raise when the column is absent. *)
Definition read_base (r : dict cell) : exn + Base :=
  match get "Title" r with
  | None => inl (KeyError "Title")
  | Some t =>
      match get "Body (HTML)" r with
      | None => inl (KeyError "Body (HTML)")
      | Some bd =>
          inr {| title := py_str t;
                 handle := slug (CStr (py_str t));
                 body := bd;
                 vendor := get_or "Vendor" (CStr "Aceru Studio") r;
                 tags := get_or "Tags" (CStr "") r;
                 status := get_or "Status" (CStr "active") r;
                 base_price := get_or "Variant Price" (CStr "24.90") r |}
      end
  end.

(** One turn of the outer loop: the rows appended for one base row. *)
Definition expand (cfg : Config) (r : dict cell) : exn + list (dict cell) :=
  match read_base r with
  | inl e => inl e
  | inr b => inr (variants cfg b true (product (COLORS cfg) (SIZES cfg)))
  end.

(** [main]: the rows of the frame written, base row after base row. *)
Fixpoint main (cfg : Config) (base : list (dict cell))
  : exn + list (dict cell) :=
  match base with
  | [] => inr []
  | r :: base' =>
      match expand cfg r with
      | inl e => inl e
      | inr vs =>
          match main cfg base' with
          | inl e => inl e
          | inr out => inr (vs ++ out)%list
          end
      end
  end.

End pod_variants_builder.

(* ================================================================== *)
(** * image_seo_prep.py *)
(* ================================================================== *)

Module image_seo_prep.
Import Py Data.

(** [slug(s)]: the stem of the file names the stage writes. *)
Definition slug (s : string) : string :=
  let s1 := strip (lower s) in
  let s2 := sub_non_alnum s1 in
  let s3 := strip_hyphens (sub_hyphen_runs s2) in
  str_or s3 "item".

(** [title = str(row.get("Title","")).strip()] *)
Definition title_of (row : dict cell) : string :=
  strip (py_str (get_or "Title" (CStr "") row)).

(** [handle = "-".join(title.lower().split())], of the stripped title. *)
Definition handle_of (title : string) : string :=
  join "-" (split (lower title)).

(** The handle the stage writes for a title cell. *)
Definition handle (s : cell) : string := handle_of (strip (py_str s)).

End image_seo_prep.

(* ================================================================== *)
(** * merge_images_into_products.py *)
(* ================================================================== *)

Module merge_images_into_products.
Import Py Data.

Definition REQUIRED_PRODUCT_COLS : list string :=
  ["Handle"; "Title"; "Body (HTML)"; "Vendor"; "Status"].
Definition IMAGE_COLS : list string :=
  ["Handle"; "Image Src"; "Image Alt Text"; "Image Position"].

(** [ensure_cols(df, cols, name)] *)
Definition ensure_cols (df : DataFrame) (cols : list string) (name : string)
  : exn + unit :=
  match filter (fun c => negb (mem c (columns df))) cols with
  | [] => inr tt
  | missing => inl (ValueError name missing)
  end.

Section Frames.
(** [str(float(n))], see [Data.upcast]. *)
Variable float_text : Z -> string.

(** The rows of the optional mapping file turned into [filemap]. *)
Definition load_filemap (m : option DataFrame) : dict string :=
  match m with
  | None => []
  | Some m =>
      let cols := fold_left (fun d c => set (lower c) c d) (columns m) [] in
      match get "new_filename" cols, get "url" cols with
      | Some cf, Some cu =>
          fold_left
            (fun fm row =>
               let fn := strip (py_str (at_col row cf)) in
               let url := strip (py_str (at_col row cu)) in
               if negb (is_empty fn) && negb (is_empty url)
               then set fn url fm else fm)
            (iterrows float_text m) []
      | _, _ => []
      end
  end.

(** [filemap.get(str(x).strip(), x)] *)
Definition resolve (filemap : dict string) (x : cell) : cell :=
  match get (strip (py_str x)) filemap with
  | Some url => CStr url
  | None => x
  end.

(** One row of the images frame after the optional replacement of
    [Image Src], which works on the column, before any row is read. *)
Definition resolve_row (filemap : dict string) (r : dict cell) : dict cell :=
  match filemap with
  | [] => r
  | _ => set "Image Src" (resolve filemap (at_col r "Image Src")) r
  end.

Definition resolve_frame (filemap : dict string) (imgs : DataFrame)
  : DataFrame :=
  {| columns := columns imgs; rows := map (resolve_row filemap) (rows imgs) |}.

(** [out_cols]: the product columns, then the image columns not there yet. *)
Definition out_cols_of (prod_cols : list string) : list string :=
  fold_left (fun cols c => if mem c cols then cols else (cols ++ [c])%list)
    ["Image Src"; "Image Alt Text"; "Image Position"] prod_cols.

(** [{c: r[c] if c in r else "" for c in out_cols}] *)
Definition product_row (out_cols : list string) (r : dict cell) : dict cell :=
  map (fun c => (c, match get c r with Some v => v | None => CStr "" end))
    out_cols.

Definition blank_template (out_cols : list string) : dict cell :=
  map (fun c => (c, CStr "")) out_cols.

(** The row appended for one image record. *)
Definition image_row (out_cols : list string) (r : dict cell) : dict cell :=
  set "Image Position" (get_or "Image Position" (CStr "") r)
    (set "Image Alt Text" (get_or "Image Alt Text" (CStr "") r)
       (set "Image Src" (get_or "Image Src" (CStr "") r)
          (set "Handle" (at_col r "Handle") (blank_template out_cols)))).

(** The list [merged_rows]: both frames are read with [iterrows]. *)
Definition merged_rows (prod imgs : DataFrame) (filemap : dict string)
  : list (dict cell) :=
  let out_cols := out_cols_of (columns prod) in
  (map (product_row out_cols) (iterrows float_text prod)
   ++ map (image_row out_cols)
        (iterrows float_text (resolve_frame filemap imgs)))%list.

(** [main], from the frames loaded to the frame written. *)
Definition main (prod imgs : DataFrame) (filemap : dict string)
  : exn + DataFrame :=
  match ensure_cols prod REQUIRED_PRODUCT_COLS "Products CSV" with
  | inl e => inl e
  | inr _ =>
      match ensure_cols imgs IMAGE_COLS "Images CSV" with
      | inl e => inl e
      | inr _ =>
          inr (from_records float_text (out_cols_of (columns prod))
                 (merged_rows prod imgs filemap))
      end
  end.

End Frames.

End merge_images_into_products.

(* ================================================================== *)
(** * Runs: sequences of reservations, and the guard along a batch *)
(* ================================================================== *)

Module Runs.
Import Data Budget.

(** The guard after a caller has attempted the reservations [ns] one after
    the other, going on after a refusal. *)
Definition final (ns : list Z) (g : BudgetGuard) : BudgetGuard :=
  fold_left (fun g n => snd (ecom_agents.check_and_book n g)) ns g.


(** The guard as each row of a batch of [generate_product_copy] finds it. *)
Fixpoint guards (vendor : string) (gateway : nat -> reply) (i : nat)
  (rs : list (dict cell)) (g : BudgetGuard) : list BudgetGuard :=
  match rs with
  | [] => []
  | r :: rs' =>
      g :: guards vendor gateway (S i) rs'
             (snd (ecom_agents.enrich vendor (gateway i) r g))
  end.

End Runs.

(* ================================================================== *)
(** * More of the scripts *)
(* ================================================================== *)

(** ** More of Python's text and lists *)

Module PyMore.
Import Py.

(** [str(n)] of a natural number. *)
Definition str_of_nat (n : nat) : string :=
  NilEmpty.string_of_uint (Nat.to_uint n).

(** The bounds of a slice [x[a:b]] on a sequence of length [n]: a negative
    index counts from the end, and both are clamped to [0..n]. *)
Definition clamp (n : nat) (i : Z) : nat :=
  if (i <? 0)%Z then Z.to_nat (Z.max 0 (i + Z.of_nat n))
  else Nat.min (Z.to_nat i) n.

(** [l[:n]] on a list. *)
Definition list_slice_to {A} (n : Z) (l : list A) : list A :=
  firstn (clamp (List.length l) n) l.

Fixpoint drop (n : nat) (s : string) : string :=
  match n, s with
  | S n', String _ s' => drop n' s'
  | _, _ => s
  end.

(** [s[a:b]] on a string. *)
Definition slice (a b : Z) (s : string) : string :=
  let lo := clamp (String.length s) a in
  let hi := clamp (String.length s) b in
  slice_to (hi - lo) (drop lo s).

(** The index of the first, and of the last, occurrence of a character. *)
Fixpoint index_of (c : ascii) (s : string) : option nat :=
  match s with
  | "" => None
  | String d s' =>
      if Ascii.eqb d c then Some 0%nat
      else match index_of c s' with
           | Some i => Some (S i)
           | None => None
           end
  end.

Fixpoint rindex_of (c : ascii) (s : string) : option nat :=
  match s with
  | "" => None
  | String d s' =>
      match rindex_of c s' with
      | Some i => Some (S i)
      | None => if Ascii.eqb d c then Some 0%nat else None
      end
  end.

(** [s.find(c)] and [s.rfind(c)]: -1 when the character is absent. *)
Definition find (c : ascii) (s : string) : Z :=
  match index_of c s with Some i => Z.of_nat i | None => (-1)%Z end.

Definition rfind (c : ascii) (s : string) : Z :=
  match rindex_of c s with Some i => Z.of_nat i | None => (-1)%Z end.

(** [s.split(c, 1)[-1]]: what follows the first [c], or all of [s]. *)
Definition after_first (c : ascii) (s : string) : string :=
  match index_of c s with
  | Some i => drop (S i) s
  | None => s
  end.

(** [s.rsplit(c, 1)[0]]: what precedes the last [c], or all of [s]. *)
Definition before_last (c : ascii) (s : string) : string :=
  match rindex_of c s with
  | Some i => slice_to i s
  | None => s
  end.

Definition has_char (c : ascii) (s : string) : bool :=
  negb (all_chars (fun d => negb (Ascii.eqb d c)) s).

End PyMore.

(** ** image_seo_prep.py: the assignment of images to products *)

Module image_assign.
Import Py Data PyMore.

(** A file found by [discover_images]: [str(src)] and [src.suffix]. *)
Record Image : Type := {
  src_path : string;
  suffix : string
}.

(** What one turn of the inner loop appends: the row of the mapping file
    and the row of the Shopify image file (paths with the POSIX separator). *)
Definition mapping_row (title alt : string) (assigned : nat) (src : Image)
  : dict cell :=
  let new_name :=
    image_seo_prep.slug (title ++ "-" ++ str_of_nat assigned)
    ++ lower (suffix src) in
  [ ("handle", CStr (image_seo_prep.handle_of title));
    ("title", CStr title);
    ("orig_path", CStr (src_path src));
    ("new_filename", CStr new_name);
    ("new_path", CStr ("outputs/" ++ new_name));
    ("alt", CStr alt) ].

Definition shopify_row (title alt : string) (assigned : nat) (src : Image)
  : dict cell :=
  let new_name :=
    image_seo_prep.slug (title ++ "-" ++ str_of_nat assigned)
    ++ lower (suffix src) in
  [ ("Handle", CStr (image_seo_prep.handle_of title));
    ("Image Src", CStr new_name);
    ("Image Alt Text", CStr alt);
    ("Image Position", CInt (Z.of_nat assigned)) ].

(** [while assigned < per_product and i < len(imgs)]: the rows appended
    for one product and the images left. *)
Fixpoint assign (per_product : Z) (title alt : string) (assigned : nat)
  (imgs : list Image) : list (dict cell * dict cell) * list Image :=
  match imgs with
  | [] => ([], [])
  | src :: rest =>
      if (Z.of_nat assigned <? per_product)%Z
      then
        let '(rows, unused) :=
          assign per_product title alt (S assigned) rest in
        ((mapping_row title alt (S assigned) src,
          shopify_row title alt (S assigned) src) :: rows, unused)
      else ([], imgs)
  end.

(** The loop over the products; it stops once the images are used up.
    [alt_text title tags] is what [llm_alt_text] returns. *)
Fixpoint assign_all (per_product : Z) (alt_text : string -> string -> string)
  (df : list (dict cell)) (imgs : list Image)
  : list (dict cell * dict cell) :=
  match df with
  | [] => []
  | row :: df' =>
      let title := image_seo_prep.title_of row in
      let tags := strip (py_str (get_or "Tags" (CStr "") row)) in
      let '(rows, unused) :=
        assign per_product title (alt_text title tags) 0 imgs in
      match unused with
      | [] => rows
      | _ => (rows ++ assign_all per_product alt_text df' unused)%list
      end
  end.

(** [main]: nothing is written when no image was found; otherwise the rows
    of the mapping file and of the Shopify image file. *)
Definition main (per_product : Z) (alt_text : string -> string -> string)
  (df : list (dict cell)) (imgs : list Image)
  : option (list (dict cell) * list (dict cell)) :=
  match imgs with
  | [] => None
  | _ =>
      let rows := assign_all per_product alt_text df imgs in
      Some (map fst rows, map snd rows)
  end.

End image_assign.

(** ** seed_from_kit.py: from the kit to the gateway call *)

Module seed_kit.
Import Py Data Budget PyMore.
Local Open Scope run_scope.

(** [kit.get("product_ideas", [])[:max_items]]: only a dict has [get];
    lists and strings can be sliced, anything else raises (a TypeError,
    except that for a dict the kind depends on the version of Python). *)
Definition ideas_of (kit : pyval) (max_items : Z) : exn + pyval :=
  match kit with
  | PDict kv =>
      match get_or "product_ideas" (PList []) kv with
      | PList l => inr (PList (list_slice_to max_items l))
      | PStr s => inr (PStr (slice 0 max_items s))
      | _ => inl TypeError
      end
  | _ => inl AttributeError
  end.

(** [not ideas] for the values a slice gives. *)
Definition no_ideas (ideas : pyval) : bool :=
  match ideas with
  | PList [] => true
  | PStr "" => true
  | _ => false
  end.

Section Seeding.
Variable str_of_container : pyval -> string.
Variable fresh : nat -> string.

(** [seed_products_from_kit], from the loaded kit to the file written. *)
Definition seed (kit : pyval) (max_items : Z) (answer : reply)
  : M (list (list string)) :=
  ideas <- lift (ideas_of kit max_items) ;;
  if no_ideas ideas
  then raise (RuntimeError "No product_ideas found in kit JSON.")
  else seed_from_kit.expand_and_write str_of_container fresh answer.

End Seeding.

End seed_kit.

(** ** placeholder_image_maker.py: the names of the placeholder files *)

Module placeholder_image_maker.
Import Py Data.

Definition slug (s : cell) : string :=
  join "-" (split (strip (lower (py_str s)))).

(** [title = str(row.get("Title","")).strip() or "Product"] *)
Definition title_of (row : dict cell) : string :=
  str_or (strip (py_str (get_or "Title" (CStr "") row))) "Product".

(** The two files written for a row, in [images_in] (POSIX separator). *)
Definition files_of (row : dict cell) : list string :=
  let handle := slug (CStr (title_of row)) in
  [ "images_in/" ++ handle ++ "-1.png"; "images_in/" ++ handle ++ "-2.png" ].

End placeholder_image_maker.

(** ** stripe_checkout_site.py: the catalog and the look-up of a product *)

Module stripe_checkout_site.
Import Py Data.

Record Product : Type := {
  handle : string;
  title : string;
  unit_amount : Z
}.

Section Catalog.
(** [int(round(float(price_str) * 100))], [None] when it raises; floats
    are outside the model. *)
Variable to_amount : string -> option Z.

Definition product_of (r : dict cell) : Product :=
  let t := strip (py_str (get_or "Title" (CStr "") r)) in
  let price_str := strip (py_str (get_or "Variant Price" (CStr "19.99") r)) in
  {| handle := join "-" (split (lower t));
     title := slice_to 70 t;
     unit_amount :=
       match to_amount price_str with Some a => a | None => 1999%Z end |}.

(** [load_catalog], from the frame read. *)
Definition load_catalog (df : list (dict cell)) : list Product :=
  firstn 8 (map product_of df).

End Catalog.

(** [next((p for p in CATALOG if p["handle"] == handle), None)] for the
    handle of a request, [s.strip().lower()]. *)
Definition find_product (catalog : list Product) (s : string) : option Product :=
  List.find (fun p => String.eqb (handle p) (lower (strip s))) catalog.

End stripe_checkout_site.

(** ** The salvage of a provider answer that is not JSON *)

Module salvage.
Import Py Data PyMore.

Section Loads.
(** [json.loads]: [None] when it raises. *)
Variable loads : string -> option pyval.

(** product_optimizer_agent.py: the text handed to the second
    [json.loads], from the first opening to the last closing brace. *)
Definition optimizer_span (content : string) : string :=
  let content := strip content in
  let s := find "{" content in
  let e := rfind "}" content in
  slice s (e + 1) content.

Definition call_openai_json (content : string) : option pyval :=
  match loads content with
  | Some v => Some v
  | None => loads (optimizer_span content)
  end.

(** core/agents/research_bot.py:
    [raw.strip().split("{",1)[-1].rsplit("}",1)[0].join(["{","}"])] *)
Definition research_span (raw : string) : string :=
  "{" ++ before_last "}" (after_first "{" (strip raw)) ++ "}".

Definition research_parse (raw : string) : option pyval :=
  match loads raw with
  | Some v => Some v
  | None => loads (research_span raw)
  end.

End Loads.

End salvage.

(** ** Predicates used to state the further properties *)

Module Props.
Import Py Data.

(** A binary64 number that is zero, positive or plus infinity. *)
Definition nonneg_sf (x : spec_float) : bool :=
  match x with
  | S754_zero _ | S754_finite false _ _ | S754_infinity false => true
  | _ => false
  end.

(** A binary64 number that is zero or positive. *)
Definition finite_nonneg_sf (x : spec_float) : bool :=
  match x with
  | S754_zero _ | S754_finite false _ _ => true
  | _ => false
  end.

(** The title of an enriched row is a string or a list of at most 70. *)
Definition title_within_70 (o : dict pyval) : Prop :=
  match get "Title" o with
  | Some (PStr s) => (String.length s <= 70)%nat
  | Some (PList l) => (List.length l <= 70)%nat
  | _ => False
  end.

(** The row of a variant table that carries the shared fields. *)
Definition is_parent (v : dict cell) : bool :=
  match get "Published" v with
  | Some (CBool true) => true
  | _ => false
  end.

(** The cell [y] is the cell [x], up to an int having become a float. *)
Definition retyped (float_text : Z -> string) (x y : cell) : Prop :=
  y = x \/ y = upcast float_text x.

(** A value decoded from a JSON object: a dict. *)
Definition is_object (v : pyval) : bool :=
  match v with PDict _ => true | _ => false end.


(** A cell that holds a string of at most [n] characters, or no string. *)
Definition text_within (n : nat) (x : option cell) : Prop :=
  match x with
  | Some (CStr s) => (String.length s <= n)%nat
  | Some _ => True
  | None => False
  end.

End Props.

(* ================================================================== *)
(** * Facts about text *)
(* ================================================================== *)

Section TextFacts.
Import Py.

(** A fact about one character is settled by looking at all 256. *)
Ltac each_char c :=
  destruct c as [b0 b1 b2 b3 b4 b5 b6 b7];
  destruct b0, b1, b2, b3, b4, b5, b6, b7;
  (reflexivity || (intros; discriminate)).

Lemma lower_char_idem (c : ascii) : lower_char (lower_char c) = lower_char c.
Proof. each_char c. Qed.

Lemma isspace_lower_char (c : ascii) : isspace (lower_char c) = isspace c.
Proof. each_char c. Qed.

Lemma alnum_lower_fixed (c : ascii) : is_alnum_lc c = true -> lower_char c = c.
Proof. revert c. intro c. each_char c. Qed.

Lemma alnum_not_space (c : ascii) : is_alnum_lc c = true -> isspace c = false.
Proof. each_char c. Qed.

Lemma alnum_not_hyphen (c : ascii) : is_alnum_lc c = true -> is_hyphen c = false.
Proof. each_char c. Qed.

Lemma hyphen_is (c : ascii) : is_hyphen c = true -> c = "-"%char.
Proof. each_char c. Qed.

(** ** [all_chars] *)

Lemma all_chars_app (p : ascii -> bool) (s t : string) :
  all_chars p (s ++ t) = all_chars p s && all_chars p t.
Proof.
  induction s as [|c s IH]; simpl; [reflexivity|].
  rewrite IH. apply andb_assoc.
Qed.

Lemma all_chars_impl (p q : ascii -> bool) (s : string) :
  (forall c, p c = true -> q c = true) ->
  all_chars p s = true -> all_chars q s = true.
Proof.
  intros Hpq. induction s as [|c s IH]; simpl; [reflexivity|].
  intros H. apply andb_true_iff in H as [Hc Hs].
  rewrite (Hpq _ Hc), (IH Hs). reflexivity.
Qed.

Lemma all_chars_lstrip (p q : ascii -> bool) (s : string) :
  all_chars q s = true -> all_chars q (lstrip_by p s) = true.
Proof.
  induction s as [|c s IH]; simpl; [reflexivity|].
  intros H. destruct (p c); [|exact H].
  apply andb_true_iff in H as [_ Hs]. auto.
Qed.

Lemma all_chars_rstrip (p q : ascii -> bool) (s : string) :
  all_chars q s = true -> all_chars q (rstrip_by p s) = true.
Proof.
  induction s as [|c s IH]; simpl; [reflexivity|].
  intros H. apply andb_true_iff in H as [Hc Hs].
  destruct (p c && all_chars p s); simpl; [reflexivity|].
  rewrite Hc, (IH Hs). reflexivity.
Qed.

Lemma all_chars_strip (p q : ascii -> bool) (s : string) :
  all_chars q s = true -> all_chars q (strip_by p s) = true.
Proof.
  intros H. unfold strip_by.
  apply all_chars_rstrip, all_chars_lstrip, H.
Qed.

(** ** [lower] *)

Lemma lower_is_lower_fixed (s : string) : all_chars lower_fixed (lower s) = true.
Proof.
  induction s as [|c s IH]; simpl; [reflexivity|].
  unfold lower_fixed at 1. rewrite lower_char_idem, Ascii.eqb_refl. exact IH.
Qed.

Lemma lower_of_fixed (s : string) : all_chars lower_fixed s = true -> lower s = s.
Proof.
  induction s as [|c s IH]; simpl; [reflexivity|].
  intros H. apply andb_true_iff in H as [Hc Hs].
  apply Ascii.eqb_eq in Hc. rewrite Hc, (IH Hs). reflexivity.
Qed.

Lemma all_space_lower (s : string) :
  all_chars isspace (lower s) = all_chars isspace s.
Proof.
  induction s as [|c s IH]; simpl; [reflexivity|].
  rewrite isspace_lower_char, IH. reflexivity.
Qed.

Lemma lower_lstrip (s : string) :
  lower (lstrip_by isspace s) = lstrip_by isspace (lower s).
Proof.
  induction s as [|c s IH]; simpl; [reflexivity|].
  rewrite isspace_lower_char. destruct (isspace c); [exact IH|reflexivity].
Qed.

Lemma lower_rstrip (s : string) :
  lower (rstrip_by isspace s) = rstrip_by isspace (lower s).
Proof.
  induction s as [|c s IH]; simpl; [reflexivity|].
  rewrite isspace_lower_char, all_space_lower.
  destruct (isspace c && all_chars isspace s); simpl; [reflexivity|].
  rewrite IH. reflexivity.
Qed.

Lemma lower_strip (s : string) : lower (strip s) = strip (lower s).
Proof.
  unfold strip, strip_by. rewrite lower_rstrip, lower_lstrip. reflexivity.
Qed.

(** ** [strip] *)

Lemma lstrip_no_lead (p : ascii -> bool) (s : string) :
  starts_with p s = false -> lstrip_by p s = s.
Proof. destruct s as [|c s]; simpl; [reflexivity|]. intros ->. reflexivity. Qed.

Lemma rstrip_of_non_space (s : string) :
  all_chars non_space s = true -> rstrip_by isspace s = s.
Proof.
  unfold non_space.
  induction s as [|c s IH]; simpl; [reflexivity|].
  intros H. apply andb_true_iff in H as [Hc Hs].
  apply negb_true_iff in Hc. rewrite Hc, (IH Hs). reflexivity.
Qed.

Lemma strip_of_non_space (s : string) :
  all_chars non_space s = true -> strip s = s.
Proof.
  intros H. unfold strip, strip_by.
  rewrite lstrip_no_lead; [apply rstrip_of_non_space, H|].
  destruct s as [|c s]; [reflexivity|].
  simpl in *. apply andb_true_iff in H as [Hc _].
  apply negb_true_iff in Hc. exact Hc.
Qed.

(** ** [split] and [join] *)

Lemma split_all_space (s : string) :
  all_chars isspace s = true -> split s = [].
Proof.
  induction s as [|c s IH]; simpl; [reflexivity|].
  intros H. apply andb_true_iff in H as [Hc Hs]. rewrite Hc. auto.
Qed.

Lemma split_nil_all_space (s : string) :
  split s = [] -> all_chars isspace s = true.
Proof.
  induction s as [|c s IH]; simpl; [reflexivity|].
  destruct (isspace c); simpl; [exact IH|].
  destruct (at_space s); [discriminate|].
  destruct (split s); discriminate.
Qed.

Lemma split_lstrip (s : string) : split (lstrip_by isspace s) = split s.
Proof.
  induction s as [|c s IH]; simpl; [reflexivity|].
  destruct (isspace c) eqn:Hc; [exact IH|].
  simpl. rewrite Hc. reflexivity.
Qed.

Lemma at_space_rstrip (s : string) :
  at_space (rstrip_by isspace s) = at_space s.
Proof.
  destruct s as [|c s]; simpl; [reflexivity|].
  destruct (isspace c) eqn:Hc; simpl.
  - destruct (all_chars isspace s); simpl; [reflexivity|exact Hc].
  - exact Hc.
Qed.

Lemma split_rstrip (s : string) : split (rstrip_by isspace s) = split s.
Proof.
  induction s as [|c s IH]; simpl; [reflexivity|].
  destruct (isspace c) eqn:Hc; simpl.
  - destruct (all_chars isspace s) eqn:Hs; simpl.
    + symmetry. apply split_all_space, Hs.
    + rewrite Hc. exact IH.
  - rewrite Hc, at_space_rstrip, IH. reflexivity.
Qed.

Lemma split_strip (s : string) : split (strip s) = split s.
Proof.
  unfold strip, strip_by. rewrite split_rstrip. apply split_lstrip.
Qed.

Lemma split_of_word (s : string) :
  all_chars non_space s = true -> s <> "" -> split s = [s].
Proof.
  unfold non_space.
  induction s as [|c s IH]; simpl; [congruence|].
  intros H _. apply andb_true_iff in H as [Hc Hs].
  apply negb_true_iff in Hc. rewrite Hc.
  destruct s as [|d s]; [reflexivity|].
  assert (Hd : isspace d = false).
  { simpl in Hs. apply andb_true_iff in Hs as [Hd _].
    apply negb_true_iff in Hd. exact Hd. }
  cbn [at_space]. rewrite Hd.
  rewrite (IH Hs); [reflexivity|discriminate].
Qed.

Lemma split_words (p : ascii -> bool) (s : string) :
  all_chars p s = true ->
  Forall (fun w => all_chars (fun c => p c && non_space c) w = true /\ w <> "")
    (split s).
Proof.
  induction s as [|c s IH]; simpl; [constructor|].
  intros H. apply andb_true_iff in H as [Hc Hs]. specialize (IH Hs).
  destruct (isspace c) eqn:Hsp; [exact IH|].
  assert (Hpc : p c && non_space c = true).
  { unfold non_space. rewrite Hc, Hsp. reflexivity. }
  destruct (at_space s).
  - constructor; [|exact IH]. simpl. rewrite Hpc. split; [reflexivity|discriminate].
  - destruct (split s) as [|w ws].
    + constructor; [|constructor]. simpl. rewrite Hpc.
      split; [reflexivity|discriminate].
    + inversion IH as [|? ? [Hw _] Hws]; subst.
      constructor; [|exact Hws]. simpl. rewrite Hpc, Hw.
      split; [reflexivity|discriminate].
Qed.

Lemma join_all_chars (q : ascii -> bool) (sep : string) (ws : list string) :
  all_chars q sep = true ->
  Forall (fun w => all_chars q w = true) ws ->
  all_chars q (join sep ws) = true.
Proof.
  intros Hsep. induction 1 as [|w ws Hw Hws IH]; [reflexivity|].
  destruct ws as [|w' ws']; [exact Hw|].
  change (all_chars q (w ++ sep ++ join sep (w' :: ws')) = true).
  rewrite !all_chars_app, Hw, Hsep, IH. reflexivity.
Qed.

Lemma append_empty (s t : string) : s ++ t = "" -> s = "".
Proof. destruct s; simpl; [reflexivity|discriminate]. Qed.

Lemma join_empty (sep : string) (ws : list string) :
  Forall (fun w => w <> "") ws -> join sep ws = "" -> ws = [].
Proof.
  intros H. destruct H as [|w ws Hw Hws]; [reflexivity|].
  destruct ws as [|w' ws']; simpl.
  - intros E. contradiction.
  - intros E. apply append_empty in E. contradiction.
Qed.

End TextFacts.

Section StripFacts.
Import Py.
Variable p : ascii -> bool.

Lemma starts_with_lstrip (s : string) : starts_with p (lstrip_by p s) = false.
Proof.
  induction s as [|c s IH]; simpl; [reflexivity|].
  destruct (p c) eqn:Hc; [exact IH|]. simpl. exact Hc.
Qed.

Lemma starts_with_rstrip (q : ascii -> bool) (s : string) :
  starts_with q s = false -> starts_with q (rstrip_by p s) = false.
Proof.
  destruct s as [|c s]; simpl; [reflexivity|].
  intros H. destruct (p c && all_chars p s); simpl; [reflexivity|exact H].
Qed.

Lemma all_chars_rstrip_self (s : string) :
  all_chars p (rstrip_by p s) = all_chars p s.
Proof.
  induction s as [|c s IH]; simpl; [reflexivity|].
  destruct (p c && all_chars p s) eqn:H; simpl; [reflexivity|].
  rewrite IH. exact H.
Qed.

Lemma rstrip_idem (s : string) : rstrip_by p (rstrip_by p s) = rstrip_by p s.
Proof.
  induction s as [|c s IH]; simpl; [reflexivity|].
  destruct (p c && all_chars p s) eqn:H; simpl; [reflexivity|].
  rewrite all_chars_rstrip_self, H, IH. reflexivity.
Qed.

Lemma strip_by_idem (s : string) : strip_by p (strip_by p s) = strip_by p s.
Proof.
  unfold strip_by.
  rewrite (lstrip_no_lead p (rstrip_by p (lstrip_by p s))).
  - apply rstrip_idem.
  - apply starts_with_rstrip, starts_with_lstrip.
Qed.

End StripFacts.

Section TidyFacts.
Import Py.

Lemma tidy_sub_non_alnum (s : string) : tidy (sub_non_alnum s) = true.
Proof.
  induction s as [|c s IH]; simpl; [reflexivity|].
  destruct (is_alnum_lc c) eqn:Hc.
  - simpl. rewrite Hc, IH. reflexivity.
  - destruct s as [|d s]; [reflexivity|].
    cbn [starts_with]. destruct (is_alnum_lc d) eqn:Hd; cbn [negb].
    + change (tidy (String "-" (sub_non_alnum (String d s))) = true).
      cbn [tidy]. rewrite IH.
      cbn [sub_non_alnum]. rewrite Hd. cbn [starts_with].
      rewrite (alnum_not_hyphen d Hd). reflexivity.
    + exact IH.
Qed.

Lemma tidy_tail (c : ascii) (s : string) : tidy (String c s) = true -> tidy s = true.
Proof. simpl. intros H. apply andb_true_iff in H as [_ H]. exact H. Qed.

Lemma tidy_head (c : ascii) (s : string) :
  tidy (String c s) = true ->
  is_alnum_lc c = true
  \/ (is_alnum_lc c = false /\ c = "-"%char /\ starts_with is_hyphen s = false).
Proof.
  simpl. intros H. apply andb_true_iff in H as [H _].
  destruct (is_alnum_lc c) eqn:Hc; [left; reflexivity|right].
  simpl in H. apply andb_true_iff in H as [Hh Hs].
  apply negb_true_iff in Hs. apply hyphen_is in Hh. auto.
Qed.

Lemma tidy_sub_hyphen_runs (s : string) : tidy s = true -> sub_hyphen_runs s = s.
Proof.
  induction s as [|c s IH]; [reflexivity|].
  intros H. pose proof (tidy_tail _ _ H) as Hs.
  cbn [sub_hyphen_runs].
  destruct (tidy_head _ _ H) as [Hc | (_ & _ & Hn)].
  - rewrite (alnum_not_hyphen c Hc). simpl. rewrite (IH Hs). reflexivity.
  - rewrite Hn, andb_false_r, (IH Hs). reflexivity.
Qed.

Lemma tidy_fixed_by_sub (s : string) : tidy s = true -> sub_non_alnum s = s.
Proof.
  induction s as [|c s IH]; [reflexivity|].
  intros H. pose proof (tidy_tail _ _ H) as Hs.
  cbn [sub_non_alnum].
  destruct (tidy_head _ _ H) as [Hc | (Hc & -> & Hn)].
  - rewrite Hc, (IH Hs). reflexivity.
  - simpl is_alnum_lc. cbv iota.
    assert (Hst : starts_with (fun d => negb (is_alnum_lc d)) s = false).
    { destruct s as [|d s]; [reflexivity|]. simpl in *.
      destruct (tidy_head _ _ Hs) as [Hd | (_ & -> & _)].
      - rewrite Hd. reflexivity.
      - discriminate. }
    rewrite Hst, (IH Hs). reflexivity.
Qed.

Lemma tidy_lstrip (p : ascii -> bool) (s : string) :
  tidy s = true -> tidy (lstrip_by p s) = true.
Proof.
  induction s as [|c s IH]; simpl; [reflexivity|].
  intros H. destruct (p c); [|exact H].
  apply andb_true_iff in H as [_ H]. auto.
Qed.

Lemma tidy_rstrip (p : ascii -> bool) (s : string) :
  tidy s = true -> tidy (rstrip_by p s) = true.
Proof.
  induction s as [|c s IH]; [reflexivity|].
  intros H. pose proof (tidy_tail _ _ H) as Hs.
  cbn [rstrip_by]. destruct (p c && all_chars p s); [reflexivity|].
  cbn [tidy]. rewrite (IH Hs), andb_true_r.
  destruct (tidy_head _ _ H) as [Hc | (_ & -> & Hn)].
  - rewrite Hc. reflexivity.
  - rewrite (starts_with_rstrip p is_hyphen s Hn). reflexivity.
Qed.

Lemma tidy_chars (s : string) :
  tidy s = true ->
  all_chars (fun c => lower_fixed c && non_space c) s = true.
Proof.
  induction s as [|c s IH]; [reflexivity|].
  intros H. pose proof (tidy_tail _ _ H) as Hs.
  cbn [all_chars]. rewrite (IH Hs), andb_true_r.
  destruct (tidy_head _ _ H) as [Hc | (_ & -> & _)].
  - unfold lower_fixed, non_space.
    rewrite (alnum_lower_fixed c Hc), (alnum_not_space c Hc), Ascii.eqb_refl.
    reflexivity.
  - reflexivity.
Qed.

End TidyFacts.

(* ================================================================== *)
(** * Handles and slugs *)
(* ================================================================== *)

Section SlugFacts.
Import Py Data.

(** The expression shared by the whitespace slugs, on a string. *)
Lemma ws_slug_stable (x : string) :
  all_chars (fun c => lower_fixed c && non_space c)
    (join "-" (split (strip (lower x)))) = true.
Proof.
  apply join_all_chars; [reflexivity|].
  pose proof (split_words lower_fixed (strip (lower x))) as H.
  eapply Forall_impl; [|apply H].
  - intros w [Hw _]. exact Hw.
  - apply all_chars_strip, lower_is_lower_fixed.
Qed.

Lemma ws_slug_fixed (t : string) :
  all_chars (fun c => lower_fixed c && non_space c) t = true ->
  join "-" (split (strip (lower t))) = t.
Proof.
  intros H.
  assert (Hl : all_chars lower_fixed t = true).
  { eapply all_chars_impl; [|exact H].
    intros c Hc. apply andb_true_iff in Hc as [Hc _]. exact Hc. }
  assert (Hn : all_chars non_space t = true).
  { eapply all_chars_impl; [|exact H].
    intros c Hc. apply andb_true_iff in Hc as [_ Hc]. exact Hc. }
  rewrite (lower_of_fixed t Hl), (strip_of_non_space t Hn).
  destruct t as [|c t]; [reflexivity|].
  rewrite split_of_word; [reflexivity|exact Hn|discriminate].
Qed.

Lemma ws_slug_empty (x : string) :
  join "-" (split (strip (lower x))) = "" <-> all_chars isspace x = true.
Proof.
  rewrite split_strip. split.
  - intros E. rewrite <- all_space_lower. apply split_nil_all_space.
    apply (join_empty "-"); [|exact E].
    pose proof (split_words (fun _ => true) (lower x)) as H.
    eapply Forall_impl; [|apply H].
    + intros w [_ Hw]. exact Hw.
    + clear. induction (lower x); simpl; auto.
  - intros H. rewrite <- all_space_lower in H.
    rewrite (split_all_space _ H). reflexivity.
Qed.

(** The stem before the fallback of [image_seo_prep.slug]. *)
Lemma img_stem_tidy (s : string) :
  let v := strip_hyphens (sub_hyphen_runs (sub_non_alnum (strip (lower s)))) in
  tidy v = true /\ strip_hyphens v = v.
Proof.
  cbv zeta. rewrite (tidy_sub_hyphen_runs _ (tidy_sub_non_alnum _)).
  split.
  - unfold strip_hyphens, strip_by.
    apply tidy_rstrip, tidy_lstrip, tidy_sub_non_alnum.
  - apply strip_by_idem.
Qed.

Lemma img_slug_fixed (v : string) :
  tidy v = true -> strip_hyphens v = v -> v <> "" -> image_seo_prep.slug v = v.
Proof.
  intros Ht Hs Hne. unfold image_seo_prep.slug.
  pose proof (tidy_chars v Ht) as Hc.
  assert (Hl : all_chars lower_fixed v = true).
  { eapply all_chars_impl; [|exact Hc].
    intros c H. apply andb_true_iff in H as [H _]. exact H. }
  assert (Hn : all_chars non_space v = true).
  { eapply all_chars_impl; [|exact Hc].
    intros c H. apply andb_true_iff in H as [_ H]. exact H. }
  rewrite (lower_of_fixed v Hl), (strip_of_non_space v Hn).
  rewrite (tidy_fixed_by_sub v Ht), (tidy_sub_hyphen_runs v Ht), Hs.
  destruct v; [congruence|reflexivity].
Qed.

Lemma img_slug_idem (s : string) :
  image_seo_prep.slug (image_seo_prep.slug s) = image_seo_prep.slug s.
Proof.
  destruct (img_stem_tidy s) as [Ht Hs].
  unfold image_seo_prep.slug at 2 3.
  destruct (strip_hyphens (sub_hyphen_runs (sub_non_alnum (strip (lower s)))))
    as [|c v] eqn:E.
  - reflexivity.
  - apply img_slug_fixed; [exact Ht|exact Hs|discriminate].
Qed.

Lemma img_slug_nonempty (s : string) : image_seo_prep.slug s <> "".
Proof.
  unfold image_seo_prep.slug.
  destruct (strip_hyphens (sub_hyphen_runs (sub_non_alnum (strip (lower s)))));
    discriminate.
Qed.

End SlugFacts.

Section PlainTitles.
Import Py Data.

Lemma ascii_alnum_lower (c : ascii) :
  is_ascii_alnum c = true -> is_alnum_lc (lower_char c) = true.
Proof.
  destruct c as [b0 b1 b2 b3 b4 b5 b6 b7];
    destruct b0, b1, b2, b3, b4, b5, b6, b7;
    (reflexivity || (intros; discriminate)).
Qed.

Lemma all_chars_lower_plain (s : string) :
  all_chars (fun c => is_ascii_alnum c || isspace c) s = true ->
  all_chars word_or_space (lower s) = true.
Proof.
  induction s as [|c s IH]; simpl; [reflexivity|].
  intros H. apply andb_true_iff in H as [Hc Hs].
  rewrite (IH Hs), andb_true_r. unfold word_or_space.
  apply orb_true_iff in Hc as [Hc|Hc].
  - rewrite (ascii_alnum_lower c Hc). reflexivity.
  - rewrite isspace_lower_char, Hc. apply orb_true_r.
Qed.

Lemma rstrip_all (p : ascii -> bool) (s : string) :
  all_chars p s = true -> rstrip_by p s = "".
Proof. destruct s as [|c s]; simpl; [reflexivity|]. intros ->. reflexivity. Qed.

Lemma rstrip_fixed_inv (p : ascii -> bool) (c : ascii) (s : string) :
  rstrip_by p (String c s) = String c s ->
  p c && all_chars p s = false /\ rstrip_by p s = s.
Proof.
  simpl. destruct (p c && all_chars p s); [discriminate|].
  intros H. injection H as H. split; [reflexivity|exact H].
Qed.

Lemma rstrip_fixed_not_all (p : ascii -> bool) (s : string) :
  rstrip_by p s = s -> s <> "" -> all_chars p s = false.
Proof.
  intros H Hne. destruct (all_chars p s) eqn:E; [|reflexivity].
  rewrite (rstrip_all p s E) in H. congruence.
Qed.

Lemma join_cons_char (sep : string) (c : ascii) (w : string) (ws : list string) :
  join sep (String c w :: ws) = String c (join sep (w :: ws)).
Proof. destruct ws; reflexivity. Qed.

Lemma split_not_nil (s : string) : all_chars isspace s = false -> split s <> [].
Proof.
  intros H E. apply split_nil_all_space in E. congruence.
Qed.

(** On text of lower-case letters, digits and whitespace that does not end
    in whitespace, replacing the runs outside [[a-z0-9]] by a hyphen is
    joining the words with hyphens, after a hyphen for leading space. *)
Lemma sub_non_alnum_join (y : string) :
  all_chars word_or_space y = true ->
  rstrip_by isspace y = y ->
  sub_non_alnum y
  = (if starts_with isspace y then "-" else "") ++ join "-" (split y).
Proof.
  induction y as [|c y IH]; [reflexivity|].
  intros Hall Hfix.
  cbn [all_chars] in Hall. apply andb_true_iff in Hall as [Hc Hall].
  apply rstrip_fixed_inv in Hfix as [Hend Hfix].
  specialize (IH Hall Hfix).
  cbn [sub_non_alnum split starts_with].
  destruct (isspace c) eqn:Hsp.
  - assert (Hna : is_alnum_lc c = false).
    { destruct (is_alnum_lc c) eqn:E; [|reflexivity].
      rewrite (alnum_not_space c E) in Hsp. discriminate. }
    rewrite Hna. cbn [andb] in Hend.
    destruct y as [|d y]; [discriminate Hend|].
    cbn [all_chars] in Hall. apply andb_true_iff in Hall as [Hd _].
    cbn [starts_with] in IH |- *.
    destruct (isspace d) eqn:Hdsp.
    + assert (Hdn : is_alnum_lc d = false).
      { destruct (is_alnum_lc d) eqn:E; [|reflexivity].
        rewrite (alnum_not_space d E) in Hdsp. discriminate. }
      rewrite Hdn. cbn [negb]. exact IH.
    + unfold word_or_space in Hd. rewrite Hdsp, orb_false_r in Hd.
      rewrite Hd. cbn [negb]. rewrite IH. reflexivity.
  - unfold word_or_space in Hc. rewrite Hsp, orb_false_r in Hc.
    rewrite Hc. cbn [append].
    destruct y as [|d y]; [reflexivity|].
    assert (Hne : split (String d y) <> []).
    { apply split_not_nil, (rstrip_fixed_not_all isspace); [exact Hfix|].
      discriminate. }
    cbn [at_space starts_with] in IH |- *.
    destruct (isspace d) eqn:Hdsp.
    + rewrite IH. destruct (split (String d y)) as [|w ws]; [congruence|].
      reflexivity.
    + rewrite IH. destruct (split (String d y)) as [|w ws]; [congruence|].
      rewrite join_cons_char. reflexivity.
Qed.

Lemma rstrip_app (p : ascii -> bool) (a b : string) :
  all_chars p b = false -> rstrip_by p (a ++ b) = a ++ rstrip_by p b.
Proof.
  intros Hb. induction a as [|c a IH]; [reflexivity|].
  cbn [append rstrip_by]. rewrite all_chars_app, Hb, andb_false_r, andb_false_r.
  rewrite IH. reflexivity.
Qed.

Lemma rstrip_of_none (p : ascii -> bool) (s : string) :
  all_chars (fun c => negb (p c)) s = true -> rstrip_by p s = s.
Proof.
  induction s as [|c s IH]; simpl; [reflexivity|].
  intros H. apply andb_true_iff in H as [Hc Hs].
  apply negb_true_iff in Hc. rewrite Hc, (IH Hs). reflexivity.
Qed.

Lemma word_not_hyphens (w rest : string) :
  is_word w -> all_chars is_hyphen (w ++ rest) = false.
Proof.
  intros [Hw Hne]. destruct w as [|c w]; [congruence|].
  simpl in *. apply andb_true_iff in Hw as [Hc _].
  rewrite (alnum_not_hyphen c Hc). reflexivity.
Qed.

Lemma join_words_head (ws : list string) :
  Forall is_word ws -> starts_with is_hyphen (join "-" ws) = false.
Proof.
  intros H. destruct H as [|w ws [Hw Hne] _]; [reflexivity|].
  destruct w as [|c w]; [congruence|]. rewrite join_cons_char.
  simpl in *. apply andb_true_iff in Hw as [Hc _].
  apply alnum_not_hyphen, Hc.
Qed.

Lemma join_words_not_hyphens (w : string) (ws : list string) :
  Forall is_word (w :: ws) -> all_chars is_hyphen (join "-" (w :: ws)) = false.
Proof.
  intros H. inversion H as [|? ? Hw _]; subst.
  destruct ws as [|w' ws]; cbn [join].
  - rewrite <- (word_not_hyphens w "" Hw). f_equal.
    clear. induction w; simpl; congruence.
  - apply word_not_hyphens, Hw.
Qed.

Lemma join_words_rstrip (ws : list string) :
  Forall is_word ws -> rstrip_by is_hyphen (join "-" ws) = join "-" ws.
Proof.
  induction 1 as [|w ws Hw Hws IH]; [reflexivity|].
  destruct ws as [|w' ws].
  - cbn [join]. apply rstrip_of_none. destruct Hw as [Hw _].
    eapply all_chars_impl; [|exact Hw].
    intros c Hc. rewrite (alnum_not_hyphen c Hc). reflexivity.
  - change (join "-" (w :: w' :: ws)) with (w ++ "-" ++ join "-" (w' :: ws)).
    pose proof (join_words_not_hyphens w' ws Hws) as Hj.
    set (j := join "-" (w' :: ws)) in *.
    rewrite rstrip_app.
    + f_equal. cbn [append rstrip_by].
      rewrite Hj, andb_false_r, IH. reflexivity.
    + cbn [append all_chars]. rewrite Hj. apply andb_false_r.
Qed.

Lemma join_words_strip (ws : list string) :
  Forall is_word ws -> strip_hyphens (join "-" ws) = join "-" ws.
Proof.
  intros H. unfold strip_hyphens, strip_by.
  rewrite (lstrip_no_lead _ _ (join_words_head ws H)).
  apply join_words_rstrip, H.
Qed.

Lemma split_plain_words (x : string) :
  all_chars word_or_space x = true -> Forall is_word (split x).
Proof.
  intros H. pose proof (split_words word_or_space x H) as Hw.
  eapply Forall_impl; [|exact Hw].
  intros w [Hc Hne]. split; [|exact Hne].
  eapply all_chars_impl; [|exact Hc].
  intros c Hx. unfold word_or_space, non_space in Hx.
  apply andb_true_iff in Hx as [Hx Hn]. apply negb_true_iff in Hn.
  rewrite Hn, orb_false_r in Hx. exact Hx.
Qed.

(** On a plain title the file-name slug is the handle. *)
Lemma plain_title_slug (s : string) :
  plain_title s = true -> image_seo_prep.slug s = ecom_agents.slug (CStr s).
Proof.
  unfold plain_title. intros H. apply andb_true_iff in H as [Hall Hns].
  apply negb_true_iff in Hns.
  unfold image_seo_prep.slug, ecom_agents.slug. cbn [py_str].
  set (x := strip (lower s)).
  assert (Hx : all_chars word_or_space x = true).
  { apply all_chars_strip, all_chars_lower_plain, Hall. }
  assert (Hfix : rstrip_by isspace x = x) by apply rstrip_idem.
  assert (Hhead : starts_with isspace x = false).
  { apply starts_with_rstrip, starts_with_lstrip. }
  pose proof (sub_non_alnum_join x Hx Hfix) as Hsub.
  rewrite Hhead in Hsub. cbn [append] in Hsub.
  pose proof (tidy_sub_non_alnum x) as Ht. rewrite Hsub in *.
  rewrite (tidy_sub_hyphen_runs _ Ht).
  rewrite (join_words_strip _ (split_plain_words x Hx)).
  destruct (join "-" (split x)) as [|c t] eqn:E; [|reflexivity].
  exfalso. apply (join_empty "-") in E.
  - unfold x in E. rewrite split_strip in E.
    apply split_nil_all_space in E. rewrite all_space_lower in E. congruence.
  - eapply Forall_impl; [|apply (split_plain_words x Hx)].
    intros w [_ Hne]. exact Hne.
Qed.

End PlainTitles.

(** C1 (as amended): every stage that derives a handle from a title cell
    derives the same handle: the slug of the Schema Normalizer, the slug of
    the Variant Expander and the handle the image-mapping stage writes are
    the same function of the title.  The slug function of the image-mapping
    stage, which names the image files, gives that handle too on a title of
    ASCII letters, digits and whitespace that is not blank. *)
Theorem handles_agree (title : Data.cell) :
  ecom_agents.slug title = pod_variants_builder.slug title
  /\ pod_variants_builder.slug title = image_seo_prep.handle title
  /\ (Py.plain_title (Data.py_str title) = true ->
      image_seo_prep.slug (Data.py_str title) = ecom_agents.slug title).
Proof.
  split; [reflexivity|]. split.
  - unfold pod_variants_builder.slug, image_seo_prep.handle,
      image_seo_prep.handle_of.
    rewrite lower_strip. rewrite !split_strip. reflexivity.
  - intros H. rewrite (plain_title_slug _ H). reflexivity.
Qed.

Lemma handles_agree_witness :
  image_seo_prep.slug "Minimalist Desk Mat" = "minimalist-desk-mat"
  /\ image_seo_prep.slug "Minimalist Desk Mat"
     = ecom_agents.slug (Data.CStr "Minimalist Desk Mat").
Proof.
  split; [reflexivity|].
  exact (proj2 (proj2 (handles_agree (Data.CStr "Minimalist Desk Mat")))
           eq_refl).
Defined.

(** C1 (as stated) fails: on the sample title of the repository the slug
    function of the image-mapping stage, which names files, does not give
    the handle of the other stages. *)
Lemma slug_functions_differ :
  ~ (forall title : string,
       ecom_agents.slug (Data.CStr title)
         = pod_variants_builder.slug (Data.CStr title)
       /\ pod_variants_builder.slug (Data.CStr title)
            = image_seo_prep.slug title).
Proof.
  intros H.
  destruct (H "Minimalist Desk Mat (PU Leather, 90x45cm)") as [_ E].
  vm_compute in E. discriminate E.
Qed.

(** C6 (as amended): every slug implementation is idempotent; the slug of
    the image-mapping stage is never empty, its fallback being the token
    "item"; the whitespace slug of the other stages has no fallback and is
    empty exactly for a title that is empty or all whitespace. *)
Theorem slugs_idempotent (s : Data.cell) (t : string) :
  ecom_agents.slug (Data.CStr (ecom_agents.slug s)) = ecom_agents.slug s
  /\ pod_variants_builder.slug (Data.CStr (pod_variants_builder.slug s))
       = pod_variants_builder.slug s
  /\ image_seo_prep.slug (image_seo_prep.slug t) = image_seo_prep.slug t
  /\ image_seo_prep.slug t <> ""
  /\ (Py.strip_hyphens
        (Py.sub_hyphen_runs (Py.sub_non_alnum (Py.strip (Py.lower t)))) = ""
      -> image_seo_prep.slug t = "item")
  /\ (ecom_agents.slug s = ""
      <-> Py.all_chars Py.isspace (Data.py_str s) = true).
Proof.
  assert (E : ecom_agents.slug (Data.CStr (ecom_agents.slug s))
              = ecom_agents.slug s).
  { unfold ecom_agents.slug at 1. cbn [Data.py_str].
    apply ws_slug_fixed. apply ws_slug_stable. }
  repeat split.
  - exact E.
  - exact E.
  - apply img_slug_idem.
  - apply img_slug_nonempty.
  - intros H. unfold image_seo_prep.slug. rewrite H. reflexivity.
  - apply ws_slug_empty.
  - apply ws_slug_empty.
Qed.

Lemma slugs_idempotent_witness :
  image_seo_prep.slug "!!!" = "item"
  /\ image_seo_prep.slug (image_seo_prep.slug "!!!") = "item".
Proof.
  destruct (slugs_idempotent (Data.CStr "!!!") "!!!")
    as (_ & _ & Hidem & _ & Hitem & _).
  rewrite Hidem. split; apply Hitem; reflexivity.
Defined.

(** C6 (as stated) fails: the whitespace slug of the Schema Normalizer and
    of the Variant Expander returns the empty string for a blank title. *)
Lemma whitespace_slug_empty :
  ecom_agents.slug (Data.CStr " ") = ""
  /\ pod_variants_builder.slug (Data.CStr " ") = "".
Proof. split; reflexivity. Qed.

(* ================================================================== *)
(** * Binary64 arithmetic: what rounding preserves *)
(* ================================================================== *)

Section Binary64Facts.
Import Data Props.
Local Open Scope Z_scope.

Lemma digits_bounds (p : positive) :
  2 ^ (Zpos (digits2_pos p) - 1) <= Zpos p < 2 ^ Zpos (digits2_pos p).
Proof.
  induction p as [p IH|p IH|]; cbn [digits2_pos].
  - rewrite Pos2Z.inj_succ, (Pos2Z.inj_xI p).
    replace (Z.succ (Zpos (digits2_pos p)) - 1) with (Z.succ (Zpos (digits2_pos p) - 1)) by lia.
    rewrite !Z.pow_succ_r by lia.
    destruct IH as [IH1 IH2]. revert IH1 IH2.
    generalize (2 ^ (Z.pos (digits2_pos p) - 1)), (2 ^ Z.pos (digits2_pos p)). lia.
  - rewrite Pos2Z.inj_succ, (Pos2Z.inj_xO p).
    replace (Z.succ (Zpos (digits2_pos p)) - 1) with (Z.succ (Zpos (digits2_pos p) - 1)) by lia.
    rewrite !Z.pow_succ_r by lia.
    destruct IH as [IH1 IH2]. revert IH1 IH2.
    generalize (2 ^ (Z.pos (digits2_pos p) - 1)), (2 ^ Z.pos (digits2_pos p)). lia.
  - cbn. lia.
Qed.

Lemma fexp_eq (e : Z) : fexp prec emax e = Z.max (e - 53) (-1074).
Proof. reflexivity. Qed.

Lemma shr_1_m (r : shr_record) :
  0 <= shr_m r -> shr_m (shr_1 r) = shr_m r / 2.
Proof.
  destruct r as [m r s]. cbn [shr_m]. intros H.
  destruct m as [|[p|p|]|p]; cbn [shr_1 shr_m]; try lia.
  - reflexivity.
  - apply Z.div_unique with 1; lia.
  - apply Z.div_unique with 0; lia.
  - reflexivity.
Qed.

Lemma iter_shr_m (p : positive) :
  forall r, 0 <= shr_m r ->
  shr_m (iter_pos shr_1 p r) = shr_m r / 2 ^ Zpos p.
Proof.
  induction p as [p IH|p IH|]; intros r H; cbn [iter_pos].
  - assert (H1 : 0 <= shr_m (shr_1 r)).
    { rewrite shr_1_m by exact H. apply Z.div_pos; lia. }
    assert (H2 : 0 <= shr_m (iter_pos shr_1 p (shr_1 r))).
    { rewrite IH by exact H1. apply Z.div_pos; [exact H1|]. apply Z.pow_pos_nonneg; lia. }
    rewrite IH by exact H2. rewrite IH by exact H1. rewrite shr_1_m by exact H.
    rewrite !Z.div_div by (try apply Z.pow_pos_nonneg; lia).
    f_equal. rewrite Pos2Z.inj_xI.
    rewrite <- Z.pow_add_r by lia. rewrite <- (Z.pow_1_r 2) at 1.
    rewrite <- Z.pow_add_r by lia. f_equal. lia.
  - assert (H2 : 0 <= shr_m (iter_pos shr_1 p r)).
    { rewrite IH by exact H. apply Z.div_pos; [exact H|]. apply Z.pow_pos_nonneg; lia. }
    rewrite IH by exact H2. rewrite IH by exact H.
    rewrite !Z.div_div by (try apply Z.pow_pos_nonneg; lia).
    f_equal. rewrite Pos2Z.inj_xO.
    rewrite <- Z.pow_add_r by lia. f_equal. lia.
  - rewrite shr_1_m by exact H. rewrite Z.pow_1_r. reflexivity.
Qed.

(** [shr] on a non-negative mantissa: the exponent moves by the shift and
    the mantissa is divided. *)
Lemma shr_spec (r : shr_record) (e n : Z) :
  0 <= shr_m r ->
  shr r e n = (fst (shr r e n), e + Z.max n 0)
  /\ shr_m (fst (shr r e n)) = shr_m r / 2 ^ Z.max n 0.
Proof.
  intros H. destruct n as [|p|p]; cbn [shr fst].
  - rewrite Z.add_0_r. split; [reflexivity|]. cbn. rewrite Z.div_1_r. reflexivity.
  - split; [f_equal; lia|]. rewrite iter_shr_m by exact H. f_equal. 
  - rewrite Z.add_0_r. split; [reflexivity|]. cbn. rewrite Z.div_1_r. reflexivity.
Qed.


Lemma digits_pos (p : positive) : 0 < Zpos (digits2_pos p).
Proof. lia. Qed.

Lemma pow2_pos (k : Z) : 0 <= k -> 0 < 2 ^ k.
Proof. intros H. apply Z.pow_pos_nonneg; lia. Qed.

Lemma pow2_le (a b : Z) : 0 <= a <= b -> 2 ^ a <= 2 ^ b.
Proof. intros H. apply Z.pow_le_mono_r; lia. Qed.

Lemma pow2_lt_inv (a b : Z) : 0 <= b -> 2 ^ a < 2 ^ b -> a < b.
Proof.
  intros Hb H. destruct (Z_lt_le_dec a b) as [L|L]; [exact L|].
  pose proof (pow2_le b a ltac:(lia)). lia.
Qed.

Lemma round_nearest_even_bounds (m : Z) (l : location) :
  m <= round_nearest_even m l <= m + 1.
Proof.
  destruct l as [|[| |]]; cbn [round_nearest_even]; try lia.
  destruct (Z.even m); lia.
Qed.

(** What [binary_round_aux] gives on a positive mantissa: with [fe] the
    exponent the format asks for and [m1] the mantissa cut down to it, the
    result is never negative nor NaN, and when [m1] is positive it is a
    finite number at or above [m1 * 2^fe], or infinity. *)
Lemma round_aux_bounds (m : positive) (e : Z) :
  let fe := Z.max e (fexp prec emax (Zpos (digits2_pos m) + e)) in
  let m1 := Zpos m / 2 ^ (fe - e) in
  (binary_round_aux prec emax false (Zpos m) e loc_Exact = S754_zero false
   /\ m1 = 0)
  \/ binary_round_aux prec emax false (Zpos m) e loc_Exact
     = S754_infinity false
  \/ exists p e',
       binary_round_aux prec emax false (Zpos m) e loc_Exact
       = S754_finite false p e'
       /\ fe <= e' /\ (e' = fe -> m1 <= Zpos p).
Proof.
  intros fe m1. unfold binary_round_aux, shr_fexp.
  cbn [Zdigits2 shr_record_of_loc].
  set (n := fexp prec emax (Zpos (digits2_pos m) + e) - e).
  destruct (shr_spec {| shr_m := Zpos m; shr_r := false; shr_s := false |} e n
              ltac:(cbn; lia)) as [E1 M1].
  rewrite E1. cbn [shr_m] in M1.
  set (r1 := fst (shr {| shr_m := Zpos m; shr_r := false; shr_s := false |} e n)) in *.
  assert (Hfe : e + Z.max n 0 = fe) by (unfold fe, n; lia).
  rewrite Hfe.
  assert (Hm1 : shr_m r1 = m1).
  { rewrite M1. unfold m1. f_equal. f_equal. lia. }
  assert (Hm1pos : 0 <= m1).
  { unfold m1. apply Z.div_pos; [lia|]. apply pow2_pos. lia. }
  set (m2 := round_nearest_even (shr_m r1) (loc_of_shr_record r1)).
  assert (Hm2 : m1 <= m2 <= m1 + 1).
  { unfold m2. rewrite <- Hm1. apply round_nearest_even_bounds. }
  set (n2 := fexp prec emax (Zdigits2 m2 + fe) - fe).
  destruct (shr_spec {| shr_m := m2; shr_r := false; shr_s := false |} fe n2
              ltac:(cbn; lia)) as [E2 M2].
  rewrite E2. cbn [shr_m] in M2.
  set (r2 := fst (shr {| shr_m := m2; shr_r := false; shr_s := false |} fe n2)) in *.
  assert (Hfe_min : -1074 <= fe).
  { unfold fe. rewrite fexp_eq. lia. }
  assert (Hm3 : 0 <= shr_m r2).
  { rewrite M2. apply Z.div_pos; [lia|]. apply pow2_pos. lia. }
  assert (Hpos : 0 < m1 -> 0 < shr_m r2).
  { intros Hp. rewrite M2.
    destruct m2 as [|q|q]; try lia.
    apply Z.div_str_pos. split; [apply pow2_pos; lia|].
    unfold n2. cbn [Zdigits2]. rewrite fexp_eq.
    pose proof (digits_bounds q) as [Hq _].
    eapply Z.le_trans; [|exact Hq]. apply pow2_le. lia. }
  destruct (shr_m r2) as [|p|p] eqn:E3.
  - left. split; [reflexivity|]. lia.
  - right. destruct (fe + Z.max n2 0 <=? emax - prec); [right|left; reflexivity].
    exists p, (fe + Z.max n2 0). split; [reflexivity|]. split; [lia|].
    intros Heq. assert (Hz : Z.max n2 0 = 0) by lia.
    rewrite Hz in M2. cbn in M2. rewrite Z.div_1_r in M2. lia.
  - lia.
Qed.


Lemma iter_xO (m d : positive) :
  Zpos (Pos.iter xO m d) = Zpos m * 2 ^ Zpos d.
Proof.
  induction d as [|d IH] using Pos.peano_ind.
  - cbn [Pos.iter]. rewrite Z.pow_1_r. lia.
  - rewrite Pos.iter_succ, Pos2Z.inj_succ, Z.pow_succ_r by lia.
    rewrite (Pos2Z.inj_xO (Pos.iter xO m d)), IH. lia.
Qed.

Lemma shl_align_value (m : positive) (e e' : Z) :
  e' <= e ->
  Zpos (fst (shl_align m e e')) = Zpos m * 2 ^ (e - e').
Proof.
  intros H. unfold shl_align.
  destruct (e' - e) as [|d|d] eqn:E; cbn [fst].
  - replace (e - e') with 0 by lia. cbn. lia.
  - lia.
  - rewrite iter_xO. f_equal. f_equal. lia.
Qed.

Lemma shl_align_none (m : positive) (e e' : Z) :
  e <= e' -> shl_align m e e' = (m, e).
Proof.
  intros H. unfold shl_align. destruct (e' - e) eqn:E; try reflexivity. lia.
Qed.

Lemma digits_scaled (a b : positive) (k : Z) :
  0 <= k -> Zpos a * 2 ^ k <= Zpos b ->
  Zpos (digits2_pos a) + k <= Zpos (digits2_pos b).
Proof.
  intros Hk H.
  pose proof (digits_bounds a) as [Ha _].
  pose proof (digits_bounds b) as [_ Hb].
  assert (L : 2 ^ (Zpos (digits2_pos a) - 1 + k) < 2 ^ Zpos (digits2_pos b)).
  { rewrite Z.pow_add_r by lia.
    eapply Z.le_lt_trans; [|exact Hb].
    eapply Z.le_trans; [|exact H].
    apply Z.mul_le_mono_nonneg_r; [apply Z.lt_le_incl, pow2_pos; lia|exact Ha]. }
  apply pow2_lt_inv in L; lia.
Qed.

(** Rounding a positive value that is at least a number of the format
    gives at least that number. *)
Lemma binary_round_lower (mx : positive) (ex : Z) (m : positive) (e : Z) :
  fexp prec emax (Zpos (digits2_pos mx) + ex) = ex ->
  e <= ex ->
  Zpos mx * 2 ^ (ex - e) <= Zpos m ->
  SFleb (S754_finite false mx ex) (binary_round prec emax false m e) = true.
Proof.
  intros Hc He Hm.
  pose proof (digits_scaled mx m (ex - e) ltac:(lia) Hm) as Hd.
  assert (Hfe : ex <= fexp prec emax (Zpos (digits2_pos m) + e)).
  { rewrite <- Hc at 1. rewrite !fexp_eq. lia. }
  unfold binary_round. rewrite shl_align_none by lia.
  pose proof (round_aux_bounds m e) as R. cbv zeta in R.
  set (fe0 := fexp prec emax (Zpos (digits2_pos m) + e)) in *.
  replace (Z.max e fe0) with fe0 in R by lia.
  set (m1 := Zpos m / 2 ^ (fe0 - e)) in *.
  assert (Hm1 : 0 < m1 /\ (fe0 = ex -> Zpos mx <= m1)).
  { destruct (Z.eq_dec fe0 ex) as [Eq|Ne].
    - assert (L : Zpos mx <= m1).
      { unfold m1. rewrite Eq. apply Z.div_le_lower_bound; [apply pow2_pos; lia|lia]. }
      split; [lia|intros _; exact L].
    - split; [|intros; lia].
      assert (E53 : fe0 = Zpos (digits2_pos m) + e - 53).
      { unfold fe0 in *. rewrite fexp_eq in *. lia. }
      unfold m1. apply Z.div_str_pos. split; [apply pow2_pos; lia|].
      pose proof (digits_bounds m) as [Hb _].
      eapply Z.le_trans; [|exact Hb]. apply pow2_le. lia. }
  destruct Hm1 as [Hpos Hge].
  destruct R as [[_ Z0]|[R|(p & e' & R & Le & Hp)]].
  - lia.
  - rewrite R. reflexivity.
  - rewrite R. unfold SFleb, SFcompare.
    destruct (Z.compare_spec ex e') as [Hee|Hee|Hee]; [|reflexivity|lia].
    assert (L : Zpos mx <= Zpos p) by (etransitivity; [apply Hge|apply Hp]; lia).
    change (Pos.compare_cont Eq mx p) with (Pos.compare mx p).
    destruct (Pos.compare_spec mx p); try reflexivity. lia.
Qed.


Lemma binary_round_aux_nonneg (m : positive) (e : Z) :
  nonneg_sf (binary_round_aux prec emax false (Zpos m) e loc_Exact) = true.
Proof.
  destruct (round_aux_bounds m e) as [[R _]|[R|(p & e' & R & _)]];
    rewrite R; reflexivity.
Qed.

Lemma binary_round_nonneg (m : positive) (e : Z) :
  nonneg_sf (binary_round prec emax false m e) = true.
Proof.
  unfold binary_round.
  destruct (shl_align m e (fexp prec emax (Zpos (digits2_pos m) + e)))
    as [mz ez].
  apply binary_round_aux_nonneg.
Qed.

Lemma binary_normalize_nonneg (n : Z) :
  0 <= n -> nonneg_sf (binary_normalize prec emax n 0 false) = true.
Proof.
  intros H. destruct n as [|p|p]; cbn [binary_normalize];
    [reflexivity|apply binary_round_nonneg|lia].
Qed.

Lemma SFleb_refl_nonneg (x : spec_float) :
  nonneg_sf x = true -> SFleb x x = true.
Proof.
  destruct x as [s|[|]| |[|] m e]; try discriminate; intros _;
    try reflexivity.
  unfold SFleb, SFcompare. rewrite Z.compare_refl.
  change (Pos.compare_cont Eq m m) with (Pos.compare m m).
  rewrite Pos.compare_refl. reflexivity.
Qed.

Lemma SFleb_zero_nonneg (x : spec_float) :
  SFleb (S754_zero false) x = nonneg_sf x.
Proof. destruct x as [s|[|]| |[|] m e]; reflexivity. Qed.

(** The order on positive finite numbers, read on exponent and mantissa. *)
Lemma SFleb_finite (m1 : positive) (e1 : Z) (m2 : positive) (e2 : Z) :
  SFleb (S754_finite false m1 e1) (S754_finite false m2 e2) = true
  <-> e1 < e2 \/ (e1 = e2 /\ (m1 <= m2)%positive).
Proof.
  unfold SFleb, SFcompare.
  change (Pos.compare_cont Eq m1 m2) with (Pos.compare m1 m2).
  destruct (Z.compare_spec e1 e2) as [H|H|H].
  - destruct (Pos.compare_spec m1 m2) as [K|K|K]; split; intros G;
      try reflexivity; try discriminate; try lia.
  - split; [lia|reflexivity].
  - split; [discriminate|lia].
Qed.

Lemma SFleb_trans_nonneg (a b c : spec_float) :
  nonneg_sf a = true -> nonneg_sf b = true -> nonneg_sf c = true ->
  SFleb a b = true -> SFleb b c = true -> SFleb a c = true.
Proof.
  destruct a as [sa|[|]| |[|] ma ea]; try discriminate;
  destruct b as [sb|[|]| |[|] mb eb]; try discriminate;
  destruct c as [sc|[|]| |[|] mc ec]; try discriminate;
  intros _ _ _ H1 H2; try reflexivity; try discriminate.
  apply SFleb_finite in H1. apply SFleb_finite in H2. apply SFleb_finite.
  lia.
Qed.

(** Adding a non-negative number to a non-negative number of the format
    does not make it smaller. *)
Lemma SFadd_grows (x y : spec_float) :
  valid_binary x = true ->
  nonneg_sf x = true -> nonneg_sf y = true ->
  SFleb x (SF64add x y) = true /\ nonneg_sf (SF64add x y) = true.
Proof.
  intros Hv Hx Hy.
  destruct x as [sx|[|]| |[|] mx ex]; try discriminate;
  destruct y as [sy|[|]| |[|] my ey]; try discriminate;
  try (split; reflexivity).
  - destruct sx, sy; split; reflexivity.
  - split; [apply SFleb_refl_nonneg|]; reflexivity.
  - unfold SF64add, SFadd. cbn [cond_Zopp]. 
    set (ez := Z.min ex ey).
    set (a := fst (shl_align mx ex ez)).
    set (b := fst (shl_align my ey ez)).
    change (Zpos a + Zpos b) with (Zpos (a + b)).
    cbn [binary_normalize]. split; [|apply binary_round_nonneg].
    cbn [valid_binary] in Hv. unfold bounded, canonical_mantissa in Hv.
    apply andb_true_iff in Hv. destruct Hv as [Hc _].
    apply Z.eqb_eq in Hc.
    apply binary_round_lower; [exact Hc|unfold ez; lia|].
    rewrite Pos2Z.inj_add. unfold a.
    rewrite shl_align_value by (unfold ez; lia). lia.
Qed.

Lemma SFmul_nonneg (x y : spec_float) :
  finite_nonneg_sf x = true -> finite_nonneg_sf y = true ->
  nonneg_sf (SF64mul x y) = true.
Proof.
  destruct x as [sx|[|]| |[|] mx ex]; try discriminate;
  destruct y as [sy|[|]| |[|] my ey]; try discriminate; intros _ _;
    try reflexivity.
  unfold SF64mul, SFmul. cbn [xorb]. apply binary_round_aux_nonneg.
Qed.

Local Open Scope float_scope.

Lemma Prim2SF_zero : Prim2SF 0 = S754_zero false.
Proof. reflexivity. Qed.

Lemma Prim2SF_infinity : Prim2SF infinity = S754_infinity false.
Proof. reflexivity. Qed.

Lemma leb_zero_nonneg (x : float) :
  (0 <=? x) = nonneg_sf (Prim2SF x).
Proof. rewrite FloatAxioms.leb_spec, Prim2SF_zero. apply SFleb_zero_nonneg. Qed.

Lemma not_infinite (x : float) :
  is_infinity x = false -> nonneg_sf (Prim2SF x) = true ->
  finite_nonneg_sf (Prim2SF x) = true.
Proof.
  unfold is_infinity. rewrite FloatAxioms.eqb_spec, FloatAxioms.abs_spec, Prim2SF_infinity.
  destruct (Prim2SF x) as [s|[|]| |[|] m e]; try discriminate;
    intros H _; try reflexivity.
Qed.

Lemma below_infinity (x : float) :
  (x <? infinity) = true -> nonneg_sf (Prim2SF x) = true ->
  finite_nonneg_sf (Prim2SF x) = true.
Proof.
  rewrite FloatAxioms.ltb_spec, Prim2SF_infinity.
  destruct (Prim2SF x) as [s|[|]| |[|] m e]; try discriminate;
    intros H _; try reflexivity.
Qed.

(** In binary64 a sum of two non-negative numbers is at least the first,
    and is itself non-negative. *)
Lemma add_grows (s y : float) :
  (0 <=? s) = true -> (0 <=? y) = true ->
  (s <=? s + y) = true /\ (0 <=? s + y) = true.
Proof.
  rewrite !leb_zero_nonneg, FloatAxioms.leb_spec, FloatAxioms.add_spec. intros Hs Hy.
  apply SFadd_grows; [apply Prim2SF_valid|exact Hs|exact Hy].
Qed.

Lemma mul_nonneg (e x : float) :
  (0 <=? e) = true -> (e <? infinity) = true ->
  (0 <=? x) = true -> is_infinity x = false ->
  (0 <=? e * x) = true.
Proof.
  rewrite !leb_zero_nonneg, FloatAxioms.mul_spec. intros He Hfin Hx Hinf.
  apply SFmul_nonneg; [apply below_infinity|apply not_infinite]; assumption.
Qed.

Lemma leb_trans_nonneg (a b c : float) :
  (0 <=? a) = true -> (0 <=? b) = true -> (0 <=? c) = true ->
  (a <=? b) = true -> (b <=? c) = true -> (a <=? c) = true.
Proof.
  rewrite !leb_zero_nonneg, !FloatAxioms.leb_spec. apply SFleb_trans_nonneg.
Qed.

Lemma leb_refl_nonneg (a : float) : (0 <=? a) = true -> (a <=? a) = true.
Proof. rewrite leb_zero_nonneg, FloatAxioms.leb_spec. apply SFleb_refl_nonneg. Qed.

Lemma SF2Prim_nonneg (x : spec_float) :
  nonneg_sf x = true -> nonneg_sf (Prim2SF (SF2Prim x)) = true.
Proof.
  destruct x as [s|[|]| |[|] m e]; try discriminate; intros _.
  - destruct s; reflexivity.
  - reflexivity.
  - cbn [SF2Prim]. rewrite Z_ldexp_spec, of_uint63_spec.
    pose proof (Uint63.to_Z_bounded (Uint63.of_Z (Zpos m))) as [Hb _].
    pose proof (binary_normalize_nonneg _ Hb) as Hn.
    destruct (binary_normalize prec emax
                (Uint63Axioms.to_Z (Uint63.of_Z (Z.pos m))) 0 false)
      as [s'|[|]| |[|] m' e']; try discriminate; try reflexivity.
    cbn [SFldexp]. apply binary_round_nonneg.
Qed.

Lemma float_of_int_nonneg (n : Z) (x : float) :
  (0 <= n)%Z -> float_of_int n = inr x ->
  (0 <=? x) = true /\ is_infinity x = false.
Proof.
  unfold float_of_int. intros Hn.
  destruct (is_infinity (SF2Prim (binary_normalize prec emax n 0 false)))
    eqn:E; [discriminate|].
  intros [= <-]. split; [|exact E].
  rewrite leb_zero_nonneg. apply SF2Prim_nonneg, binary_normalize_nonneg, Hn.
Qed.

Lemma float_of_int_one : float_of_int 1 = inr 1.
Proof. reflexivity. Qed.


End Binary64Facts.

(* ================================================================== *)
(** * The budget guard *)
(* ================================================================== *)

Section BudgetFacts.
Import Data Budget Runs.
Import ecom_agents.
Local Open Scope float_scope.

Lemma book_overflows (n : Z) (e : exn) (g : BudgetGuard) :
  float_of_int n = inl e -> check_and_book n g = (inl e, g).
Proof. intros H. unfold check_and_book. rewrite H. reflexivity. Qed.

Lemma book_accepts (n : Z) (x : float) (g : BudgetGuard) :
  float_of_int n = inr x ->
  (total g <? spent g + est g * x) = false ->
  check_and_book n g = (inr tt, with_spent g (spent g + est g * x)).
Proof. intros Hx H. unfold check_and_book. rewrite Hx, H. reflexivity. Qed.

Lemma book_rejects (n : Z) (x : float) (g : BudgetGuard) :
  float_of_int n = inr x ->
  (total g <? spent g + est g * x) = true ->
  check_and_book n g
  = (inl (BudgetCapHit (spent g) (est g * x) (total g)), g).
Proof. intros Hx H. unfold check_and_book. rewrite Hx, H. reflexivity. Qed.

Lemma seed_book_accepts (n : Z) (x : float) (g : BudgetGuard) :
  float_of_int n = inr x ->
  (total g <? spent g + est g * x) = false ->
  seed_from_kit.book n g = (inr tt, with_spent g (spent g + est g * x)).
Proof.
  intros Hx H. unfold seed_from_kit.book. rewrite Hx, H. reflexivity.
Qed.

Lemma seed_book_rejects (n : Z) (x : float) (g : BudgetGuard) :
  float_of_int n = inr x ->
  (total g <? spent g + est g * x) = true ->
  seed_from_kit.book n g
  = (inl (RuntimeError (CapHitBook (spent g) (total g))), g).
Proof.
  intros Hx H. unfold seed_from_kit.book. rewrite Hx, H. reflexivity.
Qed.

(** The two guards move alike and refuse alike; only the text differs. *)
Lemma seed_book_alike (n : Z) (g : BudgetGuard) :
  snd (seed_from_kit.book n g) = snd (check_and_book n g)
  /\ failed (fst (seed_from_kit.book n g)) = failed (fst (check_and_book n g)).
Proof.
  unfold seed_from_kit.book, check_and_book.
  destruct (float_of_int n) as [e|x]; [split; reflexivity|].
  destruct (total g <? spent g + est g * x); split; reflexivity.
Qed.

(** A reservation either leaves the guard as it is, or was accepted. *)
Lemma book_cases (n : Z) (g : BudgetGuard) :
  (failed (fst (check_and_book n g)) = true /\ snd (check_and_book n g) = g)
  \/ (exists x,
        float_of_int n = inr x
        /\ (total g <? spent g + est g * x) = false
        /\ check_and_book n g
           = (inr tt, with_spent g (spent g + est g * x))).
Proof.
  destruct (float_of_int n) as [e|x] eqn:Hx.
  - left. rewrite (book_overflows n e g Hx). split; reflexivity.
  - destruct (total g <? spent g + est g * x) eqn:H.
    + left. rewrite (book_rejects n x g Hx H). split; reflexivity.
    + right. exists x. repeat split; [exact H|apply book_accepts; assumption].
Qed.


Lemma book_keeps_config (n : Z) (g : BudgetGuard) :
  total (snd (check_and_book n g)) = total g
  /\ est (snd (check_and_book n g)) = est g.
Proof.
  destruct (book_cases n g) as [[_ E]|(x & _ & _ & E)]; rewrite E;
    split; reflexivity.
Qed.

Lemma book_monotone (n : Z) (g : BudgetGuard) :
  (0 <=? spent g) = true -> (0 <=? est g) = true ->
  (est g <? infinity) = true -> (0 <= n)%Z ->
  (spent g <=? spent (snd (check_and_book n g))) = true
  /\ (0 <=? spent (snd (check_and_book n g))) = true.
Proof.
  intros Hs He Hfin Hn.
  destruct (book_cases n g) as [[_ E]|(x & Hx & _ & E)]; rewrite E.
  - split; [apply leb_refl_nonneg|]; exact Hs.
  - cbn [snd with_spent spent].
    destruct (float_of_int_nonneg n x Hn Hx) as [Hx0 Hxfin].
    apply add_grows; [exact Hs|].
    apply mul_nonneg; assumption.
Qed.

Lemma book_capped (n : Z) (g : BudgetGuard) :
  (total g <? spent g) = false ->
  (total g <? spent (snd (check_and_book n g))) = false.
Proof.
  intros Hc.
  destruct (book_cases n g) as [[_ E]|(x & _ & H & E)]; rewrite E;
    [exact Hc|exact H].
Qed.

Lemma final_step (n : Z) (ns : list Z) (g : BudgetGuard) :
  final (n :: ns) g = final ns (snd (check_and_book n g)).
Proof. reflexivity. Qed.

Lemma final_config (ns : list Z) (g : BudgetGuard) :
  total (final ns g) = total g /\ est (final ns g) = est g.
Proof.
  revert g. induction ns as [|n ns IH]; intros g; [split; reflexivity|].
  rewrite final_step.
  destruct (IH (snd (check_and_book n g))) as [Ht He].
  destruct (book_keeps_config n g) as [Ht' He'].
  rewrite Ht, He, Ht', He'. split; reflexivity.
Qed.

Lemma final_monotone (ns : list Z) (g : BudgetGuard) :
  (0 <=? spent g) = true -> (0 <=? est g) = true ->
  (est g <? infinity) = true ->
  Forall (fun n => (0 <= n)%Z) ns ->
  (spent g <=? spent (final ns g)) = true
  /\ (0 <=? spent (final ns g)) = true.
Proof.
  intros Hs He Hfin Hns. revert g Hs He Hfin.
  induction Hns as [|n ns Hn Hns IH]; intros g Hs He Hfin.
  - split; [apply leb_refl_nonneg|]; exact Hs.
  - rewrite final_step.
    destruct (book_monotone n g Hs He Hfin Hn) as [Hle Hs'].
    destruct (book_keeps_config n g) as [_ Ee].
    destruct (IH (snd (check_and_book n g)) Hs') as [Hle' Hs''];
      [rewrite Ee; exact He|rewrite Ee; exact Hfin|].
    split; [|exact Hs''].
    apply (leb_trans_nonneg _ (spent (snd (check_and_book n g)))); assumption.
Qed.

Lemma final_capped (ns : list Z) (g : BudgetGuard) :
  (total g <? spent g) = false -> (total g <? spent (final ns g)) = false.
Proof.
  revert g. induction ns as [|n ns IH]; intros g Hc; [exact Hc|].
  rewrite final_step.
  destruct (book_keeps_config n g) as [Et _]. rewrite <- Et.
  apply IH. rewrite Et. apply book_capped, Hc.
Qed.


End BudgetFacts.




(* ================================================================== *)
(** * Row enrichment *)
(* ================================================================== *)

Section EnrichFacts.
Import Py Data Budget Runs.
Import ecom_agents.


Lemma llm_json_state (answer : reply) (g : BudgetGuard) :
  snd (llm_json answer g) = snd (check_and_book 1 g).
Proof.
  unfold llm_json, bind.
  destruct (check_and_book 1 g) as [[e|u] g']; [reflexivity|].
  destruct answer; reflexivity.
Qed.

Lemma book_one_refused (g : BudgetGuard) :
  failed (fst (check_and_book 1 g)) = true ->
  check_and_book 1 g
  = (inl (BudgetCapHit (spent g) (est g * 1)%float (total g)), g).
Proof.
  intros H.
  destruct (total g <? spent g + est g * 1)%float eqn:E.
  - apply (book_rejects 1 1%float g float_of_int_one E).
  - rewrite (book_accepts 1 1%float g float_of_int_one E) in H.
    discriminate H.
Qed.

Lemma seed_book_one_refused (g : BudgetGuard) :
  failed (fst (check_and_book 1 g)) = true ->
  seed_from_kit.book 1 g
  = (inl (RuntimeError (CapHitBook (spent g) (total g))), g).
Proof.
  intros H.
  destruct (total g <? spent g + est g * 1)%float eqn:E.
  - apply (seed_book_rejects 1 1%float g float_of_int_one E).
  - rewrite (book_accepts 1 1%float g float_of_int_one E) in H.
    discriminate H.
Qed.

Lemma seed_llm_json_state (answer : reply) (g : BudgetGuard) :
  snd (seed_from_kit.llm_json answer g) = snd (check_and_book 1 g).
Proof.
  destruct (seed_book_alike 1 g) as [Hs _]. rewrite <- Hs.
  unfold seed_from_kit.llm_json, bind.
  destruct (seed_from_kit.book 1 g) as [[e|u] g']; [reflexivity|].
  destruct answer; reflexivity.
Qed.

Lemma llm_json_refused (answer : reply) (g : BudgetGuard) :
  failed (fst (check_and_book 1 g)) = true ->
  llm_json answer g
  = (inl (BudgetCapHit (spent g) (est g * 1)%float (total g)), g).
Proof.
  intros H. unfold llm_json, bind.
  rewrite (book_one_refused g H). reflexivity.
Qed.


Lemma lift_run {A} (x : exn + A) (g : BudgetGuard) : lift x g = (x, g).
Proof. destruct x; reflexivity. Qed.

(** Only the reservation touches the guard. *)
Lemma try_body_state (answer : reply) (title base_tags : string)
  (g : BudgetGuard) :
  exists x, try_body answer title base_tags g = (x, snd (llm_json answer g)).
Proof.
  unfold try_body, bind.
  destruct (llm_json answer g) as [[e|d] g']; cbn [snd]; [eauto|].
  rewrite lift_run.
  destruct (data_get d "title_seo" (PStr title)) as [e|t]; [eauto|].
  rewrite lift_run. destruct (slice70 t) as [e|out_title]; [eauto|].
  rewrite lift_run.
  destruct (data_get d "body_html" (PStr "")) as [e|body_html]; [eauto|].
  rewrite lift_run.
  destruct (data_get d "tags" (PList [])) as [e|tags]; [eauto|].
  rewrite lift_run. destruct (tag_string tags base_tags) as [e|s]; [eauto|].
  unfold ret. eauto.
Qed.

(** A gateway call that fails makes the [try] raise. *)
Lemma try_body_gateway_failure (answer : reply) (title base_tags : string)
  (g : BudgetGuard) :
  failed (fst (llm_json answer g)) = true ->
  failed (fst (try_body answer title base_tags g)) = true.
Proof.
  unfold try_body, bind.
  destruct (llm_json answer g) as [[e|d] g']; [reflexivity|discriminate].
Qed.

(** Whatever the [try] raises, the row is the fallback row. *)
Lemma enrich_on_raise (vendor : string) (answer : reply) (r : dict cell)
  (g : BudgetGuard) :
  failed (fst (try_body answer (field r "title") (field r "tags") g)) = true ->
  enrich vendor answer r g
  = (inr (fallback_row vendor r), snd (llm_json answer g)).
Proof.
  intros H. unfold enrich, try_except, bind.
  destruct (try_body_state answer (field r "title") (field r "tags") g)
    as [x Hx].
  rewrite Hx in *. destruct x as [e|f]; [reflexivity|discriminate H].
Qed.

Lemma enrich_on_failure (vendor : string) (answer : reply) (r : dict cell)
  (g : BudgetGuard) :
  failed (fst (llm_json answer g)) = true ->
  enrich vendor answer r g
  = (inr (fallback_row vendor r), snd (llm_json answer g)).
Proof.
  intros H. apply enrich_on_raise, try_body_gateway_failure, H.
Qed.

(** A turn of the loop never raises, and moves the guard as the
    reservation does. *)
Lemma enrich_returns (vendor : string) (answer : reply) (r : dict cell)
  (g : BudgetGuard) :
  exists o, enrich vendor answer r g = (inr o, snd (check_and_book 1 g)).
Proof.
  rewrite <- (llm_json_state answer g).
  unfold enrich, try_except, bind.
  destruct (try_body_state answer (field r "title") (field r "tags") g)
    as [x Hx].
  rewrite Hx. destruct x as [e|[[out_title body_html] tag_str]];
    unfold ret, except_body; eauto.
Qed.

Lemma copy_loop_spec (vendor : string) (gateway : nat -> reply)
  (rs : list (dict cell)) :
  forall (i : nat) (g : BudgetGuard),
  exists out g',
    copy_loop vendor gateway i rs g = (inr out, g')
    /\ List.length out = List.length rs
    /\ forall k r gk,
         nth_error rs k = Some r ->
         nth_error (guards vendor gateway i rs g) k = Some gk ->
         failed (fst (try_body (gateway (i + k)%nat) (field r "title")
                        (field r "tags") gk)) = true ->
         nth_error out k = Some (fallback_row vendor r).
Proof.
  induction rs as [|r0 rs IH]; intros i g.
  - exists [], g. repeat split. intros k r gk Hk. destruct k; discriminate.
  - destruct (enrich_returns vendor (gateway i) r0 g) as [o Ho].
    destruct (IH (S i) (snd (check_and_book 1 g))) as (out & g' & Hl & Hlen & Hrows).
    exists (o :: out), g'.
    split; [|split].
    + cbn [copy_loop]. unfold bind at 1. rewrite Ho.
      unfold bind at 1. rewrite Hl. reflexivity.
    + simpl. rewrite Hlen. reflexivity.
    + intros k r gk Hr Hg Hf. destruct k as [|k].
      * simpl in Hr, Hg. injection Hr as <-. injection Hg as <-.
        rewrite Nat.add_0_r in Hf.
        rewrite (enrich_on_raise vendor (gateway i) r0 g Hf) in Ho.
        rewrite llm_json_state in Ho.
        injection Ho as <-. reflexivity.
      * cbn [guards nth_error] in Hg. rewrite Ho in Hg. cbn [snd] in Hg.
        cbn [nth_error] in Hr |- *.
        apply (Hrows k r gk Hr Hg).
        rewrite <- Nat.add_succ_comm in Hf. exact Hf.
Qed.


Lemma copy_loop_refused (vendor : string) (gateway : nat -> reply)
  (rs : list (dict cell)) (g : BudgetGuard) :
  failed (fst (check_and_book 1 g)) = true ->
  forall i : nat,
  copy_loop vendor gateway i rs g = (inr (map (fallback_row vendor) rs), g).
Proof.
  intros Hr. induction rs as [|r0 rs IH]; intros i; [reflexivity|].
  cbn [copy_loop]. unfold bind at 1.
  rewrite (enrich_on_failure vendor (gateway i) r0 g);
    rewrite (llm_json_refused (gateway i) g Hr); [|reflexivity].
  cbn [snd]. unfold bind at 1. rewrite (IH (S i)). reflexivity.
Qed.

End EnrichFacts.



(** C3 (as stated) fails: the Highlights list has no item for a blank
    entry, and the title and the tags are the texts of the cells without
    their surrounding whitespace.  The features "a,,b , ,c" have five
    entries and give three items; the title " Desk Mat " is written as
    "Desk Mat"; an empty tags cell, which pandas reads as missing, is
    written as "nan". *)
Lemma blank_entries_are_dropped :
  let row := [("title", Data.CStr " Desk Mat ");
              ("features", Data.CStr "a,,b , ,c");
              ("materials", Data.CStr "PU leather");
              ("tags", Data.NaN)] in
  List.length (Py.split_on "," "a,,b , ,c") = 5%nat
  /\ exists o,
       fst (ecom_agents.generate_product_copy "Aceru Studio"
              (fun _ => Data.Fails) [row]
              (Budget.init 10%float ecom_agents.EST_COST_PER_CALL))
       = inr [o]
       /\ Data.get "Title" o = Some (Data.PStr "Desk Mat")
       /\ Data.get "Tags" o = Some (Data.PStr "nan")
       /\ Data.get "Body (HTML)" o
          = Some (Data.PStr
              "<h3>Highlights</h3><ul><li>a</li><li>b</li><li>c</li></ul><h3>Details</h3><p>PU leather</p><h3>Shipping & Returns</h3><p>30-day returns. Tracked shipping.</p>").
Proof.
  cbv zeta. split; [reflexivity|].
  eexists. split; [reflexivity|]. repeat split.
Qed.

(** C4 (as amended): a refused reservation ends the single-call stages
    (niche kit, ad creatives, seeding) with the guard's error as the fatal
    diagnostic; in the Row Enrichment stage the refusal is caught by the
    handler of the row, the row gets the fallback, the guard stays as it
    is and the batch completes with the fallback for every row. *)
Theorem refusal_handling (g : Budget.BudgetGuard) (answer : Data.reply)
  (gateway : nat -> Data.reply) (vendor idea : string) (ideas : list string)
  (r : Data.dict Data.cell) (rows : list (Data.dict Data.cell))
  (str_of_container : Data.pyval -> string) (fresh : nat -> string) :
  Budget.failed (fst (ecom_agents.check_and_book 1 g)) = true ->
  let refused :=
    Data.BudgetCapHit (Budget.spent g) (Budget.est g * 1)%float
      (Budget.total g) in
  ecom_agents.run_main (ecom_agents.generate_niche_kit answer) g
  = (ecom_agents.FatalError refused, g)
  /\ ecom_agents.run_main (ecom_agents.generate_ad_creatives answer) g
     = (ecom_agents.FatalError refused, g)
  /\ ecom_agents.run_main
       (seed_from_kit.seed_products_from_kit str_of_container fresh
          (idea :: ideas) answer) g
     = (ecom_agents.FatalError
          (Data.RuntimeError
             (Data.CapHitBook (Budget.spent g) (Budget.total g))), g)
  /\ ecom_agents.enrich vendor answer r g
     = (inr (ecom_agents.fallback_row vendor r), g)
  /\ ecom_agents.run_main
       (ecom_agents.generate_product_copy vendor gateway rows) g
     = (ecom_agents.Success (map (ecom_agents.fallback_row vendor) rows), g).
Proof.
  intros Hr refused.
  pose proof (llm_json_refused answer g Hr) as Hl.
  repeat split.
  - unfold ecom_agents.run_main, ecom_agents.generate_niche_kit.
    rewrite Hl. reflexivity.
  - unfold ecom_agents.run_main, ecom_agents.generate_ad_creatives.
    rewrite Hl. reflexivity.
  - unfold ecom_agents.run_main, seed_from_kit.seed_products_from_kit,
      seed_from_kit.expand_and_write, seed_from_kit.llm_json,
      Budget.try_except, Budget.bind.
    rewrite (seed_book_one_refused g Hr). reflexivity.
  - rewrite (enrich_on_failure vendor answer r g); rewrite Hl; reflexivity.
  - unfold ecom_agents.run_main, ecom_agents.generate_product_copy.
    rewrite (copy_loop_refused vendor gateway rows g Hr 0). reflexivity.
Qed.

(** The witness of [refusal_handling]: a cap of zero refuses the first
    reservation. *)
Lemma refusal_handling_witness :
  let g0 := Budget.init 0%float ecom_agents.EST_COST_PER_CALL in
  ecom_agents.run_main (ecom_agents.generate_niche_kit Data.Fails) g0
  = (ecom_agents.FatalError
       (Data.BudgetCapHit 0%float ecom_agents.EST_COST_PER_CALL 0%float), g0)
  /\ ecom_agents.run_main
       (ecom_agents.generate_product_copy "Aceru Studio"
          (fun _ => Data.Fails) [[("title", Data.CStr "Desk Mat")]]) g0
     = (ecom_agents.Success
          [ecom_agents.fallback_row "Aceru Studio"
             [("title", Data.CStr "Desk Mat")]], g0).
Proof.
  intros g0.
  destruct (refusal_handling g0 Data.Fails (fun _ => Data.Fails)
              "Aceru Studio" "desk mat" [] [("title", Data.CStr "Desk Mat")]
              [[("title", Data.CStr "Desk Mat")]] (fun _ => "") (fun _ => "")
              eq_refl)
    as (H1 & _ & _ & _ & H5).
  split; [exact H1|exact H5].
Defined.

(** C4 (as stated) fails: with the cap below one estimate the guard
    refuses the reservation of the only row, and the Row Enrichment stage
    does not abort: it completes with the fallback row, although the
    provider would have answered. *)
Lemma enrichment_survives_refusal :
  let g0 := Budget.init 0.005%float ecom_agents.EST_COST_PER_CALL in
  let row := [("title", Data.CStr "Desk Mat");
              ("features", Data.CStr "anti-slip base")] in
  let answer := Data.Returns (Data.PDict [("title_seo", Data.PStr "Mat")]) in
  fst (ecom_agents.check_and_book 1 g0)
  = inl (Data.BudgetCapHit 0%float ecom_agents.EST_COST_PER_CALL 0.005%float)
  /\ ecom_agents.run_main
       (ecom_agents.generate_product_copy "Aceru Studio" (fun _ => answer)
          [row]) g0
     = (ecom_agents.Success [ecom_agents.fallback_row "Aceru Studio" row], g0).
Proof. split; reflexivity. Qed.

(* ================================================================== *)
(** * The variant expander *)
(* ================================================================== *)

Section VariantFacts.
Import Py Data.
Import pod_variants_builder.

Variable cfg : Config.

Lemma product_length {A B} (xs : list A) (ys : list B) :
  List.length (product xs ys) = (List.length xs * List.length ys)%nat.
Proof.
  unfold product. induction xs as [|x xs IH]; [reflexivity|].
  cbn [flat_map]. rewrite length_app, length_map, IH. reflexivity.
Qed.

Lemma product_nth {A B} (xs : list A) (ys : list B) (i j : nat) (x : A) (y : B) :
  nth_error xs i = Some x -> nth_error ys j = Some y ->
  nth_error (product xs ys) (i * List.length ys + j)%nat = Some (x, y).
Proof.
  unfold product. revert i. induction xs as [|x0 xs IH]; intros i Hx Hy.
  - destruct i; discriminate.
  - cbn [flat_map]. destruct i as [|i].
    + injection Hx as ->. cbn [Nat.mul Nat.add].
      rewrite nth_error_app1.
      * rewrite nth_error_map, Hy. reflexivity.
      * rewrite length_map. apply nth_error_Some. congruence.
    + cbn [nth_error] in Hx.
      rewrite nth_error_app2; rewrite length_map; [|simpl; lia].
      replace (S i * List.length ys + j - List.length ys)%nat
        with (i * List.length ys + j)%nat by (simpl; lia).
      apply IH; assumption.
Qed.

Lemma variants_length (b : Base) (first : bool) (combos : list (string * string)) :
  List.length (variants cfg b first combos) = List.length combos.
Proof.
  revert first. induction combos as [|[c s] combos IH]; intros first;
    [reflexivity|].
  simpl. rewrite IH. reflexivity.
Qed.

(** Row [i] of the inner loop is built with [first] true for [i = 0] only. *)
Lemma variants_nth (b : Base) (combos : list (string * string)) :
  forall (first : bool) (i : nat),
  nth_error (variants cfg b first combos) i
  = option_map
      (fun cs => variant_row cfg b (first && (i =? 0)%nat) (fst cs) (snd cs))
      (nth_error combos i).
Proof.
  induction combos as [|[c s] combos IH]; intros first i.
  - destruct i; reflexivity.
  - destruct i as [|i]; cbn [variants nth_error].
    + cbn. rewrite andb_true_r. reflexivity.
    + rewrite IH. cbn. rewrite andb_false_r. reflexivity.
Qed.

Lemma variants_skus (b : Base) (combos : list (string * string)) :
  forall first : bool,
  map (get "Variant SKU") (variants cfg b first combos)
  = map (fun cs => Some (CStr (sku_of cfg (fst cs) (snd cs)))) combos.
Proof.
  induction combos as [|[c s] combos IH]; intros first; [reflexivity|].
  cbn [variants map]. rewrite IH. reflexivity.
Qed.

Lemma variants_options (b : Base) (combos : list (string * string)) :
  forall first : bool,
  map (fun v => (get "Option1 Value" v, get "Option2 Value" v))
    (variants cfg b first combos)
  = map (fun cs => (Some (CStr (fst cs)), Some (CStr (snd cs)))) combos.
Proof.
  induction combos as [|[c s] combos IH]; intros first; [reflexivity|].
  cbn [variants map]. rewrite IH. reflexivity.
Qed.

Lemma read_base_ok (r : dict cell) (t bd : cell) :
  get "Title" r = Some t -> get "Body (HTML)" r = Some bd ->
  read_base r
  = inr {| title := py_str t;
           handle := slug (CStr (py_str t));
           body := bd;
           vendor := get_or "Vendor" (CStr "Aceru Studio") r;
           tags := get_or "Tags" (CStr "") r;
           status := get_or "Status" (CStr "active") r;
           base_price := get_or "Variant Price" (CStr "24.90") r |}.
Proof. intros Ht Hb. unfold read_base. rewrite Ht, Hb. reflexivity. Qed.

Lemma expand_inv (r : dict cell) (vs : list (dict cell)) :
  expand cfg r = inr vs ->
  exists b, vs = variants cfg b true (product (COLORS cfg) (SIZES cfg)).
Proof.
  unfold expand. destruct (read_base r) as [e|b]; [discriminate|].
  intros H. injection H as <-. eauto.
Qed.

Lemma main_cons_inv (r : dict cell) (base out : list (dict cell)) :
  main cfg (r :: base) = inr out ->
  exists vs out',
    expand cfg r = inr vs /\ main cfg base = inr out' /\ out = (vs ++ out')%list.
Proof.
  cbn [main]. destruct (expand cfg r) as [e|vs]; [discriminate|].
  destruct (main cfg base) as [e|out']; [discriminate|].
  intros H. injection H as <-. eauto.
Qed.

Lemma main_total (base : list (dict cell)) :
  Forall (fun r => get "Title" r <> None /\ get "Body (HTML)" r <> None) base ->
  exists out,
    main cfg base = inr out
    /\ List.length out
       = (List.length base * (List.length (COLORS cfg) * List.length (SIZES cfg)))%nat.
Proof.
  induction 1 as [|r base [Ht Hb] _ IH]; [exists []; split; reflexivity|].
  destruct IH as (out & Hout & Hlen).
  destruct (get "Title" r) as [t|] eqn:Et; [|congruence].
  destruct (get "Body (HTML)" r) as [bd|] eqn:Eb; [|congruence].
  eexists. cbn [main]. unfold expand.
  rewrite (read_base_ok r t bd Et Eb), Hout. split; [reflexivity|].
  rewrite length_app, variants_length, product_length, Hlen. simpl. lia.
Qed.

End VariantFacts.

Section VariantOrder.
Import Py Data.
Import pod_variants_builder.

Lemma map_product {A B C} (f : A * B -> C) (xs : list A) (ys : list B) :
  map f (product xs ys) = flat_map (fun x => map (fun y => f (x, y)) ys) xs.
Proof.
  unfold product. induction xs as [|x xs IH]; [reflexivity|].
  cbn [flat_map]. rewrite map_app, map_map, IH. reflexivity.
Qed.

Lemma variants_triples (cfg : Config) (b : Base)
  (combos : list (string * string)) :
  forall first : bool,
  map (fun v => (get "Option1 Value" v, get "Option2 Value" v,
                 get "Variant SKU" v))
    (variants cfg b first combos)
  = map (fun cs => (Some (CStr (fst cs)), Some (CStr (snd cs)),
                    Some (CStr (sku_of cfg (fst cs) (snd cs))))) combos.
Proof.
  induction combos as [|[c s] combos IH]; intros first; [reflexivity|].
  cbn [variants map]. rewrite IH. reflexivity.
Qed.

Lemma variants_titles (cfg : Config) (b : Base)
  (combos : list (string * string)) :
  map (get "Title") (variants cfg b false combos)
  = map (fun _ => Some (CStr "")) combos.
Proof.
  induction combos as [|[c s] combos IH]; [reflexivity|].
  cbn [variants map]. rewrite IH. reflexivity.
Qed.

Lemma repeated_block_has_duplicate {A} (x : A) (l rest : list A) :
  ~ NoDup ((x :: l) ++ (x :: l) ++ rest).
Proof.
  intros H. cbn [app] in H. inversion H as [|? ? Hnot _]; subst.
  apply Hnot. apply in_or_app. right. left. reflexivity.
Qed.

End VariantOrder.

(** C5 (as amended): of the rows emitted for a base row, the first carries
    the shared fields of the base row; every later row carries the empty
    string under Handle, Title, Body, Vendor, Type, Tags, Published and the
    two SEO fields, and the literal "active" under Status; every row
    carries its own option values, price and SKU. *)
Theorem shared_fields_on_first_row (cfg : pod_variants_builder.Config)
  (r : Data.dict Data.cell) (t bd : Data.cell) :
  Data.get "Title" r = Some t ->
  Data.get "Body (HTML)" r = Some bd ->
  exists vs,
    pod_variants_builder.expand cfg r = inr vs
    /\ forall i color size,
         nth_error
           (pod_variants_builder.product (pod_variants_builder.COLORS cfg)
              (pod_variants_builder.SIZES cfg)) i = Some (color, size) ->
         exists v,
           nth_error vs i = Some v
           /\ Data.get "Option1 Value" v = Some (Data.CStr color)
           /\ Data.get "Option2 Value" v = Some (Data.CStr size)
           /\ Data.get "Variant SKU" v
              = Some (Data.CStr (pod_variants_builder.sku_of cfg color size))
           /\ Data.get "Variant Price" v
              = Some (match Data.get size (pod_variants_builder.PRICE_BY_SIZE cfg) with
                      | Some p => Data.CStr p
                      | None => Data.get_or "Variant Price" (Data.CStr "24.90") r
                      end)
           /\ (i = 0%nat ->
                 Data.get "Handle" v
                 = Some (Data.CStr (pod_variants_builder.slug t))
                 /\ Data.get "Title" v = Some (Data.CStr (Data.py_str t))
                 /\ Data.get "Body (HTML)" v = Some bd
                 /\ Data.get "Vendor" v
                    = Some (Data.get_or "Vendor" (Data.CStr "Aceru Studio") r)
                 /\ Data.get "Tags" v = Some (Data.get_or "Tags" (Data.CStr "") r)
                 /\ Data.get "Status" v
                    = Some (Data.get_or "Status" (Data.CStr "active") r)
                 /\ Data.get "SEO Title" v
                    = Some (Data.CStr (Py.slice_to 70 (Data.py_str t)))
                 /\ Data.get "SEO Description" v
                    = Some (Data.CStr
                              (Py.slice_to 140 ("High-quality " ++ Data.py_str t))))
           /\ (i <> 0%nat ->
                 Forall (fun k => Data.get k v = Some (Data.CStr ""))
                   ["Handle"; "Title"; "Body (HTML)"; "Vendor"; "Type"; "Tags";
                    "Published"; "SEO Title"; "SEO Description"]
                 /\ Data.get "Status" v = Some (Data.CStr "active")).
Proof.
  intros Ht Hb. unfold pod_variants_builder.expand.
  rewrite (read_base_ok r t bd Ht Hb).
  eexists. split; [reflexivity|].
  intros i color size Hi. rewrite variants_nth, Hi. cbn [option_map fst snd].
  eexists. split; [reflexivity|].
  do 4 (split; [reflexivity|]).
  destruct i as [|i]; cbn [andb Nat.eqb].
  - split; [intros _|intros H; congruence].
    repeat (split; [reflexivity|]). reflexivity.
  - split; [intros H; discriminate H|intros _].
    split; [repeat constructor|reflexivity].
Qed.

Lemma shared_fields_on_first_row_witness :
  exists vs,
    pod_variants_builder.expand pod_variants_builder.config
      [("Title", Data.CStr "Minimalist Desk Mat");
       ("Body (HTML)", Data.CStr "<p>Mat</p>")] = inr vs
    /\ exists v, nth_error vs 1 = Some v
                 /\ Data.get "Title" v = Some (Data.CStr "")
                 /\ Data.get "Variant SKU" v = Some (Data.CStr "TEE-BM").
Proof.
  destruct (shared_fields_on_first_row pod_variants_builder.config
              [("Title", Data.CStr "Minimalist Desk Mat");
               ("Body (HTML)", Data.CStr "<p>Mat</p>")]
              (Data.CStr "Minimalist Desk Mat") (Data.CStr "<p>Mat</p>")
              eq_refl eq_refl) as (vs & Hvs & Hrows).
  exists vs. split; [exact Hvs|].
  destruct (Hrows 1%nat "black" "M" eq_refl)
    as (v & Hv & _ & _ & Hsku & _ & _ & Hlater).
  exists v. split; [exact Hv|]. split; [|exact Hsku].
  destruct (Hlater (fun E => Nat.neq_succ_0 0 E)) as [Hall _].
  inversion Hall as [|? ? _ Hrest]. inversion Hrest as [|? ? Htitle _].
  exact Htitle.
Defined.

(** C5 (as stated) fails on Status: the second row emitted for the sample
    base row carries "active" there, not the empty string. *)
Lemma later_rows_keep_status :
  match pod_variants_builder.expand pod_variants_builder.config
          [("Title", Data.CStr "Minimalist Desk Mat");
           ("Body (HTML)", Data.CStr "<p>Mat</p>");
           ("Status", Data.CStr "draft")] with
  | inr (_ :: v :: _) =>
      Data.get "Status" v = Some (Data.CStr "active")
      /\ Data.get "Status" v <> Some (Data.CStr "")
  | _ => False
  end.
Proof. cbn. split; [reflexivity|discriminate]. Qed.

(** C7: a base row gives |colors| x |sizes| rows, one per (color, size),
    colors outermost and sizes innermost, the row of the i-th color and
    j-th size at position i * |sizes| + j; each SKU is the prefix, a hyphen,
    the first letter of the color in upper case and the size.  With colors
    black, white, sizes S, M and prefix TEE the SKUs are TEE-BS, TEE-BM,
    TEE-WS, TEE-WM in that order, and for the title "Minimalist Desk Mat"
    only the first row has a Title that is not empty. *)
Theorem expansion_is_color_major (cfg : pod_variants_builder.Config)
  (r : Data.dict Data.cell) (t bd : Data.cell) :
  Data.get "Title" r = Some t ->
  Data.get "Body (HTML)" r = Some bd ->
  exists vs,
    pod_variants_builder.expand cfg r = inr vs
    /\ List.length vs
       = (List.length (pod_variants_builder.COLORS cfg)
          * List.length (pod_variants_builder.SIZES cfg))%nat
    /\ map (fun v => (Data.get "Option1 Value" v, Data.get "Option2 Value" v,
                      Data.get "Variant SKU" v)) vs
       = flat_map
           (fun color =>
              map (fun size =>
                     (Some (Data.CStr color), Some (Data.CStr size),
                      Some (Data.CStr
                              (pod_variants_builder.SKU_PREFIX cfg ++ "-"
                               ++ Py.upper (Py.slice_to 1 color) ++ size))))
                (pod_variants_builder.SIZES cfg))
           (pod_variants_builder.COLORS cfg)
    /\ (forall i j color size,
          nth_error (pod_variants_builder.COLORS cfg) i = Some color ->
          nth_error (pod_variants_builder.SIZES cfg) j = Some size ->
          exists v,
            nth_error vs
              (i * List.length (pod_variants_builder.SIZES cfg) + j)%nat
            = Some v
            /\ Data.get "Option1 Value" v = Some (Data.CStr color)
            /\ Data.get "Option2 Value" v = Some (Data.CStr size)
            /\ Data.get "Variant SKU" v
               = Some (Data.CStr
                         (pod_variants_builder.SKU_PREFIX cfg ++ "-"
                          ++ Py.upper (Py.slice_to 1 color) ++ size)))
    /\ (pod_variants_builder.COLORS cfg = ["black"; "white"] ->
        pod_variants_builder.SIZES cfg = ["S"; "M"] ->
        pod_variants_builder.SKU_PREFIX cfg = "TEE" ->
        t = Data.CStr "Minimalist Desk Mat" ->
        map (Data.get "Variant SKU") vs
        = [Some (Data.CStr "TEE-BS"); Some (Data.CStr "TEE-BM");
           Some (Data.CStr "TEE-WS"); Some (Data.CStr "TEE-WM")]
        /\ map (Data.get "Title") vs
           = [Some (Data.CStr "Minimalist Desk Mat"); Some (Data.CStr "");
              Some (Data.CStr ""); Some (Data.CStr "")]).
Proof.
  intros Ht Hb. unfold pod_variants_builder.expand.
  rewrite (read_base_ok r t bd Ht Hb).
  eexists. split; [reflexivity|].
  split; [rewrite variants_length; apply product_length|].
  split; [rewrite variants_triples; apply map_product|].
  split.
  - intros i j color size Hi Hj.
    rewrite variants_nth, (product_nth _ _ i j color size Hi Hj).
    cbn [option_map fst snd]. eexists. split; [reflexivity|].
    repeat split.
  - intros Hc Hs Hp ->.
    rewrite variants_skus. unfold pod_variants_builder.sku_of.
    rewrite Hc, Hs, Hp. split; reflexivity.
Qed.

Lemma expansion_is_color_major_witness :
  exists vs,
    pod_variants_builder.expand
      {| pod_variants_builder.SIZES := ["S"; "M"];
         pod_variants_builder.COLORS := ["black"; "white"];
         pod_variants_builder.PRICE_BY_SIZE := [("S", "24.90"); ("M", "24.90")];
         pod_variants_builder.SKU_PREFIX := "TEE" |}
      [("Title", Data.CStr "Minimalist Desk Mat");
       ("Body (HTML)", Data.CStr "<p>Mat</p>")] = inr vs
    /\ List.length vs = 4%nat
    /\ map (Data.get "Variant SKU") vs
       = [Some (Data.CStr "TEE-BS"); Some (Data.CStr "TEE-BM");
          Some (Data.CStr "TEE-WS"); Some (Data.CStr "TEE-WM")]
    /\ map (Data.get "Title") vs
       = [Some (Data.CStr "Minimalist Desk Mat"); Some (Data.CStr "");
          Some (Data.CStr ""); Some (Data.CStr "")].
Proof.
  destruct (expansion_is_color_major
              {| pod_variants_builder.SIZES := ["S"; "M"];
                 pod_variants_builder.COLORS := ["black"; "white"];
                 pod_variants_builder.PRICE_BY_SIZE :=
                   [("S", "24.90"); ("M", "24.90")];
                 pod_variants_builder.SKU_PREFIX := "TEE" |}
              [("Title", Data.CStr "Minimalist Desk Mat");
               ("Body (HTML)", Data.CStr "<p>Mat</p>")]
              (Data.CStr "Minimalist Desk Mat") (Data.CStr "<p>Mat</p>")
              eq_refl eq_refl) as (vs & Hvs & Hlen & _ & _ & Hex).
  exists vs. split; [exact Hvs|]. split; [exact Hlen|].
  exact (Hex eq_refl eq_refl eq_refl eq_refl).
Defined.

(** C10: the SKUs emitted for a base row are a function of the prefix and
    of the (color, size) pairs alone, so two base rows get the same SKU
    sequence, and a batch with more than one base row repeats SKUs (the
    option lists being non-empty, as the configured ones are). *)
Theorem skus_ignore_base_row (cfg : pod_variants_builder.Config)
  (r1 r2 : Data.dict Data.cell) (vs1 vs2 : list (Data.dict Data.cell))
  (base out : list (Data.dict Data.cell)) :
  pod_variants_builder.expand cfg r1 = inr vs1 ->
  pod_variants_builder.expand cfg r2 = inr vs2 ->
  map (Data.get "Variant SKU") vs1
  = map (fun cs =>
           Some (Data.CStr
                   (pod_variants_builder.SKU_PREFIX cfg ++ "-"
                    ++ Py.upper (Py.slice_to 1 (fst cs)) ++ snd cs)))
      (pod_variants_builder.product (pod_variants_builder.COLORS cfg)
         (pod_variants_builder.SIZES cfg))
  /\ map (Data.get "Variant SKU") vs1 = map (Data.get "Variant SKU") vs2
  /\ (pod_variants_builder.COLORS cfg <> [] ->
      pod_variants_builder.SIZES cfg <> [] ->
      pod_variants_builder.main cfg (r1 :: r2 :: base) = inr out ->
      ~ NoDup (map (Data.get "Variant SKU") out)).
Proof.
  intros H1 H2.
  destruct (expand_inv cfg r1 vs1 H1) as [b1 ->].
  destruct (expand_inv cfg r2 vs2 H2) as [b2 ->].
  rewrite !variants_skus. split; [reflexivity|]. split; [reflexivity|].
  intros Hc Hs Hm.
  apply main_cons_inv in Hm as (ws1 & out1 & E1 & Hm & ->).
  apply main_cons_inv in Hm as (ws2 & out2 & E2 & _ & ->).
  destruct (expand_inv cfg r1 ws1 E1) as [c1 ->].
  destruct (expand_inv cfg r2 ws2 E2) as [c2 ->].
  rewrite !map_app, !variants_skus.
  destruct (pod_variants_builder.COLORS cfg) as [|c cs]; [congruence|].
  destruct (pod_variants_builder.SIZES cfg) as [|s ss]; [congruence|].
  cbn [pod_variants_builder.product flat_map map app].
  apply repeated_block_has_duplicate.
Qed.

Lemma skus_ignore_base_row_witness :
  exists out,
    pod_variants_builder.main pod_variants_builder.config
      [[("Title", Data.CStr "Minimalist Desk Mat");
        ("Body (HTML)", Data.CStr "<p>Mat</p>")];
       [("Title", Data.CStr "Canvas Tote");
        ("Body (HTML)", Data.CStr "<p>Tote</p>")]] = inr out
    /\ ~ NoDup (map (Data.get "Variant SKU") out).
Proof.
  eexists. split; [reflexivity|].
  refine (proj2 (proj2 (skus_ignore_base_row pod_variants_builder.config
            [("Title", Data.CStr "Minimalist Desk Mat");
             ("Body (HTML)", Data.CStr "<p>Mat</p>")]
            [("Title", Data.CStr "Canvas Tote");
             ("Body (HTML)", Data.CStr "<p>Tote</p>")]
            _ _ [] _ eq_refl eq_refl)) _ _ eq_refl);
    discriminate.
Defined.

(* ================================================================== *)
(** * The schema normalizer *)
(* ================================================================== *)

Section NormalizerFacts.
Import Py Data.
Import ecom_agents.

Lemma normalize_row_title (df : DataFrame) (r : dict cell) :
  at_col (normalize_row df r) "Title" = at_col r "Title".
Proof. reflexivity. Qed.

(** A normalized row is a fixed point, whatever frame it came from. *)
Lemma normalize_row_fixed (df : DataFrame) (rs : list (dict cell))
  (r : dict cell) :
  normalize_row {| columns := required; rows := rs |} (normalize_row df r)
  = normalize_row df r.
Proof. reflexivity. Qed.

Lemma build_shopify_csv_inv (df out : DataFrame) :
  build_shopify_csv df = inr out ->
  str_accessor_ok (map (fun r => at_col r "Title") (rows df)) = true
  /\ out = {| columns := required; rows := map (normalize_row df) (rows df) |}.
Proof.
  unfold build_shopify_csv.
  destruct (mem "Title" (columns df)); [|discriminate].
  destruct (mem "Body (HTML)" (columns df)); [|discriminate].
  destruct (str_accessor_ok (map (fun r => at_col r "Title") (rows df)));
    [|discriminate].
  cbn [negb]. intros H. injection H as <-. split; reflexivity.
Qed.

End NormalizerFacts.

(** C9: the Schema Normalizer is idempotent: the frame it produces is
    normalized to itself, handle and all; and it does produce a frame
    whenever the input has the Title and Body columns and a Title column
    that holds text (or no rows). *)
Theorem normalizer_idempotent (df : Data.DataFrame) :
  (forall out,
     ecom_agents.build_shopify_csv df = inr out ->
     ecom_agents.build_shopify_csv out = inr out)
  /\ (Data.mem "Title" (Data.columns df) = true ->
      Data.mem "Body (HTML)" (Data.columns df) = true ->
      ecom_agents.str_accessor_ok
        (map (fun r => Data.at_col r "Title") (Data.rows df)) = true ->
      exists out,
        ecom_agents.build_shopify_csv df = inr out
        /\ Data.columns out = ecom_agents.required
        /\ Data.rows out = map (ecom_agents.normalize_row df) (Data.rows df)
        /\ Forall
             (fun o =>
                Data.get "Handle" o
                = Some (Data.CStr (ecom_agents.slug (Data.at_col o "Title"))))
             (Data.rows out)).
Proof.
  split.
  - intros out H. apply build_shopify_csv_inv in H as [Hok ->].
    unfold ecom_agents.build_shopify_csv. cbn [Data.columns Data.rows].
    change (Data.mem "Title" ecom_agents.required) with true.
    change (Data.mem "Body (HTML)" ecom_agents.required) with true.
    cbn [negb]. rewrite map_map.
    rewrite (map_ext _ (fun r => Data.at_col r "Title")
               (normalize_row_title df)), Hok.
    cbn [negb]. rewrite map_map.
    rewrite (map_ext _ (ecom_agents.normalize_row df)
               (normalize_row_fixed df _)).
    reflexivity.
  - intros Ht Hb Hok. unfold ecom_agents.build_shopify_csv.
    rewrite Ht, Hb, Hok. cbn [negb]. eexists. split; [reflexivity|].
    cbn [Data.columns Data.rows]. repeat split.
    apply Forall_forall. intros o Ho. apply in_map_iff in Ho as (r & <- & _).
    reflexivity.
Qed.

Lemma normalizer_idempotent_witness :
  exists out,
    ecom_agents.build_shopify_csv
      {| Data.columns := ["Title"; "Body (HTML)"; "Tags"];
         Data.rows := [[("Title", Data.CStr "Minimalist Desk Mat (PU Leather)");
                        ("Body (HTML)", Data.CStr "<p>Mat</p>");
                        ("Tags", Data.CStr "desk-mat")]] |} = inr out
    /\ ecom_agents.build_shopify_csv out = inr out.
Proof.
  destruct (normalizer_idempotent
              {| Data.columns := ["Title"; "Body (HTML)"; "Tags"];
                 Data.rows :=
                   [[("Title", Data.CStr "Minimalist Desk Mat (PU Leather)");
                     ("Body (HTML)", Data.CStr "<p>Mat</p>");
                     ("Tags", Data.CStr "desk-mat")]] |}) as [Hidem Hrun].
  destruct (Hrun eq_refl eq_refl eq_refl) as (out & Hout & _).
  exists out. split; [exact Hout|exact (Hidem out Hout)].
Defined.

(* ================================================================== *)
(** * Dicts *)
(* ================================================================== *)

Section DictFacts.
Import Data.
Context {V : Type}.

Lemma mem_In (k : string) (l : list string) : mem k l = true <-> In k l.
Proof.
  unfold mem. rewrite existsb_exists. split.
  - intros (x & Hx & E). apply String.eqb_eq in E. subst. exact Hx.
  - intros H. exists k. split; [exact H|apply String.eqb_refl].
Qed.

Lemma mem_app (k : string) (l1 l2 : list string) :
  mem k (l1 ++ l2) = mem k l1 || mem k l2.
Proof. unfold mem. apply existsb_app. Qed.

Lemma mem_snoc_other (k c : string) (l : list string) :
  k <> c -> mem k (l ++ [c]) = mem k l.
Proof.
  intros H. rewrite mem_app. unfold mem at 2. cbn [existsb].
  apply String.eqb_neq in H. rewrite H, !orb_false_r. reflexivity.
Qed.

Lemma get_set_same (k : string) (v : V) (d : dict V) :
  get k (set k v d) = Some v.
Proof.
  induction d as [|[k' v'] d IH]; simpl.
  - rewrite String.eqb_refl. reflexivity.
  - destruct (String.eqb k' k) eqn:E; simpl; rewrite E; [reflexivity|exact IH].
Qed.

Lemma get_set_other (k k' : string) (v : V) (d : dict V) :
  k' <> k -> get k' (set k v d) = get k' d.
Proof.
  intros Hne. induction d as [|[k0 v0] d IH]; simpl.
  - destruct (String.eqb k k') eqn:E; [|reflexivity].
    apply String.eqb_eq in E. congruence.
  - destruct (String.eqb k0 k) eqn:E; simpl.
    + apply String.eqb_eq in E. subst k0.
      destruct (String.eqb k k') eqn:E'; [|reflexivity].
      apply String.eqb_eq in E'. congruence.
    + rewrite IH. reflexivity.
Qed.

Lemma keys_set (k : string) (v : V) (d : dict V) :
  In k (keys d) -> keys (set k v d) = keys d.
Proof.
  induction d as [|[k0 v0] d IH]; simpl; [contradiction|].
  intros H. destruct (String.eqb k0 k) eqn:E; [reflexivity|].
  simpl. f_equal. apply IH. destruct H as [H|H]; [|exact H].
  subst. rewrite String.eqb_refl in E. discriminate.
Qed.

Lemma get_missing (k : string) (d : dict V) :
  ~ In k (keys d) -> get k d = None.
Proof.
  induction d as [|[k0 v0] d IH]; simpl; [reflexivity|].
  intros H. destruct (String.eqb k0 k) eqn:E.
  - apply String.eqb_eq in E. tauto.
  - apply IH. tauto.
Qed.


(** Reading every key of a dict, in order, gives the dict back. *)
Lemma rebuild (default : V) (d : dict V) :
  NoDup (keys d) -> map (fun c => (c, get_or c default d)) (keys d) = d.
Proof.
  induction d as [|[k v] d IH]; [reflexivity|].
  intros H. inversion H as [|? ? Hk Hd]; subst.
  cbn [keys map fst]. f_equal.
  - unfold get_or. simpl. rewrite String.eqb_refl. reflexivity.
  - rewrite <- (IH Hd) at 2. apply map_ext_in. intros c Hc.
    unfold get_or. simpl. destruct (String.eqb k c) eqn:E; [|reflexivity].
    apply String.eqb_eq in E. subst. contradiction.
Qed.

End DictFacts.

(* ================================================================== *)
(** * The merge stage *)
(* ================================================================== *)

Section MergeFacts.
Import Py Data.
Import merge_images_into_products.

(** The image columns a product frame lacks, in the order they are added. *)
Lemma out_cols_of_spec (cols : list string) :
  out_cols_of cols
  = (cols ++ filter (fun c => negb (mem c cols))
               ["Image Src"; "Image Alt Text"; "Image Position"])%list.
Proof.
  unfold out_cols_of. cbn [fold_left filter].
  destruct (mem "Image Src" cols) eqn:E1;
    destruct (mem "Image Alt Text" cols) eqn:E2;
    destruct (mem "Image Position" cols) eqn:E3;
    cbn [negb];
    repeat (first [ rewrite mem_snoc_other by discriminate
                  | rewrite E1 | rewrite E2 | rewrite E3 ]; cbv iota);
    rewrite <- ?app_assoc, ?app_nil_r; reflexivity.
Qed.

Lemma out_cols_NoDup (cols : list string) :
  NoDup cols -> NoDup (out_cols_of cols).
Proof.
  intros H. rewrite out_cols_of_spec. apply NoDup_app.
  - exact H.
  - apply NoDup_filter. repeat constructor; simpl; intuition discriminate.
  - intros c Hc Hin. apply filter_In in Hin as [_ Hn].
    apply mem_In in Hc. rewrite Hc in Hn. discriminate.
Qed.

Lemma out_cols_incl (cols : list string) (c : string) :
  In c cols -> In c (out_cols_of cols).
Proof. intros H. rewrite out_cols_of_spec. apply in_or_app. left. exact H. Qed.

Lemma out_cols_image (cols : list string) (c : string) :
  In c ["Image Src"; "Image Alt Text"; "Image Position"] ->
  In c (out_cols_of cols).
Proof.
  intros H. rewrite out_cols_of_spec. apply in_or_app.
  destruct (mem c cols) eqn:E.
  - left. apply mem_In. exact E.
  - right. apply filter_In. split; [exact H|]. rewrite E. reflexivity.
Qed.

Lemma keys_product_row (oc : list string) (r : dict cell) :
  keys (product_row oc r) = oc.
Proof.
  unfold keys, product_row. rewrite map_map. cbn [fst]. apply map_id.
Qed.

(** A product row keeps its cells, in order, and gets an empty cell under
    each image column it lacked. *)
Lemma product_row_extends (cols : list string) (r : dict cell) :
  NoDup cols -> keys r = cols ->
  product_row (out_cols_of cols) r
  = (r ++ blank_template
            (filter (fun c => negb (mem c cols))
               ["Image Src"; "Image Alt Text"; "Image Position"]))%list.
Proof.
  intros Hnd Hk. rewrite out_cols_of_spec.
  unfold product_row. rewrite map_app. f_equal.
  - rewrite <- Hk in *. apply (rebuild (CStr "") r Hnd).
  - unfold blank_template. apply map_ext_in. intros c Hc.
    apply filter_In in Hc as [_ Hn].
    rewrite get_missing; [reflexivity|].
    rewrite Hk. intros Hin. apply mem_In in Hin. rewrite Hin in Hn.
    discriminate.
Qed.

Lemma keys_blank_template (oc : list string) : keys (blank_template oc) = oc.
Proof.
  unfold keys, blank_template. rewrite map_map. cbn [fst]. apply map_id.
Qed.


Lemma keys_image_row (oc : list string) (r : dict cell) :
  Forall (fun c => In c oc) IMAGE_COLS -> keys (image_row oc r) = oc.
Proof.
  intros H. unfold IMAGE_COLS in H.
  inversion H as [|? ? H1 Ha]; subst. inversion Ha as [|? ? H2 Hb]; subst.
  inversion Hb as [|? ? H3 Hc]; subst. inversion Hc as [|? ? H4 _]; subst.
  unfold image_row.
  assert (K1 : keys (set "Handle" (at_col r "Handle") (blank_template oc)) = oc).
  { rewrite keys_set; rewrite keys_blank_template; auto. }
  assert (K2 : keys (set "Image Src" (get_or "Image Src" (CStr "") r)
                       (set "Handle" (at_col r "Handle") (blank_template oc)))
               = oc).
  { rewrite keys_set; rewrite K1; auto. }
  assert (K3 : keys (set "Image Alt Text" (get_or "Image Alt Text" (CStr "") r)
                       (set "Image Src" (get_or "Image Src" (CStr "") r)
                          (set "Handle" (at_col r "Handle")
                             (blank_template oc)))) = oc).
  { rewrite keys_set; rewrite K2; auto. }
  rewrite keys_set; rewrite K3; auto.
Qed.


Lemma ensure_cols_ok (df : DataFrame) (cols : list string) (name : string) :
  Forall (fun c => mem c (columns df) = true) cols ->
  ensure_cols df cols name = inr tt.
Proof.
  intros H. unfold ensure_cols.
  replace (filter (fun c => negb (mem c (columns df))) cols) with (@nil string);
    [reflexivity|].
  induction H as [|c cols Hc _ IH]; [reflexivity|].
  simpl. rewrite Hc. exact IH.
Qed.



End MergeFacts.

Section TypingFacts.
Import Py Data Props.
Variable float_text : Z -> string.


Lemma retyped_refl (x : cell) : retyped float_text x x.
Proof. left. reflexivity. Qed.


(** Only an int is ever changed. *)
Lemma retyped_keeps (x y : cell) :
  retyped float_text x y -> (forall n, x <> CInt n) -> y = x.
Proof.
  intros [-> | ->] H; [reflexivity|].
  destruct x; try reflexivity. exfalso. apply (H n). reflexivity.
Qed.


Lemma keys_tabulate {V} (f : string -> V) (l : list string) :
  keys (map (fun c => (c, f c)) l) = l.
Proof. unfold keys. rewrite map_map. cbn [fst]. apply map_id. Qed.

Lemma get_seen_row (b : bool) (r : dict cell) (c : string) :
  get c (seen_row float_text b r)
  = match get c r with
    | Some v => Some (if b then upcast float_text v else v)
    | None => None
    end.
Proof.
  unfold seen_row. destruct b; [|destruct (get c r); reflexivity].
  induction r as [|[k v] r IH]; [reflexivity|].
  cbn [map get fst snd]. destruct (String.eqb k c); [reflexivity|exact IH].
Qed.


Lemma at_col_seen_row (b : bool) (r : dict cell) (c : string) :
  retyped float_text (at_col r c) (at_col (seen_row float_text b r) c).
Proof.
  unfold at_col, get_or. rewrite get_seen_row.
  destruct (get c r) as [v|]; [|left; reflexivity].
  destruct b; [right|left]; reflexivity.
Qed.

(** [iterrows] reads every row in the same way. *)
Lemma iterrows_map (df : DataFrame) :
  iterrows float_text df
  = map (seen_row float_text (float64 (cells (rows df)))) (rows df).
Proof.
  unfold iterrows, seen_row.
  destruct (float64 (cells (rows df))); [reflexivity|].
  symmetry. apply map_id.
Qed.

(** The rows of a frame built from records. *)
Lemma from_records_rows (cols : list string) (records : list (dict cell)) :
  rows (from_records float_text cols records)
  = map (typed_row float_text cols records) records.
Proof. reflexivity. Qed.

Lemma keys_typed_row (cols : list string) (records : list (dict cell))
  (r : dict cell) :
  keys (typed_row float_text cols records r) = cols.
Proof. unfold typed_row. apply keys_tabulate. Qed.




End TypingFacts.

Section MergeRows.
Import Py Data Props.
Import merge_images_into_products.

Variable float_text : Z -> string.
Variables (prod imgs : DataFrame) (filemap : dict string).
Hypothesis prod_wf : wf_frame prod.
Hypothesis imgs_wf : wf_frame imgs.
Hypothesis prod_cols :
  Forall (fun c => mem c (columns prod) = true) REQUIRED_PRODUCT_COLS.
Hypothesis imgs_cols :
  Forall (fun c => mem c (columns imgs) = true) IMAGE_COLS.

Let oc : list string := out_cols_of (columns prod).
Let records : list (dict cell) := merged_rows float_text prod imgs filemap.
Let missing : list string :=
  filter (fun c => negb (mem c (columns prod)))
    ["Image Src"; "Image Alt Text"; "Image Position"].






End MergeRows.

(** C8 fails on the code: the frame written is built anew from the merged
    rows, and pandas infers the type of every column again, so a product
    row is not always left as it was.  With a product file whose Image
    Position holds the whole number 1 and an image record without a
    position, the column holds an int and a missing value and becomes a
    float column: the product row is written with the float of 1.  In the
    same way, with a product file whose Image Position is empty (as the
    Schema Normalizer writes it) the positions 1 and 2 of the image records
    are written as floats. *)
Theorem merge_retypes_whole_numbers (float_text : Z -> string) :
  let product (position : Data.cell) :=
    [("Handle", Data.CStr "desk-mat"); ("Title", Data.CStr "Desk Mat");
     ("Body (HTML)", Data.CStr "<p>Mat</p>");
     ("Vendor", Data.CStr "Aceru Studio"); ("Status", Data.CStr "active");
     ("Image Position", position)] in
  let image (position : Data.cell) :=
    [("Handle", Data.CStr "desk-mat");
     ("Image Src", Data.CStr "desk-mat-1.png");
     ("Image Alt Text", Data.CStr "Desk Mat");
     ("Image Position", position)] in
  let prod_cols :=
    ["Handle"; "Title"; "Body (HTML)"; "Vendor"; "Status"; "Image Position"] in
  (exists o1 o2,
     merge_images_into_products.main float_text
       {| Data.columns := prod_cols; Data.rows := [product (Data.CInt 1)] |}
       {| Data.columns := merge_images_into_products.IMAGE_COLS;
          Data.rows := [image Data.NaN] |} []
     = inr {| Data.columns :=
                (prod_cols ++ ["Image Src"; "Image Alt Text"])%list;
              Data.rows := [o1; o2] |}
     /\ Data.get "Image Position" o1 = Some (Data.CNum (float_text 1%Z))
     /\ Data.get "Image Position" o1
        <> Data.get "Image Position" (product (Data.CInt 1)))
  /\ (exists o1 o2 o3,
        merge_images_into_products.main float_text
          {| Data.columns := prod_cols; Data.rows := [product Data.NaN] |}
          {| Data.columns := merge_images_into_products.IMAGE_COLS;
             Data.rows := [image (Data.CInt 1); image (Data.CInt 2)] |} []
        = inr {| Data.columns :=
                   (prod_cols ++ ["Image Src"; "Image Alt Text"])%list;
                 Data.rows := [o1; o2; o3] |}
        /\ Data.get "Image Position" o2 = Some (Data.CNum (float_text 1%Z))
        /\ Data.get "Image Position" o3 = Some (Data.CNum (float_text 2%Z))).
Proof.
  cbv zeta. split.
  - eexists. eexists. split; [reflexivity|].
    split; [reflexivity|discriminate].
  - eexists. eexists. eexists. split; [reflexivity|]. split; reflexivity.
Qed.



(* ================================================================== *)
(** * Further properties: the gateway and the enrichment batch *)
(* ================================================================== *)

Section EnrichMore.
Import Py Data Budget Runs Props.
Import ecom_agents.

Lemma slice_to_length (n : nat) (s : string) :
  (String.length (slice_to n s) <= n)%nat.
Proof.
  revert s. induction n as [|n IH]; intros s; [destruct s; simpl; lia|].
  destruct s as [|c s]; simpl; [lia|]. specialize (IH s). lia.
Qed.

Lemma copy_loop_state (vendor : string) (gateway : nat -> reply)
  (rs : list (dict cell)) :
  forall (i : nat) (g : BudgetGuard),
  snd (copy_loop vendor gateway i rs g)
  = final (repeat 1%Z (List.length rs)) g.
Proof.
  induction rs as [|r rs IH]; intros i g; [reflexivity|].
  destruct (enrich_returns vendor (gateway i) r g) as [o Ho].
  cbn [copy_loop]. unfold bind at 1. rewrite Ho.
  specialize (IH (S i) (snd (check_and_book 1 g))).
  unfold bind at 1.
  destruct (copy_loop vendor gateway (S i) rs (snd (check_and_book 1 g)))
    as [[e|os] g'']; cbn [snd] in *; rewrite IH; reflexivity.
Qed.

(** What the [try] returns on an answer that is a JSON object. *)
Lemma try_body_on_object (kv : list (string * pyval)) (title base_tags : string)
  (g : BudgetGuard) :
  failed (fst (check_and_book 1 g)) = false ->
  try_body (Returns (PDict kv)) title base_tags g
  = (match slice70 (get_or "title_seo" (PStr title) kv) with
     | inl e => inl e
     | inr out_title =>
         match tag_string (get_or "tags" (PList []) kv) base_tags with
         | inl e => inl e
         | inr tag_str =>
             inr (out_title, get_or "body_html" (PStr "") kv, tag_str)
         end
     end,
     snd (check_and_book 1 g)).
Proof.
  intros Hok. unfold try_body, llm_json, bind.
  destruct (check_and_book 1 g) as [[e|[]] g']; [discriminate Hok|].
  cbn [snd]. unfold ret at 1. cbn [data_get].
  rewrite lift_run. cbv beta iota. rewrite lift_run.
  destruct (slice70 (get_or "title_seo" (PStr title) kv)); [reflexivity|].
  rewrite lift_run. cbv beta iota. rewrite lift_run. cbv beta iota.
  rewrite lift_run.
  destruct (tag_string (get_or "tags" (PList []) kv) base_tags); reflexivity.
Qed.

Lemma copy_row_title (vendor : string) (out_title body_html : pyval)
  (tag_str sku price : string) :
  get "Title" (copy_row vendor out_title body_html tag_str sku price)
  = Some out_title.
Proof. reflexivity. Qed.

Lemma enrich_title (vendor : string) (answer : reply) (r : dict cell)
  (g : BudgetGuard) :
  forall o g', enrich vendor answer r g = (inr o, g') -> title_within_70 o.
Proof.
  intros o g'. unfold enrich, try_except, bind.
  destruct (try_body_state answer (field r "title") (field r "tags") g)
    as [x Hx].
  rewrite Hx. destruct x as [e|[[out_title body_html] tag_str]].
  - unfold ret, except_body.
    pose proof (slice_to_length 70 (field r "title")) as Hlen.
    set (t70 := slice_to 70 (field r "title")) in *.
    intros H. injection H as <- _.
    unfold title_within_70. rewrite copy_row_title. exact Hlen.
  - unfold ret. intros H. injection H as <- _.
    unfold title_within_70. rewrite copy_row_title.
    revert Hx. unfold try_body, bind.
    destruct (llm_json answer g) as [[e|d] g1]; [discriminate|].
    rewrite lift_run.
    destruct (data_get d "title_seo" (PStr (field r "title"))) as [e|t];
      [discriminate|].
    rewrite lift_run. destruct (slice70 t) as [e|t70] eqn:Et; [discriminate|].
    rewrite lift_run.
    destruct (data_get d "body_html" (PStr "")) as [e|b]; [discriminate|].
    rewrite lift_run.
    destruct (data_get d "tags" (PList [])) as [e|tg]; [discriminate|].
    rewrite lift_run.
    destruct (tag_string tg (field r "tags")) as [e|s]; [discriminate|].
    unfold ret. intros H. injection H as <- _ _.
    destruct t as [| | |ts|l|]; try discriminate Et.
    + pose proof (slice_to_length 70 ts) as Hlen.
      cbn [slice70] in Et. set (cut := slice_to 70 ts) in *.
      injection Et as <-. exact Hlen.
    + assert (Hlen : (List.length (firstn 70 l) <= 70)%nat)
        by (rewrite length_firstn; lia).
      cbn [slice70] in Et. set (cut := firstn 70 l) in *.
      injection Et as <-. exact Hlen.
Qed.

Lemma copy_loop_titles (vendor : string) (gateway : nat -> reply)
  (rs : list (dict cell)) :
  forall (i : nat) (g : BudgetGuard) out g',
  copy_loop vendor gateway i rs g = (inr out, g') ->
  Forall title_within_70 out.
Proof.
  induction rs as [|r rs IH]; intros i g out g'.
  - intros H. injection H as <- _. constructor.
  - cbn [copy_loop]. unfold bind at 1.
    destruct (enrich vendor (gateway i) r g) as [[e|o] g1] eqn:Eo;
      [discriminate|].
    unfold bind at 1.
    destruct (copy_loop vendor gateway (S i) rs g1) as [[e|os] g2] eqn:El;
      [discriminate|].
    unfold ret. intros H. injection H as <- _.
    constructor.
    + apply (enrich_title vendor (gateway i) r g o g1 Eo).
    + apply (IH (S i) g1 os g2 El).
Qed.

Lemma guards_refused_tail (vendor : string) (gateway : nat -> reply)
  (rs : list (dict cell)) :
  forall (i k : nat) (g gk : BudgetGuard),
  nth_error (guards vendor gateway i rs g) k = Some gk ->
  failed (fst (check_and_book 1 gk)) = true ->
  exists out,
    copy_loop vendor gateway i rs g = (inr out, gk)
    /\ forall j r, (k <= j)%nat -> nth_error rs j = Some r ->
                   nth_error out j = Some (fallback_row vendor r).
Proof.
  induction rs as [|r0 rs IH]; intros i k g gk Hk Hr.
  - destruct k; discriminate.
  - destruct k as [|k].
    + cbn in Hk. injection Hk as ->.
      exists (map (fallback_row vendor) (r0 :: rs)).
      split; [apply (copy_loop_refused vendor gateway (r0 :: rs) gk Hr)|].
      intros j r _ Hj. rewrite nth_error_map, Hj. reflexivity.
    + cbn [guards nth_error] in Hk.
      destruct (enrich_returns vendor (gateway i) r0 g) as [o Ho].
      rewrite Ho in Hk. cbn [snd] in Hk.
      destruct (IH (S i) k _ gk Hk Hr) as (out & Hout & Hrows).
      exists (o :: out). split.
      * cbn [copy_loop]. unfold bind at 1. rewrite Ho.
        unfold bind at 1. rewrite Hout. reflexivity.
      * intros j r Hle Hj. destruct j as [|j]; [lia|].
        cbn [nth_error] in *. apply Hrows; [lia|exact Hj].
Qed.

End EnrichMore.

(** X1: the gateway books before it calls: whatever the provider then
    does, the guard after [llm_json] is the guard after the reservation
    (in both scripts that have a gateway); a refused reservation ends the
    call before the provider is asked; an accepted one adds one estimate
    to [spent] and nothing gives it back when the call fails. *)
Theorem gateway_books_before_call (answer : Data.reply)
  (g : Budget.BudgetGuard) :
  let projected := (Budget.spent g + Budget.est g * 1)%float in
  snd (ecom_agents.llm_json answer g) = snd (ecom_agents.check_and_book 1 g)
  /\ snd (seed_from_kit.llm_json answer g)
     = snd (ecom_agents.check_and_book 1 g)
  /\ ((Budget.total g <? projected)%float = true ->
      ecom_agents.llm_json answer g
      = (inl (Data.BudgetCapHit (Budget.spent g) (Budget.est g * 1)%float
                (Budget.total g)), g)
      /\ seed_from_kit.llm_json answer g
         = (inl (Data.RuntimeError
                   (Data.CapHitBook (Budget.spent g) (Budget.total g))), g))
  /\ ((Budget.total g <? projected)%float = false ->
      ecom_agents.llm_json Data.Fails g
      = (inl Data.ProviderError, Budget.with_spent g projected)
      /\ seed_from_kit.llm_json Data.Fails g
         = (inl Data.ProviderError, Budget.with_spent g projected)
      /\ forall data,
           ecom_agents.llm_json (Data.Returns data) g
           = (inr data, Budget.with_spent g projected)
           /\ seed_from_kit.llm_json (Data.Returns data) g
              = (inr data, Budget.with_spent g projected)).
Proof.
  cbv zeta. split; [apply llm_json_state|]. split; [apply seed_llm_json_state|].
  split; intros H.
  - unfold ecom_agents.llm_json, seed_from_kit.llm_json, Budget.bind.
    rewrite (book_rejects 1 1%float g float_of_int_one H),
      (seed_book_rejects 1 1%float g float_of_int_one H).
    split; reflexivity.
  - unfold ecom_agents.llm_json, seed_from_kit.llm_json, Budget.bind.
    rewrite (book_accepts 1 1%float g float_of_int_one H),
      (seed_book_accepts 1 1%float g float_of_int_one H).
    split; [reflexivity|]. split; [reflexivity|].
    intros data. split; reflexivity.
Qed.

(** The sixth call under a cap of 0.06 with the estimate 0.01: five
    reservations have brought [spent] to 0.05, and the sum 0.05 + 0.01 is,
    in binary64, above 0.06: the call is refused and the provider is not
    asked. *)
Lemma gateway_books_before_call_witness :
  let g5 := Runs.final [1; 1; 1; 1; 1]%Z
              (Budget.init 0.06%float ecom_agents.EST_COST_PER_CALL) in
  Budget.spent g5 = 0.05%float
  /\ ecom_agents.llm_json (Data.Returns Data.PNone) g5
     = (inl (Data.BudgetCapHit 0.05%float 0.01%float 0.06%float), g5)
  /\ ecom_agents.llm_json Data.Fails
       (Budget.init 10%float ecom_agents.EST_COST_PER_CALL)
     = (inl Data.ProviderError,
        Budget.with_spent (Budget.init 10%float ecom_agents.EST_COST_PER_CALL)
          0.01%float).
Proof.
  intros g5. split; [reflexivity|]. split.
  - apply (proj1 (proj1 (proj2 (proj2 (gateway_books_before_call
                                         (Data.Returns Data.PNone) g5)))
                    eq_refl)).
  - apply (proj1 (proj2 (proj2 (proj2 (gateway_books_before_call Data.Fails
             (Budget.init 10%float ecom_agents.EST_COST_PER_CALL))))
             eq_refl)).
Defined.

(** X2: a batch of N rows moves the guard exactly as N single
    reservations attempted in a row do, whatever the provider answers: a
    guard that does not start above the cap does not end above it, and
    with a non-negative finite estimate and a non-negative [spent] to begin
    with, [spent] does not decrease. *)
Theorem batch_spend_within_cap (vendor : string) (gateway : nat -> Data.reply)
  (rows : list (Data.dict Data.cell)) (g : Budget.BudgetGuard) :
  let g' := snd (ecom_agents.generate_product_copy vendor gateway rows g) in
  g' = Runs.final (repeat 1%Z (List.length rows)) g
  /\ ((Budget.total g <? Budget.spent g)%float = false ->
      (Budget.total g <? Budget.spent g')%float = false)
  /\ ((0 <=? Budget.spent g)%float = true ->
      (0 <=? Budget.est g)%float = true ->
      (Budget.est g <? infinity)%float = true ->
      (Budget.spent g <=? Budget.spent g')%float = true).
Proof.
  cbv zeta. unfold ecom_agents.generate_product_copy.
  rewrite copy_loop_state. split; [reflexivity|]. split.
  - apply final_capped.
  - intros Hs He Hfin. apply final_monotone; try assumption.
    clear. induction (List.length rows); simpl; constructor; [lia|assumption].
Qed.

(** Seven rows under a cap of 0.06: five calls are booked, the guard ends
    at 0.05 and not above the cap. *)
Lemma batch_spend_within_cap_witness :
  let rows := repeat [("title", Data.CStr "Desk Mat")] 7 in
  let g := Budget.init 0.06%float ecom_agents.EST_COST_PER_CALL in
  let g' := snd (ecom_agents.generate_product_copy "Aceru Studio"
                   (fun _ => Data.Fails) rows g) in
  Budget.spent g' = 0.05%float
  /\ (0.06 <? Budget.spent g')%float = false
  /\ (0 <=? Budget.spent g')%float = true.
Proof.
  intros rows g g'.
  destruct (batch_spend_within_cap "Aceru Studio" (fun _ => Data.Fails)
              rows g) as (Hg & Hcap & Hmono).
  split; [|split].
  - unfold g'. rewrite Hg. reflexivity.
  - apply Hcap. reflexivity.
  - exact (Hmono eq_refl eq_refl eq_refl).
Defined.

(** X3: in a batch, once the guard refuses the reservation of a row, that
    row and every later row is the fallback row, and the guard at the end
    of the batch is the guard that refused. *)
Theorem refused_row_ends_enrichment (vendor : string)
  (gateway : nat -> Data.reply) (rows : list (Data.dict Data.cell))
  (g gk : Budget.BudgetGuard) (k : nat) :
  nth_error (Runs.guards vendor gateway 0 rows g) k = Some gk ->
  Budget.failed (fst (ecom_agents.check_and_book 1 gk)) = true ->
  exists out,
    ecom_agents.generate_product_copy vendor gateway rows g = (inr out, gk)
    /\ forall j r,
         (k <= j)%nat -> nth_error rows j = Some r ->
         nth_error out j = Some (ecom_agents.fallback_row vendor r).
Proof.
  intros Hk Hr. apply (guards_refused_tail vendor gateway rows 0 k g gk Hk Hr).
Qed.

Lemma refused_row_ends_enrichment_witness :
  exists out,
    fst (ecom_agents.generate_product_copy "Aceru Studio"
           (fun _ => Data.Returns (Data.PDict []))
           [[("title", Data.CStr "Desk Mat")]; [("title", Data.CStr "Tote")]]
           (Budget.init 0.015%float ecom_agents.EST_COST_PER_CALL))
    = inr out
    /\ nth_error out 1
       = Some (ecom_agents.fallback_row "Aceru Studio"
                 [("title", Data.CStr "Tote")]).
Proof.
  destruct (refused_row_ends_enrichment "Aceru Studio"
              (fun _ => Data.Returns (Data.PDict []))
              [[("title", Data.CStr "Desk Mat")]; [("title", Data.CStr "Tote")]]
              (Budget.init 0.015%float ecom_agents.EST_COST_PER_CALL)
              (Budget.with_spent
                 (Budget.init 0.015%float ecom_agents.EST_COST_PER_CALL)
                 0.01%float)
              1 eq_refl eq_refl) as (out & Hout & Hrows).
  exists out. rewrite Hout. split; [reflexivity|].
  apply (Hrows 1%nat); [apply le_n|reflexivity].
Defined.

Section AnswerFacts.
Import Py Data Budget Props.
Import ecom_agents.

Lemma str_or_empty (s : string) : str_or s "" = s.
Proof. destruct s; reflexivity. Qed.

(** A turn of the loop on an answer that is a JSON object whose title
    can be sliced and whose tags can be joined. *)
Lemma enrich_on_object (vendor : string) (kv : list (string * pyval))
  (r : dict cell) (g : BudgetGuard) (out_title : pyval) (tag_str : string) :
  failed (fst (check_and_book 1 g)) = false ->
  slice70 (get_or "title_seo" (PStr (field r "title")) kv) = inr out_title ->
  tag_string (get_or "tags" (PList []) kv) (field r "tags") = inr tag_str ->
  enrich vendor (Returns (PDict kv)) r g
  = (inr (copy_row vendor out_title (get_or "body_html" (PStr "") kv) tag_str
            (field r "sku") (py_str (get_or "price" (CStr DEFAULT_PRICE) r))),
     snd (check_and_book 1 g)).
Proof.
  intros Hok Ht Hg. unfold enrich, try_except, bind.
  rewrite (try_body_on_object kv _ _ g Hok), Ht, Hg. reflexivity.
Qed.

End AnswerFacts.

(** X4: when the reservation is accepted and the provider answers with an
    object whose "title_seo" is a string and whose "tags" is a list of
    strings, the row takes the answer: the title cut to 70 characters, the
    body as given (empty when absent) and the tags joined by ", "; SKU,
    price and vendor stay those of the input row. *)
Theorem answer_is_adopted (vendor t : string) (kv : list (string * Data.pyval))
  (tags : list Data.pyval) (ss : list string) (r : Data.dict Data.cell)
  (g : Budget.BudgetGuard) :
  Budget.failed (fst (ecom_agents.check_and_book 1 g)) = false ->
  Data.get "title_seo" kv = Some (Data.PStr t) ->
  Data.get "tags" kv = Some (Data.PList tags) ->
  ecom_agents.all_strings tags = Some ss ->
  exists o,
    ecom_agents.enrich vendor (Data.Returns (Data.PDict kv)) r g
    = (inr o, snd (ecom_agents.check_and_book 1 g))
    /\ Data.get "Title" o = Some (Data.PStr (Py.slice_to 70 t))
    /\ Data.get "Body (HTML)" o
       = Some (Data.get_or "body_html" (Data.PStr "") kv)
    /\ Data.get "Tags" o = Some (Data.PStr (Py.join ", " ss))
    /\ Data.get "Vendor" o = Some (Data.PStr vendor)
    /\ Data.get "Variant SKU" o = Some (Data.PStr (ecom_agents.field r "sku"))
    /\ Data.get "Variant Price" o
       = Some (Data.PStr
                 (Data.py_str
                    (Data.get_or "price" (Data.CStr ecom_agents.DEFAULT_PRICE) r))).
Proof.
  intros Hok Ht Hg Hs. eexists. split.
  - apply (enrich_on_object vendor kv r g (Data.PStr (Py.slice_to 70 t))
             (Py.join ", " ss) Hok).
    + unfold Data.get_or. rewrite Ht. reflexivity.
    + unfold Data.get_or. rewrite Hg. cbn [ecom_agents.tag_string].
      rewrite Hs. reflexivity.
  - repeat split. cbn. rewrite str_or_empty. reflexivity.
Qed.

Lemma answer_is_adopted_witness :
  exists o,
    fst (ecom_agents.enrich "Aceru Studio"
           (Data.Returns
              (Data.PDict [("title_seo", Data.PStr "Desk Mat, PU Leather");
                           ("body_html", Data.PStr "<h3>Highlights</h3>");
                           ("tags", Data.PList [Data.PStr "desk-mat";
                                                Data.PStr "office"])]))
           [("title", Data.CStr "Desk Mat"); ("sku", Data.CStr "MAT-001")]
           (Budget.init 10%float ecom_agents.EST_COST_PER_CALL)) = inr o
    /\ Data.get "Tags" o = Some (Data.PStr "desk-mat, office").
Proof.
  destruct (answer_is_adopted "Aceru Studio" "Desk Mat, PU Leather"
              [("title_seo", Data.PStr "Desk Mat, PU Leather");
               ("body_html", Data.PStr "<h3>Highlights</h3>");
               ("tags", Data.PList [Data.PStr "desk-mat"; Data.PStr "office"])]
              [Data.PStr "desk-mat"; Data.PStr "office"]
              ["desk-mat"; "office"]
              [("title", Data.CStr "Desk Mat"); ("sku", Data.CStr "MAT-001")]
              (Budget.init 10%float ecom_agents.EST_COST_PER_CALL)
              eq_refl eq_refl eq_refl eq_refl)
    as (o & Ho & _ & _ & Htags & _).
  exists o. rewrite Ho. split; [reflexivity|exact Htags].
Defined.

(** X5: in every row a batch writes, the Title is cut to 70: a string of
    at most 70 characters (or, when the provider sent a list as title, a
    list of at most 70 items). *)
Theorem enriched_titles_within_70 (vendor : string)
  (gateway : nat -> Data.reply) (rows : list (Data.dict Data.cell))
  (g : Budget.BudgetGuard) :
  exists out g',
    ecom_agents.generate_product_copy vendor gateway rows g = (inr out, g')
    /\ Forall Props.title_within_70 out.
Proof.
  destruct (copy_loop_spec vendor gateway rows 0 g) as (out & g' & Hrun & _).
  exists out, g'. split; [exact Hrun|].
  apply (copy_loop_titles vendor gateway rows 0 g out g' Hrun).
Qed.

(** X6: the keys an object answer lacks are defaulted, and not to the
    fallback: without "title_seo" the title is the row's own, cut to 70;
    without "body_html" the body is the empty string; without "tags" the
    tags are the empty string, not the row's tags.  Tags that are present
    but no list give the row's own tags. *)
Theorem answer_defaults (vendor : string) (kv : list (string * Data.pyval))
  (r : Data.dict Data.cell) (g : Budget.BudgetGuard) :
  Budget.failed (fst (ecom_agents.check_and_book 1 g)) = false ->
  Data.get "title_seo" kv = None ->
  Data.get "body_html" kv = None ->
  (Data.get "tags" kv = None ->
   exists o,
     ecom_agents.enrich vendor (Data.Returns (Data.PDict kv)) r g
     = (inr o, snd (ecom_agents.check_and_book 1 g))
     /\ Data.get "Title" o
        = Some (Data.PStr (Py.slice_to 70 (ecom_agents.field r "title")))
     /\ Data.get "Body (HTML)" o = Some (Data.PStr "")
     /\ Data.get "Tags" o = Some (Data.PStr ""))
  /\ (forall v,
        Data.get "tags" kv = Some v ->
        match v with Data.PList _ => False | _ => True end ->
        exists o,
          ecom_agents.enrich vendor (Data.Returns (Data.PDict kv)) r g
          = (inr o, snd (ecom_agents.check_and_book 1 g))
          /\ Data.get "Tags" o = Some (Data.PStr (ecom_agents.field r "tags"))).
Proof.
  intros Hok Ht Hb. split.
  - intros Hg. eexists. split.
    + apply (enrich_on_object vendor kv r g
               (Data.PStr (Py.slice_to 70 (ecom_agents.field r "title"))) ""
               Hok).
      * unfold Data.get_or. rewrite Ht. reflexivity.
      * unfold Data.get_or. rewrite Hg. reflexivity.
    + unfold Data.get_or. rewrite Hb. repeat split.
  - intros v Hg Hv. eexists. split.
    + apply (enrich_on_object vendor kv r g
               (Data.PStr (Py.slice_to 70 (ecom_agents.field r "title")))
               (ecom_agents.field r "tags") Hok).
      * unfold Data.get_or. rewrite Ht. reflexivity.
      * unfold Data.get_or. rewrite Hg.
        destruct v; try contradiction; cbn [ecom_agents.tag_string];
          rewrite str_or_empty; reflexivity.
    + reflexivity.
Qed.

Lemma answer_defaults_witness :
  exists o,
    fst (ecom_agents.enrich "Aceru Studio" (Data.Returns (Data.PDict []))
           [("title", Data.CStr "Desk Mat"); ("tags", Data.CStr "desk-mat");
            ("features", Data.CStr "anti-slip base")]
           (Budget.init 10%float ecom_agents.EST_COST_PER_CALL)) = inr o
    /\ Data.get "Body (HTML)" o = Some (Data.PStr "")
    /\ Data.get "Tags" o = Some (Data.PStr "").
Proof.
  destruct (proj1 (answer_defaults "Aceru Studio" []
              [("title", Data.CStr "Desk Mat"); ("tags", Data.CStr "desk-mat");
               ("features", Data.CStr "anti-slip base")]
              (Budget.init 10%float ecom_agents.EST_COST_PER_CALL)
              eq_refl eq_refl eq_refl) eq_refl)
    as (o & Ho & _ & Hbody & Htags).
  exists o. rewrite Ho. split; [reflexivity|]. split; assumption.
Defined.

(* ================================================================== *)
(** * Further properties: the normalizer and the variant expander *)
(* ================================================================== *)

Section NormalizerMore.
Import Py Data Props.
Import ecom_agents.

Lemma required_NoDup : NoDup required.
Proof.
  unfold required.
  repeat (constructor; [simpl; intuition discriminate|]). constructor.
Qed.

Lemma append_length (s t : string) :
  String.length (s ++ t) = (String.length s + String.length t)%nat.
Proof. induction s as [|c s IH]; simpl; [reflexivity|]. rewrite IH. reflexivity. Qed.

Lemma normalize_row_shape (df : DataFrame) (r : dict cell) :
  keys (normalize_row df r) = required
  /\ get "Handle" (normalize_row df r) = Some (CStr (slug (at_col r "Title")))
  /\ get "SEO Title" (normalize_row df r) = Some (str_slice 70 (at_col r "Title"))
  /\ get "SEO Description" (normalize_row df r)
     = Some (str_prepend "High-quality " (str_slice 140 (at_col r "Title"))).
Proof. repeat split. Qed.

End NormalizerMore.

(** X7: whatever frame it is given, a frame the Schema Normalizer writes
    is well formed: its columns are the 25 of the import schema, without
    repeats, every row carries exactly them, and there is one row per input
    row.  In every row the Handle is a string without whitespace or
    upper-case letters, the SEO Title has at most 70 characters and the SEO
    Description at most 153. *)
Theorem normalized_frame_shape (df out : Data.DataFrame) :
  ecom_agents.build_shopify_csv df = inr out ->
  Data.wf_frame out
  /\ Data.columns out = ecom_agents.required
  /\ List.length (Data.rows out) = List.length (Data.rows df)
  /\ Forall
       (fun o =>
          (exists h,
             Data.get "Handle" o = Some (Data.CStr h)
             /\ Py.all_chars (fun c => Py.lower_fixed c && Py.non_space c) h
                = true)
          /\ Props.text_within 70 (Data.get "SEO Title" o)
          /\ Props.text_within 153 (Data.get "SEO Description" o))
       (Data.rows out).
Proof.
  intros H. apply build_shopify_csv_inv in H as [_ ->].
  cbn [Data.columns Data.rows]. split; [split|].
  - apply required_NoDup.
  - cbn [Data.columns Data.rows]. apply Forall_forall. intros o Ho.
    apply in_map_iff in Ho as (r & <- & _). reflexivity.
  - split; [reflexivity|]. split; [apply length_map|].
    apply Forall_forall. intros o Ho.
    apply in_map_iff in Ho as (r & <- & _).
    destruct (normalize_row_shape df r) as (_ & Hh & Hs & Hd).
    rewrite Hh, Hs, Hd. split; [|split].
    + eexists. split; [reflexivity|]. apply ws_slug_stable.
    + destruct (Data.at_col r "Title") as [s| | |];
        cbn [ecom_agents.str_slice Data.NaN Props.text_within]; auto.
      apply slice_to_length.
    + destruct (Data.at_col r "Title") as [s| | |];
        cbn [ecom_agents.str_slice ecom_agents.str_prepend Data.NaN
             Props.text_within]; auto.
      rewrite append_length. pose proof (slice_to_length 140 s).
      change (String.length "High-quality ") with 13%nat. lia.
Qed.

Lemma normalized_frame_shape_witness :
  exists out,
    ecom_agents.build_shopify_csv
      {| Data.columns := ["Title"; "Body (HTML)"; "Notes"];
         Data.rows := [[("Title", Data.CStr "  Minimalist  Desk Mat ");
                        ("Body (HTML)", Data.CStr "<p>Mat</p>");
                        ("Notes", Data.CStr "dropped")]] |} = inr out
    /\ Data.wf_frame out
    /\ List.length (Data.rows out) = 1%nat.
Proof.
  eexists. split; [reflexivity|].
  destruct (normalized_frame_shape
              {| Data.columns := ["Title"; "Body (HTML)"; "Notes"];
                 Data.rows := [[("Title", Data.CStr "  Minimalist  Desk Mat ");
                                ("Body (HTML)", Data.CStr "<p>Mat</p>");
                                ("Notes", Data.CStr "dropped")]] |}
              _ eq_refl) as (Hwf & _ & Hlen & _).
  split; [exact Hwf|exact Hlen].
Defined.

Section VariantMore.
Import Py Data Props.
Import pod_variants_builder.

Variable cfg : Config.

Lemma expand_error (r : dict cell) (e : exn) :
  expand cfg r = inl e ->
  (get "Title" r = None /\ e = KeyError "Title")
  \/ (get "Title" r <> None /\ get "Body (HTML)" r = None
      /\ e = KeyError "Body (HTML)").
Proof.
  unfold expand, read_base.
  destruct (get "Title" r) as [t|]; [|intros H; injection H as <-; auto].
  destruct (get "Body (HTML)" r) as [bd|]; [discriminate|].
  intros H. injection H as <-. right. repeat split. discriminate.
Qed.

Lemma expand_ok_iff (r : dict cell) :
  (exists vs, expand cfg r = inr vs)
  <-> get "Title" r <> None /\ get "Body (HTML)" r <> None.
Proof.
  unfold expand, read_base.
  destruct (get "Title" r) as [t|]; destruct (get "Body (HTML)" r) as [bd|];
    split; try (intros [vs H]; discriminate H);
    try (intros [H1 H2]; congruence).
  - intros _. split; discriminate.
  - intros _. eauto.
Qed.

Lemma variants_parents (b : Base) (combos : list (string * string)) :
  List.length (filter is_parent (variants cfg b false combos)) = 0%nat.
Proof.
  induction combos as [|[c s] combos IH]; [reflexivity|].
  cbn [variants filter]. exact IH.
Qed.

Lemma variants_one_parent (b : Base) (combos : list (string * string)) :
  combos <> [] ->
  List.length (filter is_parent (variants cfg b true combos)) = 1%nat.
Proof.
  destruct combos as [|[c s] combos]; [congruence|]. intros _.
  change (filter is_parent (variants cfg b true ((c, s) :: combos)))
    with (variant_row cfg b true c s
          :: filter is_parent (variants cfg b false combos)).
  cbn [List.length]. rewrite variants_parents. reflexivity.
Qed.

Lemma product_not_nil {A B} (xs : list A) (ys : list B) :
  xs <> [] -> ys <> [] -> product xs ys <> [].
Proof.
  destruct xs as [|x xs]; [congruence|]. destruct ys as [|y ys]; [congruence|].
  discriminate.
Qed.

Lemma variants_prices (b : Base) (combos : list (string * string)) :
  forall first : bool,
  map (get "Variant Price") (variants cfg b first combos)
  = map (fun cs => Some (match get (snd cs) (PRICE_BY_SIZE cfg) with
                         | Some p => CStr p
                         | None => base_price b
                         end)) combos.
Proof.
  induction combos as [|[c s] combos IH]; intros first; [reflexivity|].
  cbn [variants map]. rewrite IH. reflexivity.
Qed.

Lemma in_product {A B} (xs : list A) (ys : list B) (x : A) (y : B) :
  In (x, y) (product xs ys) -> In x xs /\ In y ys.
Proof.
  unfold product. intros H. apply in_flat_map in H as (x' & Hx & H).
  apply in_map_iff in H as (y' & E & Hy). injection E as -> ->. auto.
Qed.

End VariantMore.

(** X8: the Variant Expander writes a table exactly when every base row
    has a Title and a Body (HTML); otherwise the run fails with the
    KeyError of one of the two columns and no row is written. *)
Theorem expander_needs_title_and_body (cfg : pod_variants_builder.Config)
  (base : list (Data.dict Data.cell)) :
  ((exists out, pod_variants_builder.main cfg base = inr out)
   <-> Forall (fun r => Data.get "Title" r <> None
                        /\ Data.get "Body (HTML)" r <> None) base)
  /\ (forall e,
        pod_variants_builder.main cfg base = inl e ->
        e = Data.KeyError "Title" \/ e = Data.KeyError "Body (HTML)").
Proof.
  split.
  - split.
    + revert base. induction base as [|r base IH]; [constructor|].
      intros [out H]. apply main_cons_inv in H as (vs & out' & E & H & _).
      constructor; [|apply IH; eauto].
      apply (expand_ok_iff cfg r). eauto.
    + intros H. destruct (main_total cfg base H) as (out & Hout & _). eauto.
  - induction base as [|r base IH]; intros e; [discriminate|].
    cbn [pod_variants_builder.main].
    destruct (pod_variants_builder.expand cfg r) as [e'|vs] eqn:E.
    + intros H. injection H as <-.
      destruct (expand_error cfg r e' E) as [[_ ->]|(_ & _ & ->)]; auto.
    + destruct (pod_variants_builder.main cfg base) as [e'|out];
        [|discriminate].
      intros H. injection H as <-. apply IH. reflexivity.
Qed.

Lemma expander_needs_title_and_body_witness :
  pod_variants_builder.main pod_variants_builder.config
    [[("Title", Data.CStr "Desk Mat"); ("Body (HTML)", Data.CStr "<p>Mat</p>")];
     [("Title", Data.CStr "Tote")]]
  = inl (Data.KeyError "Body (HTML)").
Proof.
  destruct (pod_variants_builder.main pod_variants_builder.config
              [[("Title", Data.CStr "Desk Mat");
                ("Body (HTML)", Data.CStr "<p>Mat</p>")];
               [("Title", Data.CStr "Tote")]]) as [e|out] eqn:E.
  - destruct (proj2 (expander_needs_title_and_body pod_variants_builder.config
                       [[("Title", Data.CStr "Desk Mat");
                         ("Body (HTML)", Data.CStr "<p>Mat</p>")];
                        [("Title", Data.CStr "Tote")]]) e E) as [->| ->].
    + vm_compute in E. discriminate E.
    + reflexivity.
  - vm_compute in E. discriminate E.
Defined.

(** X9: with non-empty option lists, the table written for N base rows
    has exactly N rows that carry the shared fields (Published is True):
    one parent row per product. *)
Theorem one_parent_row_per_product (cfg : pod_variants_builder.Config)
  (base out : list (Data.dict Data.cell)) :
  pod_variants_builder.COLORS cfg <> [] ->
  pod_variants_builder.SIZES cfg <> [] ->
  pod_variants_builder.main cfg base = inr out ->
  List.length (filter Props.is_parent out) = List.length base.
Proof.
  intros Hc Hs. revert out. induction base as [|r base IH]; intros out H.
  - injection H as <-. reflexivity.
  - apply main_cons_inv in H as (vs & out' & E & H & ->).
    destruct (expand_inv cfg r vs E) as [b ->].
    rewrite filter_app, length_app, (IH out' H).
    rewrite variants_one_parent; [reflexivity|].
    apply product_not_nil; assumption.
Qed.

Lemma one_parent_row_per_product_witness :
  exists out,
    pod_variants_builder.main pod_variants_builder.config
      [[("Title", Data.CStr "Desk Mat"); ("Body (HTML)", Data.CStr "<p>Mat</p>")];
       [("Title", Data.CStr "Tote"); ("Body (HTML)", Data.CStr "<p>Tote</p>")]]
    = inr out
    /\ List.length out = 30%nat
    /\ List.length (filter Props.is_parent out) = 2%nat.
Proof.
  eexists. split; [reflexivity|]. split; [reflexivity|].
  apply (one_parent_row_per_product pod_variants_builder.config
           [[("Title", Data.CStr "Desk Mat");
             ("Body (HTML)", Data.CStr "<p>Mat</p>")];
            [("Title", Data.CStr "Tote");
             ("Body (HTML)", Data.CStr "<p>Tote</p>")]]);
    [discriminate|discriminate|reflexivity].
Defined.

(** X10: when every configured size has an entry in the price table, as
    in the script, the prices written do not depend on the base row: its
    Variant Price is never used. *)
Theorem table_prices_override_base (cfg : pod_variants_builder.Config)
  (r1 r2 : Data.dict Data.cell) (vs1 vs2 : list (Data.dict Data.cell)) :
  Forall (fun size => Data.get size (pod_variants_builder.PRICE_BY_SIZE cfg)
                      <> None)
    (pod_variants_builder.SIZES cfg) ->
  pod_variants_builder.expand cfg r1 = inr vs1 ->
  pod_variants_builder.expand cfg r2 = inr vs2 ->
  map (Data.get "Variant Price") vs1 = map (Data.get "Variant Price") vs2
  /\ map (Data.get "Variant Price") vs1
     = map (fun cs =>
              option_map Data.CStr
                (Data.get (snd cs) (pod_variants_builder.PRICE_BY_SIZE cfg)))
         (pod_variants_builder.product (pod_variants_builder.COLORS cfg)
            (pod_variants_builder.SIZES cfg)).
Proof.
  intros Hall H1 H2.
  destruct (expand_inv cfg r1 vs1 H1) as [b1 ->].
  destruct (expand_inv cfg r2 vs2 H2) as [b2 ->].
  rewrite !variants_prices.
  assert (E : forall b : pod_variants_builder.Base,
             map (fun cs =>
                    Some (match Data.get (snd cs)
                                  (pod_variants_builder.PRICE_BY_SIZE cfg) with
                          | Some p => Data.CStr p
                          | None => pod_variants_builder.base_price b
                          end))
               (pod_variants_builder.product (pod_variants_builder.COLORS cfg)
                  (pod_variants_builder.SIZES cfg))
             = map (fun cs =>
                      option_map Data.CStr
                        (Data.get (snd cs)
                           (pod_variants_builder.PRICE_BY_SIZE cfg)))
                 (pod_variants_builder.product
                    (pod_variants_builder.COLORS cfg)
                    (pod_variants_builder.SIZES cfg))).
  { intros b. apply map_ext_in. intros [c s] Hin.
    apply in_product in Hin as [_ Hs].
    rewrite Forall_forall in Hall. specialize (Hall s Hs). cbn [snd].
    destruct (Data.get s (pod_variants_builder.PRICE_BY_SIZE cfg));
      [reflexivity|congruence]. }
  rewrite (E b1), (E b2). split; reflexivity.
Qed.

Lemma table_prices_override_base_witness :
  exists vs1 vs2,
    pod_variants_builder.expand pod_variants_builder.config
      [("Title", Data.CStr "Desk Mat"); ("Body (HTML)", Data.CStr "<p>Mat</p>");
       ("Variant Price", Data.CStr "99.00")] = inr vs1
    /\ pod_variants_builder.expand pod_variants_builder.config
         [("Title", Data.CStr "Tote"); ("Body (HTML)", Data.CStr "<p>Tote</p>")]
       = inr vs2
    /\ map (Data.get "Variant Price") vs1 = map (Data.get "Variant Price") vs2.
Proof.
  eexists. eexists. split; [reflexivity|]. split; [reflexivity|].
  apply (table_prices_override_base pod_variants_builder.config
           [("Title", Data.CStr "Desk Mat");
            ("Body (HTML)", Data.CStr "<p>Mat</p>");
            ("Variant Price", Data.CStr "99.00")]
           [("Title", Data.CStr "Tote");
            ("Body (HTML)", Data.CStr "<p>Tote</p>")]);
    [|reflexivity|reflexivity].
  repeat constructor; discriminate.
Defined.

(** X11: the SKU keeps only the first letter of the color, so two
    configured colors that begin alike (say black and blue) give the same
    SKU for every size: the SKUs of one product then repeat. *)
Theorem colors_sharing_initial_collide (cfg : pod_variants_builder.Config)
  (r : Data.dict Data.cell) (vs : list (Data.dict Data.cell))
  (i j : nat) (c1 c2 : string) :
  i <> j ->
  nth_error (pod_variants_builder.COLORS cfg) i = Some c1 ->
  nth_error (pod_variants_builder.COLORS cfg) j = Some c2 ->
  Py.slice_to 1 c1 = Py.slice_to 1 c2 ->
  pod_variants_builder.SIZES cfg <> [] ->
  pod_variants_builder.expand cfg r = inr vs ->
  (forall size,
     pod_variants_builder.sku_of cfg c1 size
     = pod_variants_builder.sku_of cfg c2 size)
  /\ ~ NoDup (map (Data.get "Variant SKU") vs).
Proof.
  intros Hij Hi Hj Hc Hs Hvs.
  assert (Hsku : forall size,
             pod_variants_builder.sku_of cfg c1 size
             = pod_variants_builder.sku_of cfg c2 size).
  { intros size. unfold pod_variants_builder.sku_of. rewrite Hc. reflexivity. }
  split; [exact Hsku|].
  destruct (expand_inv cfg r vs Hvs) as [b ->]. rewrite variants_skus.
  destruct (pod_variants_builder.SIZES cfg) as [|s ss] eqn:Es; [congruence|].
  intros Hnd. rewrite NoDup_nth_error in Hnd.
  pose proof (product_nth (pod_variants_builder.COLORS cfg) (s :: ss) i 0
                c1 s Hi eq_refl) as P1.
  pose proof (product_nth (pod_variants_builder.COLORS cfg) (s :: ss) j 0
                c2 s Hj eq_refl) as P2.
  set (f := fun cs : string * string =>
              Some (Data.CStr (pod_variants_builder.sku_of cfg (fst cs) (snd cs))))
    in *.
  assert (E : (i * List.length (s :: ss) + 0 = j * List.length (s :: ss) + 0)%nat).
  { apply Hnd.
    - rewrite length_map. apply nth_error_Some. rewrite P1. discriminate.
    - rewrite !nth_error_map, P1, P2. unfold f. cbn [option_map fst snd].
      rewrite Hsku. reflexivity. }
  cbn [List.length] in E. apply Hij. nia.
Qed.

Lemma colors_sharing_initial_collide_witness :
  exists vs,
    pod_variants_builder.expand
      {| pod_variants_builder.SIZES := ["S"; "M"];
         pod_variants_builder.COLORS := ["black"; "blue"];
         pod_variants_builder.PRICE_BY_SIZE := [];
         pod_variants_builder.SKU_PREFIX := "TEE" |}
      [("Title", Data.CStr "Desk Mat"); ("Body (HTML)", Data.CStr "<p>Mat</p>")]
    = inr vs
    /\ ~ NoDup (map (Data.get "Variant SKU") vs).
Proof.
  eexists. split; [reflexivity|].
  apply (colors_sharing_initial_collide
           {| pod_variants_builder.SIZES := ["S"; "M"];
              pod_variants_builder.COLORS := ["black"; "blue"];
              pod_variants_builder.PRICE_BY_SIZE := [];
              pod_variants_builder.SKU_PREFIX := "TEE" |}
           [("Title", Data.CStr "Desk Mat");
            ("Body (HTML)", Data.CStr "<p>Mat</p>")]
           _ 0 1 "black" "blue");
    try reflexivity; discriminate.
Defined.

(* ================================================================== *)
(** * Further properties: the image-mapping stage *)
(* ================================================================== *)

Section ImageFacts.
Import Py Data PyMore.
Import image_assign.

Lemma tidy_alphabet (s : string) :
  tidy s = true ->
  all_chars (fun c => is_alnum_lc c || is_hyphen c) s = true.
Proof.
  induction s as [|c s IH]; [reflexivity|].
  intros H. pose proof (tidy_tail _ _ H) as Hs.
  cbn [all_chars]. rewrite (IH Hs), andb_true_r.
  destruct (tidy_head _ _ H) as [Hc | (_ & -> & _)];
    [rewrite Hc|]; reflexivity.
Qed.

Lemma combine_nil_r {A B} (l : list A) : combine l (@nil B) = [].
Proof. destruct l; reflexivity. Qed.

(** The inner loop in closed form: from [assigned] on, the next
    [per_product - assigned] images, numbered [assigned + 1, ...]. *)
Lemma assign_spec (per_product : Z) (title alt : string) (imgs : list Image) :
  forall assigned : nat,
  let n := (Z.to_nat per_product - assigned)%nat in
  assign per_product title alt assigned imgs
  = (map (fun ks => (mapping_row title alt (fst ks) (snd ks),
                     shopify_row title alt (fst ks) (snd ks)))
       (combine (seq (S assigned) n) (firstn n imgs)),
     skipn n imgs).
Proof.
  induction imgs as [|src rest IH]; intros assigned n.
  - cbn [assign]. rewrite firstn_nil, skipn_nil, combine_nil_r. reflexivity.
  - cbn [assign]. destruct (Z.of_nat assigned <? per_product)%Z eqn:E.
    + apply Z.ltb_lt in E.
      assert (Hn : n = S (Z.to_nat per_product - S assigned)) by (unfold n; lia).
      rewrite (IH (S assigned)). cbv zeta. rewrite Hn.
      reflexivity.
    + apply Z.ltb_ge in E.
      assert (Hn : n = 0%nat) by (unfold n; lia).
      rewrite Hn. reflexivity.
Qed.

Lemma firstn_then_more {A} (a b : nat) (l : list A) :
  (firstn a l ++ firstn b (skipn a l))%list = firstn (a + b) l.
Proof.
  revert l. induction a as [|a IH]; intros l; [reflexivity|].
  destruct l as [|x l].
  - cbn [skipn]. rewrite !firstn_nil. reflexivity.
  - cbn [firstn skipn Nat.add app]. rewrite IH. reflexivity.
Qed.

Lemma assign_paths (per_product : Z) (title alt : string) (imgs : list Image) :
  let k := Nat.min (Z.to_nat per_product) (List.length imgs) in
  let rows := fst (assign per_product title alt 0 imgs) in
  List.length rows = k
  /\ map (fun rw => get "orig_path" (fst rw)) rows
     = map (fun im => Some (CStr (src_path im))) (firstn k imgs)
  /\ map (fun rw => get "Image Position" (snd rw)) rows
     = map (fun i => Some (CInt (Z.of_nat i))) (seq 1 k)
  /\ snd (assign per_product title alt 0 imgs) = skipn k imgs.
Proof.
  cbv zeta. rewrite (assign_spec per_product title alt imgs 0).
  rewrite Nat.sub_0_r. set (p := Z.to_nat per_product). cbn [fst snd].
  assert (Hk : firstn p imgs = firstn (Nat.min p (List.length imgs)) imgs).
  { destruct (Nat.le_ge_cases p (List.length imgs)) as [H|H].
    - rewrite Nat.min_l by exact H. reflexivity.
    - rewrite Nat.min_r by exact H.
      rewrite firstn_all2 by exact H. rewrite firstn_all. reflexivity. }
  assert (Hlen : List.length (combine (seq 1 p) (firstn p imgs))
                 = Nat.min p (List.length imgs)).
  { rewrite length_combine, length_seq, length_firstn. lia. }
  assert (Hsnd : map snd (combine (seq 1 p) (firstn p imgs))
                 = firstn (Nat.min p (List.length imgs)) imgs).
  { rewrite <- Hk. clear Hk Hlen. generalize 1%nat. revert imgs.
    induction p as [|p IH]; intros imgs a; [reflexivity|].
    destruct imgs as [|x imgs]; [reflexivity|].
    cbn [seq firstn combine map snd]. rewrite IH. reflexivity. }
  assert (Hfst : map fst (combine (seq 1 p) (firstn p imgs))
                 = seq 1 (Nat.min p (List.length imgs))).
  { clear Hk Hlen Hsnd. generalize 1%nat. revert imgs.
    induction p as [|p IH]; intros imgs a; [reflexivity|].
    destruct imgs as [|x imgs]; [reflexivity|].
    cbn [seq firstn combine map fst List.length Nat.min]. rewrite IH.
    reflexivity. }
  split; [rewrite length_map; exact Hlen|]. split; [|split].
  - rewrite map_map. cbn [fst]. rewrite <- Hsnd, map_map. reflexivity.
  - rewrite map_map. cbn [snd]. rewrite <- Hfst, map_map. reflexivity.
  - destruct (Nat.le_ge_cases p (List.length imgs)) as [H|H].
    + rewrite Nat.min_l by exact H. reflexivity.
    + rewrite Nat.min_r by exact H.
      rewrite skipn_all2 by exact H. rewrite skipn_all. reflexivity.
Qed.

Lemma assign_all_spec (per_product : Z) (alt_text : string -> string -> string)
  (df : list (dict cell)) :
  forall imgs : list Image,
  let rows := assign_all per_product alt_text df imgs in
  List.length rows
  = Nat.min (List.length imgs) (List.length df * Z.to_nat per_product)
  /\ map (fun rw => get "orig_path" (fst rw)) rows
     = map (fun im => Some (CStr (src_path im)))
         (firstn (List.length rows) imgs).
Proof.
  induction df as [|row df IH]; intros imgs; cbv zeta.
  - cbn [assign_all List.length Nat.mul]. rewrite Nat.min_0_r.
    split; reflexivity.
  - cbn [assign_all].
    set (title := image_seo_prep.title_of row).
    set (alt := alt_text title (strip (py_str (get_or "Tags" (CStr "") row)))).
    destruct (assign_paths per_product title alt imgs) as (Hlen & Hpaths & _ & Hrest).
    destruct (assign per_product title alt 0 imgs) as [rows unused] eqn:Ea.
    cbn [fst snd] in *. set (p := Z.to_nat per_product) in *.
    destruct unused as [|u unused].
    + assert (Hle : (List.length imgs <= p)%nat).
      { destruct (Nat.le_gt_cases (List.length imgs) p) as [H|H]; [exact H|].
        exfalso. rewrite Nat.min_l in Hrest by lia.
        assert (Hl : List.length (skipn p imgs) = 0%nat) by (rewrite <- Hrest; reflexivity).
        rewrite length_skipn in Hl. lia. }
      rewrite Nat.min_r in Hlen, Hpaths by exact Hle.
      split.
      * rewrite Hlen. cbn [List.length]. nia.
      * rewrite Hpaths, Hlen. reflexivity.
    + assert (Hgt : (p < List.length imgs)%nat).
      { destruct (Nat.le_gt_cases (List.length imgs) p) as [H|H]; [|exact H].
        exfalso. rewrite Nat.min_r in Hrest by exact H.
        rewrite skipn_all in Hrest. discriminate Hrest. }
      rewrite Nat.min_l in Hlen, Hpaths, Hrest by lia.
      destruct (IH (u :: unused)) as [IHlen IHpaths]. cbv zeta in *.
      rewrite length_app, map_app, Hpaths, IHpaths, IHlen, Hlen.
      assert (Hu : List.length (u :: unused) = (List.length imgs - p)%nat).
      { rewrite Hrest, length_skipn. reflexivity. }
      rewrite Hu. split.
      * cbn [List.length]. nia.
      * rewrite Hrest, <- map_app, firstn_then_more. reflexivity.
Qed.

End ImageFacts.

(** X12: the stem [slug] gives to an image file is never empty, is made
    of the characters a-z, 0-9 and hyphen only, has no two hyphens in a
    row and neither begins nor ends with a hyphen. *)
Theorem file_stem_shape (s : string) :
  image_seo_prep.slug s <> ""
  /\ Py.all_chars (fun c => Py.is_alnum_lc c || Py.is_hyphen c)
       (image_seo_prep.slug s) = true
  /\ Py.tidy (image_seo_prep.slug s) = true
  /\ Py.starts_with Py.is_hyphen (image_seo_prep.slug s) = false
  /\ Py.strip_hyphens (image_seo_prep.slug s) = image_seo_prep.slug s.
Proof.
  split; [apply img_slug_nonempty|].
  assert (H : Py.tidy (image_seo_prep.slug s) = true
              /\ Py.strip_hyphens (image_seo_prep.slug s)
                 = image_seo_prep.slug s).
  { destruct (img_stem_tidy s) as [Ht Hs]. unfold image_seo_prep.slug.
    destruct (Py.strip_hyphens
                (Py.sub_hyphen_runs (Py.sub_non_alnum (Py.strip (Py.lower s)))))
      as [|c v]; [split; reflexivity|].
    split; [exact Ht|exact Hs]. }
  destruct H as [Ht Hs]. split; [apply tidy_alphabet, Ht|].
  split; [exact Ht|]. split; [|exact Hs].
  rewrite <- Hs. unfold Py.strip_hyphens, Py.strip_by.
  apply starts_with_rstrip, starts_with_lstrip.
Qed.

(** X13: a product gets the next k images, k being the smaller of
    [per_product] (nothing when it is zero or negative) and the number of
    images left; their positions are 1, 2, ..., k without a gap, they are
    taken in the order of the list, and the images after them are left for
    the next product. *)
Theorem positions_count_from_one (per_product : Z) (title alt : string)
  (imgs : list image_assign.Image) :
  let k := Nat.min (Z.to_nat per_product) (List.length imgs) in
  let rows := fst (image_assign.assign per_product title alt 0 imgs) in
  List.length rows = k
  /\ map (fun rw => Data.get "orig_path" (fst rw)) rows
     = map (fun im => Some (Data.CStr (image_assign.src_path im)))
         (firstn k imgs)
  /\ map (fun rw => Data.get "Image Position" (snd rw)) rows
     = map (fun i => Some (Data.CInt (Z.of_nat i))) (seq 1 k)
  /\ snd (image_assign.assign per_product title alt 0 imgs) = skipn k imgs.
Proof. apply assign_paths. Qed.

(** X14: a run over P products and I images writes min (I, P * per_product)
    rows to each of its two files and uses the images in the order found,
    each at most once, without skipping any; with no image at all it
    writes nothing. *)
Theorem images_used_in_order (per_product : Z)
  (alt_text : string -> string -> string) (df : list (Data.dict Data.cell))
  (img : image_assign.Image) (imgs : list image_assign.Image) :
  image_assign.main per_product alt_text df [] = None
  /\ exists mapping shopify,
       image_assign.main per_product alt_text df (img :: imgs)
       = Some (mapping, shopify)
       /\ List.length mapping
          = Nat.min (List.length (img :: imgs))
              (List.length df * Z.to_nat per_product)
       /\ List.length shopify = List.length mapping
       /\ map (Data.get "orig_path") mapping
          = map (fun im => Some (Data.CStr (image_assign.src_path im)))
              (firstn (List.length mapping) (img :: imgs)).
Proof.
  split; [reflexivity|].
  destruct (assign_all_spec per_product alt_text df (img :: imgs))
    as [Hlen Hpaths].
  eexists. eexists. split; [reflexivity|].
  rewrite !length_map. split; [exact Hlen|]. split; [reflexivity|].
  rewrite map_map. exact Hpaths.
Qed.

(* ================================================================== *)
(** * Further properties: the merge stage *)
(* ================================================================== *)

Section MergeMore.
Import Py Data Props.
Import merge_images_into_products.

Variable float_text : Z -> string.

Lemma ensure_cols_cases (df : DataFrame) (cols : list string) (name : string) :
  (Forall (fun c => mem c (columns df) = true) cols
   /\ ensure_cols df cols name = inr tt)
  \/ (exists missing,
        missing <> []
        /\ missing = filter (fun c => negb (mem c (columns df))) cols
        /\ ensure_cols df cols name = inl (ValueError name missing)).
Proof.
  unfold ensure_cols.
  destruct (filter (fun c => negb (mem c (columns df))) cols) as [|m ms] eqn:E.
  - left. split; [|reflexivity].
    apply Forall_forall. intros c Hc.
    destruct (mem c (columns df)) eqn:Em; [reflexivity|].
    assert (Hin : In c (filter (fun c => negb (mem c (columns df))) cols)).
    { apply filter_In. split; [exact Hc|]. rewrite Em. reflexivity. }
    rewrite E in Hin. contradiction.
  - right. exists (m :: ms). split; [discriminate|]. split; reflexivity.
Qed.

Lemma length_iterrows (df : DataFrame) :
  List.length (iterrows float_text df) = List.length (rows df).
Proof. rewrite iterrows_map. apply length_map. Qed.

Lemma main_rows_length (prod imgs out : DataFrame) (filemap : dict string) :
  main float_text prod imgs filemap = inr out ->
  columns out = out_cols_of (columns prod)
  /\ List.length (rows out)
     = (List.length (rows prod) + List.length (rows imgs))%nat
  /\ Forall (fun o => keys o = columns out) (rows out).
Proof.
  unfold main.
  destruct (ensure_cols prod REQUIRED_PRODUCT_COLS "Products CSV");
    [discriminate|].
  destruct (ensure_cols imgs IMAGE_COLS "Images CSV"); [discriminate|].
  intros H. injection H as <-. cbn [columns rows from_records].
  split; [reflexivity|]. split.
  - unfold merged_rows.
    rewrite length_map, length_app, !length_map, !length_iterrows.
    cbn [rows resolve_frame]. rewrite length_map. reflexivity.
  - apply Forall_forall. intros o Ho. apply in_map_iff in Ho as (x & <- & _).
    apply keys_typed_row.
Qed.

Lemma merge_requires_columns_aux (prod imgs : DataFrame)
  (filemap : dict string) :
  Forall (fun c => mem c (columns prod) = true) REQUIRED_PRODUCT_COLS
  /\ Forall (fun c => mem c (columns imgs) = true) IMAGE_COLS ->
  exists out, main float_text prod imgs filemap = inr out.
Proof.
  intros [Hp Hi]. unfold main.
  rewrite (ensure_cols_ok prod _ _ Hp), (ensure_cols_ok imgs _ _ Hi). eauto.
Qed.

Lemma out_cols_idem (cols : list string) :
  out_cols_of (out_cols_of cols) = out_cols_of cols.
Proof.
  rewrite (out_cols_of_spec (out_cols_of cols)).
  replace (filter (fun c => negb (mem c (out_cols_of cols)))
             ["Image Src"; "Image Alt Text"; "Image Position"])
    with (@nil string); [apply app_nil_r|].
  symmetry.
  assert (H : forall c, In c ["Image Src"; "Image Alt Text"; "Image Position"] ->
                        mem c (out_cols_of cols) = true).
  { intros c Hc. apply mem_In, out_cols_image, Hc. }
  cbn [filter].
  rewrite (H "Image Src"), (H "Image Alt Text"), (H "Image Position");
    simpl; auto.
Qed.









(** A row of [iterrows] under a missing value stays missing. *)
Lemma iterrows_keeps_nan (df : DataFrame) (c : string) (r : dict cell) :
  Forall (fun row => at_col row c = NaN) (rows df) ->
  In r (iterrows float_text df) -> at_col r c = NaN.
Proof.
  intros H Hr. rewrite iterrows_map in Hr.
  apply in_map_iff in Hr as (r0 & <- & Hr0).
  rewrite Forall_forall in H.
  pose proof (at_col_seen_row float_text
                (float64 (cells (rows df))) r0 c) as Hs.
  rewrite (H r0 Hr0) in Hs.
  apply (retyped_keeps float_text _ _ Hs). discriminate.
Qed.

End MergeMore.

(** X15: the merge writes a frame exactly when the product frame has its
    five required columns and the image frame its four; otherwise it fails
    with a ValueError that names the frame at fault (the products first)
    and lists the columns that frame lacks, those and no others (the order
    in which a Python set yields them is not fixed, so the list is
    described by its members). *)
Theorem merge_requires_columns (float_text : Z -> string)
  (prod imgs : Data.DataFrame) (filemap : Data.dict string) :
  ((exists out,
      merge_images_into_products.main float_text prod imgs filemap = inr out)
   <-> Forall (fun c => Data.mem c (Data.columns prod) = true)
         merge_images_into_products.REQUIRED_PRODUCT_COLS
       /\ Forall (fun c => Data.mem c (Data.columns imgs) = true)
            merge_images_into_products.IMAGE_COLS)
  /\ (forall e,
        merge_images_into_products.main float_text prod imgs filemap = inl e ->
        exists name missing,
          e = Data.ValueError name missing
          /\ missing <> []
          /\ ((name = "Products CSV"
               /\ forall c,
                    In c missing
                    <-> In c merge_images_into_products.REQUIRED_PRODUCT_COLS
                        /\ Data.mem c (Data.columns prod) = false)
              \/ (name = "Images CSV"
                  /\ Forall (fun c => Data.mem c (Data.columns prod) = true)
                       merge_images_into_products.REQUIRED_PRODUCT_COLS
                  /\ forall c,
                       In c missing
                       <-> In c merge_images_into_products.IMAGE_COLS
                           /\ Data.mem c (Data.columns imgs) = false))).
Proof.
  assert (F : forall (df : Data.DataFrame) (cols : list string) (c : string),
             In c (filter (fun c => negb (Data.mem c (Data.columns df))) cols)
             <-> In c cols /\ Data.mem c (Data.columns df) = false).
  { intros df cols c. rewrite filter_In, negb_true_iff. reflexivity. }
  unfold merge_images_into_products.main.
  destruct (ensure_cols_cases prod
              merge_images_into_products.REQUIRED_PRODUCT_COLS "Products CSV")
    as [[Hp Ep]|(mp & Hne & Hmp & Ep)]; rewrite Ep.
  - destruct (ensure_cols_cases imgs merge_images_into_products.IMAGE_COLS
                "Images CSV") as [[Hi Ei]|(mi & Hnei & Hmi & Ei)]; rewrite Ei.
    + split; [split; eauto|]. intros e H. discriminate H.
    + split.
      * split; [intros [out H]; discriminate H|].
        intros [_ Hi]. rewrite (ensure_cols_ok imgs _ "Images CSV" Hi) in Ei.
        discriminate Ei.
      * intros e H. injection H as <-. exists "Images CSV", mi.
        split; [reflexivity|]. split; [exact Hnei|]. right.
        split; [reflexivity|]. split; [exact Hp|].
        intros c. rewrite Hmi. apply F.
  - split.
    + split; [intros [out H]; discriminate H|].
      intros [Hp _]. rewrite (ensure_cols_ok prod _ "Products CSV" Hp) in Ep.
      discriminate Ep.
    + intros e H. injection H as <-. exists "Products CSV", mp.
      split; [reflexivity|]. split; [exact Hne|]. left.
      split; [reflexivity|]. intros c. rewrite Hmp. apply F.
Qed.

Lemma merge_requires_columns_witness :
  exists missing,
    merge_images_into_products.main (fun n => Py.str_of_int n ++ ".0")
      {| Data.columns := ["Handle"; "Title"; "Vendor"]; Data.rows := [] |}
      {| Data.columns := ["Handle"]; Data.rows := [] |} []
    = inl (Data.ValueError "Products CSV" missing)
    /\ In "Status" missing /\ ~ In "Title" missing.
Proof.
  destruct (merge_images_into_products.main (fun n => Py.str_of_int n ++ ".0")
              {| Data.columns := ["Handle"; "Title"; "Vendor"]; Data.rows := [] |}
              {| Data.columns := ["Handle"]; Data.rows := [] |} [])
    as [e|out] eqn:E.
  - destruct (proj2 (merge_requires_columns (fun n => Py.str_of_int n ++ ".0")
                {| Data.columns := ["Handle"; "Title"; "Vendor"];
                   Data.rows := [] |}
                {| Data.columns := ["Handle"]; Data.rows := [] |} []) e E)
      as (name & missing & -> & _ & [[-> Hm]|(_ & H & _)]).
    + exists missing. split; [reflexivity|]. split.
      * apply Hm. split; [simpl; auto 10|reflexivity].
      * intros Hin. apply Hm in Hin as [_ Hin]. discriminate Hin.
    + exfalso. inversion H as [|? ? _ Ha]. inversion Ha as [|? ? _ Hb].
      inversion Hb as [|? ? Hc _]. discriminate Hc.
  - vm_compute in E. discriminate E.
Defined.



(** X17: the merged frame is well formed and can be merged again: for
    well-formed inputs with their required columns the output has unique
    columns carried by every row, and merging a second image frame into it
    succeeds, adds no column and gives P + I1 + I2 rows. *)
Theorem merge_twice (float_text : Z -> string)
  (prod imgs1 imgs2 : Data.DataFrame)
  (filemap1 filemap2 : Data.dict string) :
  Data.wf_frame prod ->
  Forall (fun c => Data.mem c (Data.columns prod) = true)
    merge_images_into_products.REQUIRED_PRODUCT_COLS ->
  Forall (fun c => Data.mem c (Data.columns imgs1) = true)
    merge_images_into_products.IMAGE_COLS ->
  Forall (fun c => Data.mem c (Data.columns imgs2) = true)
    merge_images_into_products.IMAGE_COLS ->
  exists out1 out2,
    merge_images_into_products.main float_text prod imgs1 filemap1 = inr out1
    /\ Data.wf_frame out1
    /\ merge_images_into_products.main float_text out1 imgs2 filemap2
       = inr out2
    /\ Data.wf_frame out2
    /\ Data.columns out2 = Data.columns out1
    /\ List.length (Data.rows out2)
       = (List.length (Data.rows prod) + List.length (Data.rows imgs1)
          + List.length (Data.rows imgs2))%nat.
Proof.
  intros [Hnd _] Hp H1 H2.
  assert (M1 : exists out1,
             merge_images_into_products.main float_text prod imgs1 filemap1
             = inr out1).
  { apply (merge_requires_columns_aux float_text prod imgs1 filemap1). auto. }
  destruct M1 as [out1 E1].
  destruct (main_rows_length float_text prod imgs1 out1 filemap1 E1)
    as (C1 & L1 & K1).
  assert (W1 : Data.wf_frame out1).
  { split; [rewrite C1; apply out_cols_NoDup, Hnd|exact K1]. }
  assert (P1 : Forall (fun c => Data.mem c (Data.columns out1) = true)
                 merge_images_into_products.REQUIRED_PRODUCT_COLS).
  { rewrite C1. eapply Forall_impl; [|exact Hp].
    intros c Hc. apply mem_In, out_cols_incl, mem_In, Hc. }
  assert (M2 : exists out2,
             merge_images_into_products.main float_text out1 imgs2 filemap2
             = inr out2).
  { apply (merge_requires_columns_aux float_text out1 imgs2 filemap2). auto. }
  destruct M2 as [out2 E2].
  destruct (main_rows_length float_text out1 imgs2 out2 filemap2 E2)
    as (C2 & L2 & K2).
  exists out1, out2. split; [exact E1|]. split; [exact W1|].
  split; [exact E2|]. split.
  - split; [|exact K2]. rewrite C2. apply out_cols_NoDup. apply W1.
  - split; [rewrite C2, C1; apply out_cols_idem|].
    rewrite L2, L1. reflexivity.
Qed.

Lemma merge_twice_witness :
  exists out1 out2,
    merge_images_into_products.main (fun n => Py.str_of_int n ++ ".0")
      {| Data.columns := ["Handle"; "Title"; "Body (HTML)"; "Vendor"; "Status"];
         Data.rows := [[("Handle", Data.CStr "desk-mat");
                        ("Title", Data.CStr "Desk Mat");
                        ("Body (HTML)", Data.CStr "<p>Mat</p>");
                        ("Vendor", Data.CStr "Aceru Studio");
                        ("Status", Data.CStr "active")]] |}
      {| Data.columns := ["Handle"; "Image Src"; "Image Alt Text"; "Image Position"];
         Data.rows := [[("Handle", Data.CStr "desk-mat");
                        ("Image Src", Data.CStr "desk-mat-1.png");
                        ("Image Alt Text", Data.CStr "Desk Mat");
                        ("Image Position", Data.CInt 1)]] |} []
    = inr out1
    /\ merge_images_into_products.main (fun n => Py.str_of_int n ++ ".0") out1
         {| Data.columns := ["Handle"; "Image Src"; "Image Alt Text"; "Image Position"];
            Data.rows := [[("Handle", Data.CStr "desk-mat");
                           ("Image Src", Data.CStr "desk-mat-2.png");
                           ("Image Alt Text", Data.CStr "Desk Mat");
                           ("Image Position", Data.CInt 2)]] |} []
       = inr out2
    /\ Data.wf_frame out2
    /\ List.length (Data.rows out2) = 3%nat.
Proof.
  destruct (merge_twice (fun n => Py.str_of_int n ++ ".0")
      {| Data.columns := ["Handle"; "Title"; "Body (HTML)"; "Vendor"; "Status"];
         Data.rows := [[("Handle", Data.CStr "desk-mat");
                        ("Title", Data.CStr "Desk Mat");
                        ("Body (HTML)", Data.CStr "<p>Mat</p>");
                        ("Vendor", Data.CStr "Aceru Studio");
                        ("Status", Data.CStr "active")]] |}
      {| Data.columns := ["Handle"; "Image Src"; "Image Alt Text"; "Image Position"];
         Data.rows := [[("Handle", Data.CStr "desk-mat");
                        ("Image Src", Data.CStr "desk-mat-1.png");
                        ("Image Alt Text", Data.CStr "Desk Mat");
                        ("Image Position", Data.CInt 1)]] |}
      {| Data.columns := ["Handle"; "Image Src"; "Image Alt Text"; "Image Position"];
         Data.rows := [[("Handle", Data.CStr "desk-mat");
                        ("Image Src", Data.CStr "desk-mat-2.png");
                        ("Image Alt Text", Data.CStr "Desk Mat");
                        ("Image Position", Data.CInt 2)]] |} [] [])
    as (out1 & out2 & E1 & _ & E2 & W2 & _ & L2).
  - split; [|repeat constructor].
    repeat constructor; simpl; intuition discriminate.
  - repeat constructor.
  - repeat constructor.
  - repeat constructor.
  - exists out1, out2. split; [exact E1|]. split; [exact E2|].
    split; [exact W2|exact L2].
Defined.

Section FilemapFacts.
Import Py Data.
Import merge_images_into_products.

Lemma get_In {V} (k : string) (v : V) (d : dict V) :
  get k d = Some v -> In (k, v) d.
Proof.
  induction d as [|[k0 v0] d IH]; simpl; [discriminate|].
  destruct (String.eqb k0 k) eqn:E.
  - apply String.eqb_eq in E. intros H. injection H as <-. subst. auto.
  - auto.
Qed.

Lemma set_entries {V} (Q : string * V -> Prop) (k : string) (v : V)
  (d : dict V) :
  Forall Q d -> Q (k, v) -> Forall Q (set k v d).
Proof.
  intros Hd Hq. induction Hd as [|[k0 v0] d H0 Hd IH]; simpl.
  - constructor; [exact Hq|constructor].
  - destruct (String.eqb k0 k) eqn:E.
    + apply String.eqb_eq in E. subst. constructor; assumption.
    + constructor; assumption.
Qed.

Lemma get_set_keeps {V} (k k' : string) (v : V) (d : dict V) :
  get k d <> None -> get k (set k' v d) <> None.
Proof.
  intros H. destruct (String.eqb k k') eqn:E.
  - apply String.eqb_eq in E. subst. rewrite get_set_same. discriminate.
  - apply String.eqb_neq in E. rewrite get_set_other by exact E. exact H.
Qed.

(** The loop that fills [filemap], from any map so far. *)
Lemma filemap_loop (Q : string * string -> Prop) (cf cu : string)
  (rs : list (dict cell)) :
  (forall r,
     In r rs ->
     strip (py_str (at_col r cf)) <> "" ->
     strip (py_str (at_col r cu)) <> "" ->
     Q (strip (py_str (at_col r cf)), strip (py_str (at_col r cu)))) ->
  forall fm : dict string,
  Forall Q fm ->
  let fm' :=
    fold_left
      (fun fm row =>
         let fn := strip (py_str (at_col row cf)) in
         let url := strip (py_str (at_col row cu)) in
         if negb (is_empty fn) && negb (is_empty url)
         then set fn url fm else fm)
      rs fm in
  Forall Q fm'
  /\ (forall k, get k fm <> None -> get k fm' <> None)
  /\ (forall r,
        In r rs ->
        strip (py_str (at_col r cf)) <> "" ->
        strip (py_str (at_col r cu)) <> "" ->
        get (strip (py_str (at_col r cf))) fm' <> None).
Proof.
  induction rs as [|r0 rs IH]; intros HQ fm Hfm; cbv zeta.
  - cbn [fold_left]. split; [exact Hfm|]. split; [auto|]. intros r [].
  - cbn [fold_left].
    set (fn := strip (py_str (at_col r0 cf))).
    set (url := strip (py_str (at_col r0 cu))).
    assert (HQ' : forall r, In r rs ->
                    strip (py_str (at_col r cf)) <> "" ->
                    strip (py_str (at_col r cu)) <> "" ->
                    Q (strip (py_str (at_col r cf)),
                       strip (py_str (at_col r cu)))).
    { intros r Hr. apply HQ. right. exact Hr. }
    destruct (is_empty fn) eqn:Ef; cbn [negb andb].
    + destruct (IH HQ' fm Hfm) as (I1 & I2 & I3). cbv zeta in *.
      split; [exact I1|]. split; [exact I2|].
      intros r [<-|Hr] Hn Hu; [|apply I3; assumption].
      fold fn in Hn. destruct fn; [congruence|discriminate Ef].
    + destruct (is_empty url) eqn:Eu; cbn [negb].
      * destruct (IH HQ' fm Hfm) as (I1 & I2 & I3). cbv zeta in *.
        split; [exact I1|]. split; [exact I2|].
        intros r [<-|Hr] Hn Hu; [|apply I3; assumption].
        fold url in Hu. destruct url; [congruence|discriminate Eu].
      * assert (Hs : Forall Q (set fn url fm)).
        { apply set_entries; [exact Hfm|]. apply HQ; [left; reflexivity| |].
          - fold fn. destruct fn; [discriminate Ef|discriminate].
          - fold url. destruct url; [discriminate Eu|discriminate]. }
        destruct (IH HQ' (set fn url fm) Hs) as (I1 & I2 & I3). cbv zeta in *.
        split; [exact I1|]. split.
        -- intros k Hk. apply I2, get_set_keeps, Hk.
        -- intros r [<-|Hr] Hn Hu; [|apply I3; assumption].
           apply I2. fold fn. rewrite get_set_same. discriminate.
Qed.

Lemma header_lookup_none (k : string) (cols : list string) :
  Forall (fun c => lower c <> k) cols ->
  forall d : dict string,
  get k d = None ->
  get k (fold_left (fun d c => set (lower c) c d) cols d) = None.
Proof.
  induction 1 as [|c cols Hc _ IH]; intros d Hd; [exact Hd|].
  cbn [fold_left]. apply IH. rewrite get_set_other; [exact Hd|].
  intros E. apply Hc. symmetry. exact E.
Qed.

End FilemapFacts.

(** X18: the URL map never holds a blank file name or a blank URL: rows of
    the mapping file with either one blank are skipped, so a merge never
    replaces an Image Src by the empty string.  Without a mapping file, or
    when no header of it reads "new_filename" (or "url") in lower case, the
    map is empty. *)
Theorem url_map_has_no_blank_entry (float_text : Z -> string)
  (m : Data.DataFrame) :
  Forall (fun kv => fst kv <> "" /\ snd kv <> "")
    (merge_images_into_products.load_filemap float_text (Some m))
  /\ (forall x,
        merge_images_into_products.resolve
          (merge_images_into_products.load_filemap float_text (Some m)) x
        = Data.CStr "" ->
        x = Data.CStr "")
  /\ merge_images_into_products.load_filemap float_text None = []
  /\ (Forall (fun c => Py.lower c <> "new_filename") (Data.columns m)
      \/ Forall (fun c => Py.lower c <> "url") (Data.columns m) ->
      merge_images_into_products.load_filemap float_text (Some m) = []).
Proof.
  assert (H1 : Forall (fun kv : string * string => fst kv <> "" /\ snd kv <> "")
                 (merge_images_into_products.load_filemap float_text (Some m))).
  { unfold merge_images_into_products.load_filemap.
    destruct (Data.get "new_filename" _) as [cf|]; [|constructor].
    destruct (Data.get "url" _) as [cu|]; [|constructor].
    apply (filemap_loop (fun kv => fst kv <> "" /\ snd kv <> "") cf cu
             (Data.iterrows float_text m)); [|constructor].
    intros r _ Hn Hu. split; assumption. }
  split; [exact H1|]. split; [|split; [reflexivity|]].
  - intros x. unfold merge_images_into_products.resolve.
    destruct (Data.get (Py.strip (Data.py_str x)) _) as [url|] eqn:E; [|auto].
    apply get_In in E. rewrite Forall_forall in H1.
    destruct (H1 _ E) as [_ Hu]. cbn [snd] in Hu.
    intros H. injection H as ->. congruence.
  - intros [H|H]; unfold merge_images_into_products.load_filemap.
    + rewrite (header_lookup_none "new_filename" (Data.columns m) H []);
        reflexivity.
    + rewrite (header_lookup_none "url" (Data.columns m) H []);
        [|reflexivity].
      destruct (Data.get "new_filename" _); reflexivity.
Qed.

Lemma url_map_has_no_blank_entry_witness :
  merge_images_into_products.load_filemap (fun n => Py.str_of_int n ++ ".0")
    (Some {| Data.columns := ["File"; "URL"];
             Data.rows := [[("File", Data.CStr "a.png");
                            ("URL", Data.CStr "https://cdn.example/a.png")]] |})
  = [].
Proof.
  apply (proj2 (proj2 (proj2 (url_map_has_no_blank_entry
           (fun n => Py.str_of_int n ++ ".0")
           {| Data.columns := ["File"; "URL"];
              Data.rows := [[("File", Data.CStr "a.png");
                             ("URL", Data.CStr "https://cdn.example/a.png")]] |})))).
  left. repeat constructor; discriminate.
Defined.

(** X19: a missing URL is not a blank URL: a cell pandas read as missing
    (NaN) turns into the text "nan" under [str], so a mapping file whose
    url column was left unfilled maps every file name to "nan", and the
    merge then writes "nan" as the Image Src of the images it names. *)
Theorem unfilled_url_becomes_nan (float_text : Z -> string)
  (rs : list (Data.dict Data.cell)) (r : Data.dict Data.cell) :
  let m := {| Data.columns := ["new_filename"; "url"]; Data.rows := rs |} in
  Forall (fun row => Data.at_col row "url" = Data.NaN) rs ->
  In r (Data.iterrows float_text m) ->
  Py.strip (Data.py_str (Data.at_col r "new_filename")) <> "" ->
  let filemap :=
    merge_images_into_products.load_filemap float_text (Some m) in
  Data.get (Py.strip (Data.py_str (Data.at_col r "new_filename"))) filemap
  = Some "nan"
  /\ merge_images_into_products.resolve filemap
       (Data.at_col r "new_filename") = Data.CStr "nan".
Proof.
  intros m Hnan Hr Hfn filemap.
  assert (Hnan' : forall row, In row (Data.iterrows float_text m) ->
                              Data.at_col row "url" = Data.NaN).
  { intros row Hrow.
    apply (iterrows_keeps_nan float_text m "url" row Hnan Hrow). }
  assert (Hloop :
    Forall (fun kv : string * string => snd kv = "nan") filemap
    /\ Data.get (Py.strip (Data.py_str (Data.at_col r "new_filename"))) filemap
       <> None).
  { unfold filemap, merge_images_into_products.load_filemap.
    cbn [Data.columns m fold_left].
    change (Data.get "new_filename"
              (Data.set (Py.lower "url") "url"
                 (Data.set (Py.lower "new_filename") "new_filename" [])))
      with (Some "new_filename").
    change (Data.get "url"
              (Data.set (Py.lower "url") "url"
                 (Data.set (Py.lower "new_filename") "new_filename" [])))
      with (Some "url").
    destruct (filemap_loop (fun kv => snd kv = "nan") "new_filename" "url"
                (Data.iterrows float_text m))
      with (fm := @nil (string * string)) as (I1 & _ & I3).
    - intros row Hrow _ _.
      cbn [snd]. rewrite (Hnan' row Hrow). reflexivity.
    - constructor.
    - cbv zeta in *. split; [exact I1|]. apply I3; [exact Hr|exact Hfn|].
      rewrite (Hnan' r Hr). discriminate. }
  destruct Hloop as [Hall Hsome].
  assert (Hget : Data.get
                   (Py.strip (Data.py_str (Data.at_col r "new_filename")))
                   filemap = Some "nan").
  { destruct (Data.get _ filemap) as [v|] eqn:E; [|congruence].
    apply get_In in E. rewrite Forall_forall in Hall.
    specialize (Hall _ E). cbn [snd] in Hall. subst. reflexivity. }
  split; [exact Hget|].
  unfold merge_images_into_products.resolve. rewrite Hget. reflexivity.
Qed.

Lemma unfilled_url_becomes_nan_witness :
  merge_images_into_products.resolve
    (merge_images_into_products.load_filemap
       (fun n => Py.str_of_int n ++ ".0")
       (Some {| Data.columns := ["new_filename"; "url"];
                Data.rows := [[("new_filename", Data.CStr "desk-mat-1.png");
                               ("url", Data.NaN)]] |}))
    (Data.CStr "desk-mat-1.png") = Data.CStr "nan".
Proof.
  refine (proj2 (unfilled_url_becomes_nan (fun n => Py.str_of_int n ++ ".0")
            [[("new_filename", Data.CStr "desk-mat-1.png"); ("url", Data.NaN)]]
            [("new_filename", Data.CStr "desk-mat-1.png"); ("url", Data.NaN)]
            _ _ _)).
  - repeat constructor.
  - left. reflexivity.
  - intros E. vm_compute in E. discriminate E.
Defined.

(* ================================================================== *)
(** * Further properties: seeding, placeholders, checkout, salvage *)
(* ================================================================== *)

Section SeedFacts.
Import Py Data Budget PyMore Props.

Lemma clamp_zero (n : nat) (i : Z) :
  (n = 0%nat \/ i = 0%Z \/ (Z.of_nat n <= - i)%Z) -> clamp n i = 0%nat.
Proof.
  unfold clamp. intros H. destruct (i <? 0)%Z eqn:E.
  - apply Z.ltb_lt in E. lia.
  - apply Z.ltb_ge in E. lia.
Qed.

Lemma clamp_pos (n : nat) (i : Z) :
  n <> 0%nat -> (0 < i)%Z -> clamp n i <> 0%nat.
Proof.
  unfold clamp. intros Hn Hi. destruct (i <? 0)%Z eqn:E.
  - apply Z.ltb_lt in E. lia.
  - lia.
Qed.

Section Seeding.
Variable str_of_container : pyval -> string.
Variable fresh : nat -> string.

(** Seeding from a kit whose ideas are a list: nothing to expand, or the
    gateway call and the writing of [seed_products_from_kit]. *)
Lemma seed_on_list (kv : list (string * pyval)) (l : list pyval)
  (max_items : Z) (answer : reply) (g : BudgetGuard) :
  get_or "product_ideas" (PList []) kv = PList l ->
  seed_kit.seed str_of_container fresh (PDict kv) max_items answer g
  = match clamp (List.length l) max_items, l with
    | S _, _ :: _ =>
        seed_from_kit.expand_and_write str_of_container fresh answer g
    | _, _ =>
        (inl (RuntimeError "No product_ideas found in kit JSON."), g)
    end.
Proof.
  intros Hk. unfold seed_kit.seed, seed_kit.ideas_of, bind at 1.
  rewrite Hk. rewrite lift_run. unfold list_slice_to.
  destruct (clamp (List.length l) max_items) as [|n]; [reflexivity|].
  destruct l as [|x l]; reflexivity.
Qed.

Lemma expand_call (answer : reply) (g : BudgetGuard) :
  seed_from_kit.expand_and_write str_of_container fresh answer g
  = match seed_from_kit.book 1 g with
    | (inl e, g1) => (inl e, g1)
    | (inr _, g1) =>
        match answer with
        | Fails => (inl ProviderError, g1)
        | Returns data =>
            (match seed_from_kit.rows_of data with
             | inl e => inl e
             | inr rows => seed_from_kit.written str_of_container fresh rows
             end, g1)
        end
    end.
Proof.
  unfold seed_from_kit.expand_and_write, seed_from_kit.written, try_except, bind,
    seed_from_kit.llm_json, bind.
  destruct (seed_from_kit.book 1 g) as [[e|[]] g1]; [reflexivity|].
  destruct answer as [|data]; [reflexivity|].
  unfold ret at 1. rewrite lift_run.
  destruct (seed_from_kit.rows_of data) as [e|rows]; [reflexivity|].
  rewrite lift_run.
  destruct (seed_from_kit.items_of rows) as [e|items]; [reflexivity|].
  destruct (seed_from_kit.write_rows str_of_container fresh 0 items)
    as [out [e|]]; reflexivity.
Qed.

Lemma expand_state (answer : reply) (g : BudgetGuard) :
  snd (seed_from_kit.expand_and_write str_of_container fresh answer g)
  = snd (seed_from_kit.book 1 g).
Proof.
  rewrite expand_call.
  destruct (seed_from_kit.book 1 g) as [[e|[]] g1]; [reflexivity|].
  destruct answer; reflexivity.
Qed.



End Seeding.

End SeedFacts.

(** X20: seeding stops before any reservation when there is nothing to
    expand: a kit that is no object raises AttributeError, and a kit whose
    "product_ideas" is absent or empty, or cut to nothing by [max_items]
    (zero, or negative and at least as large as the list), raises "No
    product_ideas found in kit JSON."; in both cases the guard is left as
    it was.  With a non-empty list and a positive [max_items] the
    reservation is made. *)
Theorem seeding_needs_ideas (str_of_container : Data.pyval -> string)
  (fresh : nat -> string) (kv : list (string * Data.pyval))
  (l : list Data.pyval) (max_items : Z) (answer : Data.reply)
  (g : Budget.BudgetGuard) :
  Data.get_or "product_ideas" (Data.PList []) kv = Data.PList l ->
  ((l = [] \/ max_items = 0%Z \/ (Z.of_nat (List.length l) <= - max_items)%Z) ->
   seed_kit.seed str_of_container fresh (Data.PDict kv) max_items answer g
   = (inl (Data.RuntimeError (Data.Text "No product_ideas found in kit JSON.")), g))
  /\ (l <> [] -> (0 < max_items)%Z ->
      snd (seed_kit.seed str_of_container fresh (Data.PDict kv) max_items
             answer g)
      = snd (seed_from_kit.book 1 g))
  /\ seed_kit.seed str_of_container fresh (Data.PList l) max_items answer g
     = (inl Data.AttributeError, g)
  /\ (forall kit,
        Props.is_object kit = false ->
        seed_kit.seed str_of_container fresh kit max_items answer g
        = (inl Data.AttributeError, g)).
Proof.
  intros Hk.
  rewrite (seed_on_list str_of_container fresh kv l max_items answer g Hk).
  split; [|split; [|split]].
  - intros H. rewrite clamp_zero.
    + reflexivity.
    + destruct H as [-> | [-> | H]]; [left; reflexivity|auto|auto].
  - intros Hl Hm.
    pose proof (clamp_pos (List.length l) max_items) as Hc.
    destruct l as [|x l]; [congruence|].
    destruct (PyMore.clamp (List.length (x :: l)) max_items) as [|n] eqn:E.
    + exfalso. apply Hc; [discriminate|exact Hm|reflexivity].
    + apply expand_state.
  - reflexivity.
  - intros kit Hkit. destruct kit; try discriminate Hkit; reflexivity.
Qed.

Lemma seeding_needs_ideas_witness :
  seed_kit.seed (fun _ => "") (fun _ => "A1B2C3")
    (Data.PDict [("product_ideas", Data.PList [Data.PStr "desk mat"])])
    0 (Data.Returns (Data.PDict []))
    (Budget.init 10%float seed_from_kit.EST_COST_PER_CALL)
  = (inl (Data.RuntimeError (Data.Text "No product_ideas found in kit JSON.")),
     Budget.init 10%float seed_from_kit.EST_COST_PER_CALL).
Proof.
  apply (proj1 (seeding_needs_ideas (fun _ => "") (fun _ => "A1B2C3")
                  [("product_ideas", Data.PList [Data.PStr "desk mat"])]
                  [Data.PStr "desk mat"] 0 (Data.Returns (Data.PDict []))
                  (Budget.init 10%float seed_from_kit.EST_COST_PER_CALL)
                  eq_refl)).
  right. left. reflexivity.
Defined.



Section HandleFacts.
Import Py Data.

(** A handle made by joining the words of a lowered title is left alone by
    [strip] and [lower]. *)
Lemma joined_words_stable (x : string) :
  lower (strip (join "-" (split (lower x)))) = join "-" (split (lower x)).
Proof.
  pose proof (ws_slug_stable x) as H. rewrite split_strip in H.
  assert (Hl : all_chars lower_fixed (join "-" (split (lower x))) = true).
  { eapply all_chars_impl; [|exact H].
    intros c Hc. apply andb_true_iff in Hc as [Hc _]. exact Hc. }
  assert (Hn : all_chars non_space (join "-" (split (lower x))) = true).
  { eapply all_chars_impl; [|exact H].
    intros c Hc. apply andb_true_iff in Hc as [_ Hc]. exact Hc. }
  rewrite (strip_of_non_space _ Hn). apply lower_of_fixed, Hl.
Qed.

Lemma strip_not_all_space (s : string) :
  strip s <> "" -> all_chars isspace (strip s) = false.
Proof.
  intros Hne. destruct (all_chars isspace (strip s)) eqn:E; [|reflexivity].
  exfalso. apply Hne. apply split_all_space in E. rewrite split_strip in E.
  apply split_nil_all_space in E. unfold strip, strip_by.
  apply rstrip_all. clear Hne.
  induction s as [|c s IH]; [reflexivity|].
  simpl in *. apply andb_true_iff in E as [Hc Hs]. rewrite Hc. auto.
Qed.

End HandleFacts.

(** X22: the placeholder images are named after a handle that is never
    empty: a row without a title (blank after [strip]) is drawn as
    "Product" with the handle "product"; for any other row the handle is
    the one the Schema Normalizer derives from the same title. *)
Theorem placeholder_handle (row : Data.dict Data.cell) :
  let h :=
    placeholder_image_maker.slug
      (Data.CStr (placeholder_image_maker.title_of row)) in
  h <> ""
  /\ placeholder_image_maker.files_of row
     = ["images_in/" ++ h ++ "-1.png"; "images_in/" ++ h ++ "-2.png"]
  /\ (Py.strip (Data.py_str (Data.get_or "Title" (Data.CStr "") row)) = "" ->
      h = "product")
  /\ (Py.strip (Data.py_str (Data.get_or "Title" (Data.CStr "") row)) <> "" ->
      h = ecom_agents.slug (Data.get_or "Title" (Data.CStr "") row)).
Proof.
  cbv zeta. unfold placeholder_image_maker.title_of.
  set (t := Data.py_str (Data.get_or "Title" (Data.CStr "") row)).
  assert (Hblank : Py.strip t = "" ->
            placeholder_image_maker.slug
              (Data.CStr (Py.str_or (Py.strip t) "Product")) = "product").
  { intros ->. reflexivity. }
  assert (Hfull : Py.strip t <> "" ->
            placeholder_image_maker.slug
              (Data.CStr (Py.str_or (Py.strip t) "Product"))
            = ecom_agents.slug (Data.get_or "Title" (Data.CStr "") row)).
  { intros Hne.
    assert (He : Py.is_empty (Py.strip t) = false)
      by (destruct (Py.strip t); [congruence|reflexivity]).
    unfold Py.str_or. rewrite He.
    unfold placeholder_image_maker.slug, ecom_agents.slug. cbn [Data.py_str].
    fold t. rewrite !split_strip, lower_strip, split_strip. reflexivity. }
  split; [|split; [reflexivity|split; assumption]].
  destruct (Py.strip t) as [|c s] eqn:E.
  - rewrite Hblank by reflexivity. discriminate.
  - rewrite Hfull by discriminate. intros H.
    apply (ws_slug_empty (Data.py_str (Data.get_or "Title" (Data.CStr "") row)))
      in H.
    fold t in H. pose proof (split_all_space t H) as Hs.
    rewrite <- split_strip in Hs. rewrite E in Hs.
    pose proof (strip_not_all_space t) as Hn. rewrite E in Hn.
    apply split_nil_all_space in Hs. rewrite Hn in Hs; [discriminate|].
    discriminate.
Qed.

Lemma placeholder_handle_witness :
  placeholder_image_maker.files_of [("Title", Data.CStr "  ")]
  = ["images_in/product-1.png"; "images_in/product-2.png"].
Proof.
  destruct (placeholder_handle [("Title", Data.CStr "  ")])
    as (_ & Hfiles & Hblank & _).
  rewrite Hfiles, (Hblank eq_refl). reflexivity.
Defined.

(** X23: the checkout page lists at most eight products, the first rows
    of the file, with titles cut to 70 characters; every product listed
    can be bought: looking up its own handle finds a product with that
    handle (the first one, when two share a title), and a look-up fails
    only for a handle no listed product has. *)
Theorem listed_products_are_found (to_amount : string -> option Z)
  (df : list (Data.dict Data.cell)) :
  let catalog := stripe_checkout_site.load_catalog to_amount df in
  List.length catalog = Nat.min 8 (List.length df)
  /\ Forall (fun p => (String.length (stripe_checkout_site.title p) <= 70)%nat)
       catalog
  /\ (forall p,
        In p catalog ->
        exists q,
          stripe_checkout_site.find_product catalog
            (stripe_checkout_site.handle p) = Some q
          /\ stripe_checkout_site.handle q = stripe_checkout_site.handle p)
  /\ (forall s,
        stripe_checkout_site.find_product catalog s = None
        <-> forall p, In p catalog ->
                      stripe_checkout_site.handle p <> Py.lower (Py.strip s)).
Proof.
  cbv zeta. unfold stripe_checkout_site.load_catalog.
  split; [rewrite length_firstn, length_map; reflexivity|].
  assert (Hin : forall p,
             In p (firstn 8 (map (stripe_checkout_site.product_of to_amount) df)) ->
             exists r, p = stripe_checkout_site.product_of to_amount r).
  { intros p Hp.
    assert (Hall : In p (map (stripe_checkout_site.product_of to_amount) df)).
    { rewrite <- (firstn_skipn 8). apply in_or_app. left. exact Hp. }
    apply in_map_iff in Hall as (r & <- & _). eauto. }
  split; [|split].
  - apply Forall_forall. intros p Hp. destruct (Hin p Hp) as [r ->].
    apply slice_to_length.
  - intros p Hp. destruct (Hin p Hp) as [r Hr].
    assert (Hst : Py.lower (Py.strip (stripe_checkout_site.handle p))
                  = stripe_checkout_site.handle p).
    { rewrite Hr. apply joined_words_stable. }
    unfold stripe_checkout_site.find_product. rewrite Hst.
    destruct (find _ _) as [q|] eqn:E.
    + apply find_some in E as [_ E]. apply String.eqb_eq in E. eauto.
    + exfalso. apply (find_none _ _ E) in Hp.
      rewrite String.eqb_refl in Hp. discriminate Hp.
  - intros s. unfold stripe_checkout_site.find_product. split.
    + intros E p Hp Heq. apply (find_none _ _ E) in Hp.
      rewrite Heq, String.eqb_refl in Hp. discriminate Hp.
    + intros H. destruct (find _ _) as [q|] eqn:E; [|reflexivity].
      apply find_some in E as [Hq E]. apply String.eqb_eq in E.
      exfalso. apply (H q Hq E).
Qed.

Section SalvageFacts.
Import Py Data PyMore.

Lemma index_of_first (c : ascii) (pre rest : string) :
  has_char c pre = false ->
  index_of c (pre ++ String c rest) = Some (String.length pre).
Proof.
  unfold has_char. intros H. apply negb_false_iff in H.
  induction pre as [|d pre IH]; simpl.
  - rewrite Ascii.eqb_refl. reflexivity.
  - simpl in H. apply andb_true_iff in H as [Hd Hp].
    apply negb_true_iff in Hd. rewrite Hd, (IH Hp). reflexivity.
Qed.

Lemma rindex_of_absent (c : ascii) (s : string) :
  has_char c s = false -> rindex_of c s = None.
Proof.
  unfold has_char. intros H. apply negb_false_iff in H.
  induction s as [|d s IH]; [reflexivity|].
  simpl in *. apply andb_true_iff in H as [Hd Hs].
  apply negb_true_iff in Hd. rewrite (IH Hs), Hd. reflexivity.
Qed.

Lemma rindex_of_last (c : ascii) (x post : string) :
  has_char c post = false ->
  rindex_of c (x ++ String c post) = Some (String.length x).
Proof.
  intros H. induction x as [|d x IH]; simpl.
  - rewrite (rindex_of_absent c post H), Ascii.eqb_refl. reflexivity.
  - rewrite IH. reflexivity.
Qed.

Lemma append_assoc (a b c : string) : (a ++ b) ++ c = a ++ (b ++ c).
Proof. induction a as [|x a IH]; simpl; [reflexivity|]. rewrite IH. reflexivity. Qed.

Lemma drop_app (a b : string) : drop (String.length a) (a ++ b) = b.
Proof. induction a as [|c a IH]; [destruct b; reflexivity|exact IH]. Qed.

Lemma slice_to_app (a b : string) : slice_to (String.length a) (a ++ b) = a.
Proof.
  induction a as [|c a IH]; [destruct b; reflexivity|].
  simpl. rewrite IH. reflexivity.
Qed.

Lemma clamp_inside (n i : nat) : (i <= n)%nat -> clamp n (Z.of_nat i) = i.
Proof.
  intros H. unfold clamp.
  destruct (Z.of_nat i <? 0)%Z eqn:E; [apply Z.ltb_lt in E; lia|].
  rewrite Nat2Z.id. apply Nat.min_l, H.
Qed.

End SalvageFacts.

(** X24: when the answer, once stripped, holds an opening brace followed
    later by a closing brace, both salvage routines hand the same text to
    the second [json.loads]: what lies from the first opening brace to the
    last closing brace, both included; whatever precedes or follows is
    dropped. *)
Theorem salvage_is_outermost_braces (content pre mid post : string) :
  Py.strip content = pre ++ "{" ++ mid ++ "}" ++ post ->
  PyMore.has_char "{" pre = false ->
  PyMore.has_char "}" post = false ->
  salvage.optimizer_span content = "{" ++ mid ++ "}"
  /\ salvage.research_span content = "{" ++ mid ++ "}".
Proof.
  intros Hc Hpre Hpost. split.
  - unfold salvage.optimizer_span, PyMore.find, PyMore.rfind. rewrite Hc.
    change (pre ++ "{" ++ mid ++ "}" ++ post)
      with (pre ++ String "{" (mid ++ String "}" post)).
    rewrite (index_of_first "{" pre _ Hpre).
    replace (pre ++ String "{" (mid ++ String "}" post))
      with ((pre ++ String "{" mid) ++ String "}" post)
      by (rewrite append_assoc; reflexivity).
    rewrite (rindex_of_last "}" (pre ++ String "{" mid) post Hpost).
    unfold PyMore.slice.
    assert (Hlen : String.length ((pre ++ String "{" mid) ++ String "}" post)
                   = (String.length pre + 1 + String.length mid + 1
                      + String.length post)%nat).
    { repeat (rewrite append_length || cbn [String.length]). lia. }
    rewrite Hlen.
    assert (Hx : String.length (pre ++ String "{" mid)
                 = (String.length pre + 1 + String.length mid)%nat).
    { repeat (rewrite append_length || cbn [String.length]). lia. }
    rewrite Hx.
    replace (Z.of_nat (String.length pre + 1 + String.length mid) + 1)%Z
      with (Z.of_nat (String.length pre + 1 + String.length mid + 1)) by lia.
    rewrite !clamp_inside by lia.
    replace (String.length pre + 1 + String.length mid + 1 - String.length pre)%nat
      with (String.length (String "{" mid ++ "}")) 
      by (repeat (rewrite append_length || cbn [String.length]); lia).
    replace ((pre ++ String "{" mid) ++ String "}" post)
      with (pre ++ ((String "{" mid ++ "}") ++ post)).
    + rewrite drop_app, slice_to_app. reflexivity.
    + rewrite !append_assoc. reflexivity.
  - unfold salvage.research_span, PyMore.after_first, PyMore.before_last.
    rewrite Hc.
    change (pre ++ "{" ++ mid ++ "}" ++ post)
      with (pre ++ String "{" (mid ++ String "}" post)).
    rewrite (index_of_first "{" pre _ Hpre).
    change (PyMore.drop (S (String.length pre))
              (pre ++ String "{" (mid ++ String "}" post)))
      with (PyMore.drop (S (String.length pre))
              (pre ++ String "{" (mid ++ String "}" post))).
    assert (Hd : PyMore.drop (S (String.length pre))
                   (pre ++ String "{" (mid ++ String "}" post))
                 = mid ++ String "}" post).
    { clear. induction pre as [|c pre IH]; [destruct mid; reflexivity|exact IH]. }
    rewrite Hd, (rindex_of_last "}" mid post Hpost), slice_to_app.
    reflexivity.
Qed.

Lemma salvage_is_outermost_braces_witness :
  salvage.optimizer_span "Sure! {title: Desk Mat, tags: {a}} Hope it helps. "
  = "{title: Desk Mat, tags: {a}}"
  /\ salvage.research_span "Sure! {title: Desk Mat, tags: {a}} Hope it helps. "
     = "{title: Desk Mat, tags: {a}}".
Proof.
  apply (salvage_is_outermost_braces
           "Sure! {title: Desk Mat, tags: {a}} Hope it helps. "
           "Sure! " "title: Desk Mat, tags: {a}" " Hope it helps.");
    reflexivity.
Defined.

(** X25: without any brace the two salvage routines part: the optimizer
    hands the empty string to [json.loads], the research bot the whole
    stripped text wrapped in a pair of braces. *)
Theorem salvage_without_braces (content : string) :
  PyMore.has_char "{" (Py.strip content) = false ->
  PyMore.has_char "}" (Py.strip content) = false ->
  salvage.optimizer_span content = ""
  /\ salvage.research_span content = "{" ++ Py.strip content ++ "}".
Proof.
  intros Ho Hc.
  assert (Hi : PyMore.index_of "{" (Py.strip content) = None).
  { revert Ho. unfold PyMore.has_char. generalize (Py.strip content) as s.
    intros s H. apply negb_false_iff in H.
    induction s as [|d s IH]; [reflexivity|].
    simpl in *. apply andb_true_iff in H as [Hd Hs].
    apply negb_true_iff in Hd. rewrite Hd, (IH Hs). reflexivity. }
  split.
  - unfold salvage.optimizer_span, PyMore.find, PyMore.rfind.
    rewrite Hi, (rindex_of_absent "}" _ Hc). unfold PyMore.slice.
    change (-1 + 1)%Z with 0%Z.
    set (n := String.length (Py.strip content)).
    assert (H0 : PyMore.clamp n 0 = 0%nat) by reflexivity.
    rewrite H0. reflexivity.
  - unfold salvage.research_span, PyMore.after_first, PyMore.before_last.
    rewrite Hi, (rindex_of_absent "}" _ Hc). reflexivity.
Qed.

Lemma salvage_without_braces_witness :
  salvage.optimizer_span " I cannot answer that. " = ""
  /\ salvage.research_span " I cannot answer that. "
     = "{I cannot answer that.}".
Proof.
  apply (salvage_without_braces " I cannot answer that. "); reflexivity.
Defined.
